(** * Netatmo Energy adapter: cloud client, token life cycle and reconciliation

    A shallow embedding of [netatmo.js] (class [Netatmo]), of
    [adapter.js] (classes [RoomDevice], [NetatmoEnergyAdapter],
    [CallbackAPIHandler] and [CallbackListener], and the two
    interpolation functions) and of [config.js] ([addToConfig]),
    followed by the properties established about them.

    Conventions of the embedding.
    - JavaScript numbers are exact rationals ([Q]) extended with [NaN];
      rounding of IEEE doubles and the infinities are not represented.
      Every divisor the program uses is a non-zero literal.
    - An [async] function is cut at each [await fetch(...)] into a start
      part, which runs up to the request, and a resume part, which runs
      from the answer onwards.  An answer arrives whole (reading its body
      is no step of its own) and its body is JSON.  A call that is not
      awaited ([this.refresh()]) runs its start part in place; its resume
      part runs when the answer arrives.
    - The environment of the two objects (pending timers, requests sent,
      console, configuration database, gateway) is part of the state.
    - The classes [Device] and [Property] come from the gateway library:
      [findProperty] reads the map of properties, [setCachedValue] stores
      the value, [notifyPropertyChanged] tells the gateway.
    - Objects that are shared (the devices of the adapter, the listeners
      of the callback handler) live in a store and are referred to by
      their position in it: an object held under two keys is one
      object. *)

From Stdlib Require Import QArith Qround Lqa ZArith Lia Bool Ascii.
From stdpp Require Import gmap strings list fin_maps.

Local Open Scope string_scope.

(** ** JavaScript values *)

Inductive JsNum : Type :=
| Num (q : Q)
| NaN.

Inductive JsValue : Type :=
| JsUndefined
| JsNull
| JsBoolean (b : bool)
| JsNumber (n : JsNum)
| JsString (s : string).

(** What a [throw] carries: the exceptions of the program are [Error]s
    built from a message; the runtime raises a [TypeError] when a
    property of [undefined] is read and a [RangeError] when an invalid
    date is printed. *)
Inductive Exn : Type :=
| Error (message : string)
| TypeError
| RangeError.

(** How a call ends: with a value, or with an exception (for an [async]
    function: a rejected promise). *)
Inductive Completion (A : Type) : Type :=
| Return (a : A)
| Throw (e : Exn).
Arguments Return {A} a.
Arguments Throw {A} e.

(** ECMAScript's StringToNumber is part of the language, not of this
    program: it is an interface here. *)
Class EcmaStringToNumber : Type :=
  StringToNumber : string -> JsNum.

Definition num_add (a b : JsNum) : JsNum :=
  match a, b with
  | Num x, Num y => Num (x + y)
  | _, _ => NaN
  end.

Definition num_sub (a b : JsNum) : JsNum :=
  match a, b with
  | Num x, Num y => Num (x - y)
  | _, _ => NaN
  end.

Definition num_mul (a b : JsNum) : JsNum :=
  match a, b with
  | Num x, Num y => Num (x * y)
  | _, _ => NaN
  end.

(** [x / 0] is an infinity or [NaN] in JavaScript; no infinity is
    represented, so a zero divisor gives [NaN]. *)
Definition num_div (a b : JsNum) : JsNum :=
  match a, b with
  | Num x, Num y => if Qeq_bool y 0 then NaN else Num (x / y)
  | _, _ => NaN
  end.

(** [a >= b] and [a > b] on numbers: false as soon as one side is [NaN]. *)
Definition num_ge (a b : JsNum) : bool :=
  match a, b with
  | Num x, Num y => Qle_bool y x
  | _, _ => false
  end.

Definition num_gt (a b : JsNum) : bool :=
  match a, b with
  | Num x, Num y => negb (Qle_bool x y)
  | _, _ => false
  end.

(** [a === b] on numbers: [NaN] equals nothing, itself included. *)
Definition num_eq (a b : JsNum) : bool :=
  match a, b with
  | Num x, Num y => Qeq_bool x y
  | _, _ => false
  end.

Definition Math_min (a b : JsNum) : JsNum :=
  match a, b with
  | Num x, Num y => Num (if Qle_bool x y then x else y)
  | _, _ => NaN
  end.

Definition Math_max (a b : JsNum) : JsNum :=
  match a, b with
  | Num x, Num y => Num (if Qle_bool x y then y else x)
  | _, _ => NaN
  end.

Definition Math_floor (a : JsNum) : JsNum :=
  match a with
  | Num x => Num (inject_Z (Qfloor x))
  | NaN => NaN
  end.

(** [l[i]] on an array of numbers used in arithmetic: a missing index
    reads [undefined], which arithmetic turns into [NaN]. *)
Definition num_index (l : list Q) (i : nat) : JsNum :=
  match l !! i with
  | Some q => Num q
  | None => NaN
  end.

(** Truthiness, as tested by [if (x)], [!x] and [x || y]. *)
Definition ToBoolean (v : JsValue) : bool :=
  match v with
  | JsUndefined | JsNull => false
  | JsBoolean b => b
  | JsNumber (Num q) => negb (Qeq_bool q 0)
  | JsNumber NaN => false
  | JsString s => negb (String.eqb s "")
  end.

Definition truthy (s : string) : bool := negb (String.eqb s "").

Section Coercions.
Context {ecma : EcmaStringToNumber}.

Definition ToNumber (v : JsValue) : JsNum :=
  match v with
  | JsUndefined => NaN
  | JsNull => Num 0
  | JsBoolean b => Num (if b then 1 else 0)
  | JsNumber n => n
  | JsString s => StringToNumber s
  end.

(** [x == y] on primitive values (IsLooselyEqual). *)
Definition loosely_equal (x y : JsValue) : bool :=
  match x, y with
  | JsUndefined, (JsUndefined | JsNull) => true
  | JsNull, (JsUndefined | JsNull) => true
  | JsUndefined, _ | JsNull, _ => false
  | _, JsUndefined | _, JsNull => false
  | JsBoolean a, JsBoolean b => Bool.eqb a b
  | JsString a, JsString b => String.eqb a b
  | _, _ => num_eq (ToNumber x) (ToNumber y)
  end.

(** ** The interpolation functions of the adapter *)

(** [function clamp(num, max = 100, min = 0)] *)
Definition clamp (num : JsNum) (max min : JsNum) : JsNum :=
  Math_max (Math_min num max) min.

(** [function mapSignalToPercent(signal, min, range = 30)];
    [clamp] is called with its default bounds. *)
Definition mapSignalToPercent (signal : JsValue) (min range : JsNum) : JsNum :=
  clamp (num_add
           (num_mul (num_div (num_sub min (ToNumber signal)) range) (Num 90))
           (Num 10))
        (Num 100) (Num 0).

Definition mapRfToPercent (rf : JsValue) : JsNum :=
  mapSignalToPercent rf (Num 90) (Num 30).

Record LevelDefinition : Type := {
  lv_empty : Q;
  lv_low : Q;
  lv_medium : Q;
  lv_high : Q;
  lv_full : Q
}.

(** The table [LEVELS], read at [moduleType]: only ["NRV"] is a key
    (the keys every object inherits are left aside). *)
Definition LEVELS (moduleType : string) : option LevelDefinition :=
  if String.eqb moduleType "NRV"
  then Some {| lv_empty := 2200; lv_low := 2200; lv_medium := 2400;
               lv_high := 2700; lv_full := 3200 |}
  else None.

(** [Object.values(levelDefinition)]: the five levels in the order the
    literal lists them. *)
Definition Object_values (d : LevelDefinition) : list Q :=
  [lv_empty d; lv_low d; lv_medium d; lv_high d; lv_full d].

Definition steps : list Q := [20; 50; 80; 100]%Q.

(** [function interpolateBattery(batteryLevel, moduleType)].  A module
    type that is no key of [LEVELS] makes [Object.values(undefined)]
    raise a [TypeError]. *)
Definition interpolateBattery (batteryLevel : JsValue) (moduleType : string)
  : Completion JsNum :=
  match LEVELS moduleType with
  | None => Throw TypeError
  | Some levelDefinition =>
      let levels := Object_values levelDefinition in
      let v := ToNumber batteryLevel in
      if num_ge v (Num (lv_full levelDefinition)) then Return (Num 100)
      else
        let branch :=
          if num_ge v (Num (lv_high levelDefinition)) then Some 3%nat
          else if num_ge v (Num (lv_medium levelDefinition)) then Some 2%nat
          else if num_ge v (Num (lv_low levelDefinition)) then Some 1%nat
          else None in
        match branch with
        | None => Return (Num 0)
        | Some i =>
            let pct :=
              num_add (num_index steps (i - 1))
                (num_div
                   (num_mul (num_sub (num_index steps i) (num_index steps (i - 1)))
                            (num_sub v (num_index levels i)))
                   (num_sub (num_index levels (i + 1)) (num_index levels i))) in
            Return (Math_floor pct)
        end
  end.

End Coercions.

(** ** Strings *)

Fixpoint string_drop (n : nat) (s : string) : string :=
  match n, s with
  | O, _ => s
  | S n', String _ s' => string_drop n' s'
  | S _, EmptyString => EmptyString
  end.

(** [s.startsWith(pattern)] *)
Fixpoint String_startsWith (pattern s : string) : bool :=
  match pattern, s with
  | EmptyString, _ => true
  | String _ _, EmptyString => false
  | String a pattern', String b s' =>
      Ascii.eqb a b && String_startsWith pattern' s'
  end.

(** [s.replace(pattern, replacement)] for a string pattern: only the
    first occurrence of [pattern] is replaced ([replacement] holds no
    [$] pattern in this program). *)
Fixpoint String_replace (pattern replacement s : string) : string :=
  if String_startsWith pattern s
  then replacement +:+ string_drop (String.length pattern) s
  else match s with
       | EmptyString => EmptyString
       | String c s' => String c (String_replace pattern replacement s')
       end.

(** [s.split(separator)] for a separator of one character. *)
Fixpoint String_split (separator : ascii) (s : string) : list string :=
  match s with
  | EmptyString => [EmptyString]
  | String c s' =>
      if Ascii.eqb c separator then EmptyString :: String_split separator s'
      else match String_split separator s' with
           | piece :: pieces => String c piece :: pieces
           | [] => [String c EmptyString]
           end
  end.

(** [s.includes(c)] for one character. *)
Fixpoint String_includes (c : ascii) (s : string) : bool :=
  match s with
  | EmptyString => false
  | String c' s' => Ascii.eqb c' c || String_includes c s'
  end.

(** ** What the cloud sends *)

Record Room : Type := {
  room_id : string;
  room_name : string
}.

(** A radio valve as listed by [homesdata]. *)
Record ModuleRecord : Type := {
  module_id : string;
  module_name : string;
  module_type : string;
  module_room_id : string
}.

(** A field that the answer may leave out is an [option]: [None] reads
    [undefined]. *)
Record Home : Type := {
  home_id : string;
  home_name : string;
  home_rooms : option (list Room);
  home_modules : option (list ModuleRecord)
}.

Record RoomStatus : Type := {
  rs_id : string;
  therm_measured_temperature : JsValue;
  therm_setpoint_temperature : JsValue;
  heating_power_request : JsValue
}.

Record ModuleStatus : Type := {
  ms_id : string;
  ms_type : string;
  battery_level : JsValue;
  rf_strength : JsValue
}.

Record HomeStatus : Type := {
  status_rooms : option (list RoomStatus);
  status_modules : option (list ModuleStatus)
}.

(** The parsed JSON of an answer, by the shapes the program reads.  A
    string field that is left out reads as the empty string (the program
    only tests such fields for truthiness), a number that is left out as
    [None]. *)
Inductive Json : Type :=
| JsonToken (access_token : string) (expires_in : option Z) (refresh_token : string)
| JsonHomes (homes : option (list Home))
| JsonHome (home : option HomeStatus)
| JsonBody (body : JsValue)
| JsonOther.

Record Response : Type := {
  status : Z;
  json : Json
}.

(** [response.ok] of node-fetch: the status is in the range 200-299. *)
Definition ok (response : Response) : bool :=
  (200 <=? status response)%Z && (status response <? 300)%Z.

(** [!response.ok || response.status !== 200] *)
Definition not_ok_200 (response : Response) : bool :=
  negb (ok response) || negb (status response =? 200)%Z.

Definition access_token (data : Json) : string :=
  match data with JsonToken a _ _ => a | _ => "" end.

Definition expires_in (data : Json) : option Z :=
  match data with JsonToken _ e _ => e | _ => None end.

Definition data_refresh_token (data : Json) : string :=
  match data with JsonToken _ _ r => r | _ => "" end.

(** A [POST] request: the form fields in the order they are appended and
    the [Authorization] header, if any. *)
Record Request : Type := {
  url : string;
  body : list (string * JsValue);
  authorization : option string
}.

(** ** The state *)

Record Config : Type := {
  token : string;
  expires : option Z;
  refresh_token : string;
  client_id : string;
  client_secret : string
}.

Record Timer : Type := {
  handle : nat;
  delay : Z
}.

Inductive Level : Type := log | error.

(** The continuation that waits for the answer to a request. *)
Inductive Awaiter : Type :=
| refresh_awaits
| authenticate_awaits
| createDevices_awaits
| updateHomeData_awaits
| updateHomeData_home_awaits (home : Home)
| setRoomThermPoint_awaits
| setThermostatMode_awaits.

Inductive PropertyClass : Type :=
| ThermostatProperty
| TargetTemperatureProperty
| ThermostatModeProperty.

(** A property of the gateway: its class and its cached value. *)
Record Property : Type := {
  property_class : PropertyClass;
  value : JsValue
}.

Record RoomDevice : Type := {
  id : string;
  properties : gmap string Property
}.

(** Tables: a plain object used as a table from keys to values, with
    its keys in the order of insertion, which is the order [for ... in]
    visits them (no key of the adapter is an array index). *)
Definition table_get {V : Type} (key : string) (table : list (string * V))
  : option V :=
  snd <$> List.find (fun entry => String.eqb (fst entry) key) table.

(** [table[key] = v]: a key that is set again keeps its place. *)
Fixpoint table_set {V : Type} (key : string) (v : V) (table : list (string * V))
  : list (string * V) :=
  match table with
  | [] => [(key, v)]
  | (k, v') :: rest =>
      if String.eqb k key then (k, v) :: rest
      else (k, v') :: table_set key v rest
  end.

Definition table_keys {V : Type} (table : list (string * V)) : list string :=
  List.map fst table.

(** The [Netatmo] object ([config], [refreshInterval]), the adapter
    object ([devices], [moduleMapping]) and their environment: the device
    objects ([objects]: a device is referred to by its position there,
    so that one device can be held under two keys of [devices]), the
    timers that are pending, the requests sent so far and the
    continuations that wait for an answer (by the position of the
    request in [sent]), the console (level and first argument of each
    call), the calls of [addToConfig] (with the [expires] and the
    [refresh_token] they pass), the property changes notified to the
    gateway (device, property, value), and the exceptions of the
    promises that reject without the adapter catching them.  Lists grow
    at the end. *)
Record World : Type := {
  config : Config;
  refreshInterval : option nat;
  devices : list (string * nat);
  objects : list RoomDevice;
  moduleMapping : gmap string string;
  timers : list Timer;
  timers_created : nat;
  sent : list Request;
  inflight : list (nat * Awaiter);
  console : list (Level * string);
  saved : list (option Z * string);
  notified : list (string * string * JsValue);
  uncaught : list Exn
}.

Definition set_config (c : Config) (w : World) : World :=
  {| config := c; refreshInterval := refreshInterval w; devices := devices w;
     objects := objects w; moduleMapping := moduleMapping w;
     timers := timers w; timers_created := timers_created w; sent := sent w;
     inflight := inflight w; console := console w; saved := saved w;
     notified := notified w; uncaught := uncaught w |}.

Definition set_token (t : string) (w : World) : World :=
  set_config {| token := t; expires := expires (config w);
                refresh_token := refresh_token (config w);
                client_id := client_id (config w);
                client_secret := client_secret (config w) |} w.

Definition set_expires (e : option Z) (w : World) : World :=
  set_config {| token := token (config w); expires := e;
                refresh_token := refresh_token (config w);
                client_id := client_id (config w);
                client_secret := client_secret (config w) |} w.

Definition set_refresh_token (r : string) (w : World) : World :=
  set_config {| token := token (config w); expires := expires (config w);
                refresh_token := r;
                client_id := client_id (config w);
                client_secret := client_secret (config w) |} w.

Definition set_refreshInterval (h : option nat) (w : World) : World :=
  {| config := config w; refreshInterval := h; devices := devices w;
     objects := objects w; moduleMapping := moduleMapping w;
     timers := timers w; timers_created := timers_created w; sent := sent w;
     inflight := inflight w; console := console w; saved := saved w;
     notified := notified w; uncaught := uncaught w |}.

Definition set_devices (d : list (string * nat)) (w : World) : World :=
  {| config := config w; refreshInterval := refreshInterval w; devices := d;
     objects := objects w; moduleMapping := moduleMapping w;
     timers := timers w; timers_created := timers_created w; sent := sent w;
     inflight := inflight w; console := console w; saved := saved w;
     notified := notified w; uncaught := uncaught w |}.

Definition set_objects (o : list RoomDevice) (w : World) : World :=
  {| config := config w; refreshInterval := refreshInterval w;
     devices := devices w; objects := o; moduleMapping := moduleMapping w;
     timers := timers w; timers_created := timers_created w; sent := sent w;
     inflight := inflight w; console := console w; saved := saved w;
     notified := notified w; uncaught := uncaught w |}.

Definition set_moduleMapping (m : gmap string string) (w : World) : World :=
  {| config := config w; refreshInterval := refreshInterval w;
     devices := devices w; objects := objects w; moduleMapping := m;
     timers := timers w; timers_created := timers_created w; sent := sent w;
     inflight := inflight w; console := console w; saved := saved w;
     notified := notified w; uncaught := uncaught w |}.

Definition set_timers (t : list Timer) (n : nat) (w : World) : World :=
  {| config := config w; refreshInterval := refreshInterval w;
     devices := devices w; objects := objects w;
     moduleMapping := moduleMapping w; timers := t; timers_created := n;
     sent := sent w; inflight := inflight w; console := console w;
     saved := saved w; notified := notified w; uncaught := uncaught w |}.

Definition set_network (s : list Request) (i : list (nat * Awaiter)) (w : World)
  : World :=
  {| config := config w; refreshInterval := refreshInterval w;
     devices := devices w; objects := objects w;
     moduleMapping := moduleMapping w; timers := timers w;
     timers_created := timers_created w; sent := s; inflight := i;
     console := console w; saved := saved w; notified := notified w;
     uncaught := uncaught w |}.

Definition set_console (c : list (Level * string)) (w : World) : World :=
  {| config := config w; refreshInterval := refreshInterval w;
     devices := devices w; objects := objects w;
     moduleMapping := moduleMapping w; timers := timers w;
     timers_created := timers_created w; sent := sent w;
     inflight := inflight w; console := c; saved := saved w;
     notified := notified w; uncaught := uncaught w |}.

Definition set_saved (s : list (option Z * string)) (w : World) : World :=
  {| config := config w; refreshInterval := refreshInterval w;
     devices := devices w; objects := objects w;
     moduleMapping := moduleMapping w; timers := timers w;
     timers_created := timers_created w; sent := sent w;
     inflight := inflight w; console := console w; saved := s;
     notified := notified w; uncaught := uncaught w |}.

Definition set_notified (n : list (string * string * JsValue)) (w : World)
  : World :=
  {| config := config w; refreshInterval := refreshInterval w;
     devices := devices w; objects := objects w;
     moduleMapping := moduleMapping w; timers := timers w;
     timers_created := timers_created w; sent := sent w;
     inflight := inflight w; console := console w; saved := saved w;
     notified := n; uncaught := uncaught w |}.

Definition set_uncaught (u : list Exn) (w : World) : World :=
  {| config := config w; refreshInterval := refreshInterval w;
     devices := devices w; objects := objects w;
     moduleMapping := moduleMapping w; timers := timers w;
     timers_created := timers_created w; sent := sent w;
     inflight := inflight w; console := console w; saved := saved w;
     notified := notified w; uncaught := u |}.

(** [console.log(message, ...)] and [console.error(message, ...)] *)
Definition console_log (message : string) (w : World) : World :=
  set_console (console w ++ [(log, message)]) w.

Definition console_error (message : string) (w : World) : World :=
  set_console (console w ++ [(error, message)]) w.

(** [fetch(url, { method: 'POST', body, headers })]: the request leaves
    and [k] waits for its answer. *)
Definition fetch (request : Request) (k : Awaiter) (w : World) : World :=
  set_network (sent w ++ [request])
              (inflight w ++ [(length (sent w), k)]) w.

(** [setTimeout(callback, delay)]: a new pending timer; the first
    component is its handle. *)
Definition setTimeout (d : Z) (w : World) : nat * World :=
  let h := timers_created w in
  (h, set_timers (timers w ++ [{| handle := h; delay := d |}]) (S h) w).

(** [clearTimeout(handle)] *)
Definition clearTimeout (h : nat) (w : World) : World :=
  set_timers (filter (fun t => handle t <> h) (timers w)) (timers_created w) w.

(** A promise is rejected with [e] and the adapter does not catch it:
    the rejection is recorded and the process goes on. *)
Definition reject (e : Exn) (w : World) : World :=
  set_uncaught (uncaught w ++ [e]) w.

(** A piece of code that runs without interruption: it changes the state
    and ends with a value or an exception. *)
Definition Js (A : Type) : Type := World -> Completion A * World.

Definition ret {A : Type} (a : A) : Js A := fun w => (Return a, w).

Definition throw {A : Type} (e : Exn) : Js A := fun w => (Throw e, w).

Definition bind {A B : Type} (m : Js A) (k : A -> Js B) : Js B :=
  fun w =>
    match m w with
    | (Return a, w') => k a w'
    | (Throw e, w') => (Throw e, w')
    end.

(** A statement that cannot throw. *)
Definition exec (f : World -> World) : Js unit := fun w => (Return tt, f w).

Notation "'let*' x ':=' m 'in' k" := (bind m (fun x => k))
  (at level 10, x pattern, m at level 100, k at level 200).
Notation "m ';;' k" := (bind m (fun _ => k))
  (at level 100, k at level 200, right associativity).

(** [list.forEach(f)]: an exception of [f] leaves the loop. *)
Fixpoint forEach {A : Type} (f : A -> Js unit) (l : list A) : Js unit :=
  match l with
  | [] => ret tt
  | x :: rest => f x ;; forEach f rest
  end.

(** What an [async] call leaves behind when the adapter does not await
    it: the state it reached, with its exception, if any, recorded as
    uncaught. *)
Definition detached {A : Type} (m : Js A) (w : World) : World :=
  match m w with
  | (Return _, w') => w'
  | (Throw e, w') => reject e w'
  end.

(** ** [class Netatmo] *)

(** [updateConfig()]: [addToConfig] with [expires] and [refresh_token].
    [addToConfig] catches and logs every failure of the database, so it
    always completes. *)
Definition updateConfig (w : World) : World :=
  set_saved (saved w ++ [(expires (config w), refresh_token (config w))]) w.

(** [refresh()] up to its [await fetch(...)]. *)
Definition refresh_start (w : World) : World :=
  let w := console_log "Starting token refresh" w in
  let w := set_refreshInterval None w in
  let w := set_token "" w in
  if negb (truthy (refresh_token (config w))) then
    console_error "Can not refresh token." w
  else
    let w := console_log "Refreshing netatmo token using existing refresh token." w in
    fetch {| url := "https://api.netatmo.com/oauth2/token";
             body := [("grant_type", JsString "refresh_token");
                      ("refresh_token", JsString (refresh_token (config w)));
                      ("client_id", JsString (client_id (config w)));
                      ("client_secret", JsString (client_secret (config w)))];
             authorization := None |}
          refresh_awaits w.

(** [(this.config.expires || Date.now()) - Date.now()], with [now] the
    reading of [Date.now()]: an [expires] that is [undefined] or [0] is
    falsy. *)
Definition expiresIn (now : Z) (w : World) : Z :=
  ((match expires (config w) with
    | Some e => if (e =? 0)%Z then now else e
    | None => now
    end) - now)%Z.

(** [initRefresh()] *)
Definition initRefresh (now : Z) (w : World) : World :=
  if (0 <? expiresIn now w)%Z && truthy (token (config w)) then
    let w' := console_log "Token still valid for:" w in
    let '(h, w') := setTimeout (expiresIn now w) w' in
    set_refreshInterval (Some h) w'
  else
    refresh_start w.

(** [constructor(config, packageName)]: the object starts from the
    configuration it is given, with no timer. *)
Definition Netatmo_constructor (now : Z) (w : World) : World :=
  if truthy (refresh_token (config w)) then initRefresh now w else w.

(** [Date.now() + (data.expires_in * 1000)] *)
Definition expiry (now : Z) (data : Json) : option Z :=
  match expires_in data with
  | Some seconds => Some (now + seconds * 1000)%Z
  | None => None
  end.

(** The time values a [Date] can hold: at most 8.64e15 milliseconds
    from the epoch, on either side. *)
Definition valid_date (t : Z) : bool :=
  (-8640000000000000 <=? t)%Z && (t <=? 8640000000000000)%Z.

(** [refresh()] from the answer of the token endpoint on.  [now] is the
    clock when the answer is handled and [now'] the clock when
    [initRefresh] runs, after the awaited [updateConfig]; nothing else is
    taken to run in between.  Nothing awaits [refresh]: when the expiry
    is not a number, or is no time value of a [Date],
    [new Date(expires).toISOString()] raises a [RangeError] that nothing
    catches. *)
Definition refresh_resume (now now' : Z) (response : Response) (w : World)
  : World :=
  if not_ok_200 response then
    let w := console_error "Failed to refresh token." w in
    let w := set_token "" w in
    let w := set_refresh_token "" w in
    updateConfig w
  else
    let data := json response in
    let w := set_token (access_token data) w in
    let w := set_expires (expiry now data) w in
    let w := set_refresh_token (data_refresh_token data) w in
    match expires (config w) with
    | None => reject RangeError w
    | Some e =>
        if valid_date e then
          let w := console_log "Refreshed token until:" w in
          let w := updateConfig w in
          initRefresh now' w
        else reject RangeError w
    end.

(** [get needsAuth()] *)
Definition needsAuth (w : World) : bool :=
  negb (truthy (refresh_token (config w))).

Definition unInit (w : World) : World :=
  match refreshInterval w with
  | Some h => clearTimeout h w
  | None => w
  end.

(** The address [authenticate] yields, by its query parameters (before
    [encodeURIComponent] and [join]). *)
Record AuthorizeUrl : Type := {
  au_client_id : string;
  au_redirect_uri : string;
  au_scope : list string;
  au_state : string
}.

(** What the redirect hands back: the query parameters of the callback. *)
Record CallbackData : Type := {
  cb_state : option string;
  cb_code : option string;
  cb_error : option string
}.

Definition present (field : option string) : bool :=
  match field with
  | Some s => truthy s
  | None => false
  end.

(** [`${x}`] for a field of the callback. *)
Definition interpolate (field : option string) : string :=
  match field with
  | Some s => s
  | None => "undefined"
  end.

(** [authenticate(scopes, redirectUri)] up to its [yield]; [state] is the
    nonce drawn with [Math.random()]. *)
Definition authenticate_begin (scopes : list string) (redirectUri state : string)
    (w : World) : AuthorizeUrl :=
  {| au_client_id := client_id (config w); au_redirect_uri := redirectUri;
     au_scope := scopes; au_state := state |}.

(** [authenticate] from the [yield] to its [await fetch(...)]: [data] is
    what the caller passes to [next]. *)
Definition authenticate_resume (scopes : list string) (redirectUri state : string)
    (data : CallbackData) : Js unit :=
  if negb (present (cb_state data))
     || negb (bool_decide (cb_state data = Some state))
     || negb (present (cb_code data))
  then
    throw (Error ("Authentication flow failed. Possible error: "
                  +:+ interpolate (cb_error data)))
  else
    exec (fun w =>
      fetch {| url := "https://api.netatmo.com/oauth2/token";
               body := [("scope", JsString (String.concat " " scopes));
                        ("code", JsString (interpolate (cb_code data)));
                        ("grant_type", JsString "authorization_code");
                        ("client_id", JsString (client_id (config w)));
                        ("client_secret", JsString (client_secret (config w)));
                        ("redirect_uri", JsString redirectUri)];
               authorization := None |}
            authenticate_awaits w).

(** [authenticate] from the answer of the token endpoint on; the clocks
    are as in [refresh_resume]. *)
Definition authenticate_exchange (now now' : Z) (response : Response) : Js unit :=
  if not_ok_200 response then
    throw (Error "Authentication flow failed while retrieving token.")
  else
    exec (fun w =>
      let tokenData := json response in
      let w := set_expires (expiry now tokenData) w in
      let w := set_token (access_token tokenData) w in
      let w := set_refresh_token (data_refresh_token tokenData) w in
      let w := updateConfig w in
      initRefresh now' w).

(** [if (v) { body.append(key, v); }] *)
Definition append_if (key : string) (v : JsValue)
    (form : list (string * JsValue)) : list (string * JsValue) :=
  if ToBoolean v then form ++ [(key, v)] else form.

(** What a cloud operation resolves to: the literal [[]] it returns on
    an answer that is not a plain 200, or what it reads in the answer. *)
Inductive Payload (A : Type) : Type :=
| EmptyArray
| Got (a : A).
Arguments EmptyArray {A}.
Arguments Got {A} a.

(** [data.body.homes], [data.body.home]: reading through a [body] that is
    [undefined] or [null] raises a [TypeError]; a field that is not there
    reads [undefined] ([None]). *)
Definition body_homes (data : Json) : Completion (option (list Home)) :=
  match data with
  | JsonHomes homes => Return homes
  | JsonHome _ => Return None
  | JsonBody (JsUndefined | JsNull) => Throw TypeError
  | JsonBody _ => Return None
  | JsonToken _ _ _ | JsonOther => Throw TypeError
  end.

Definition body_home (data : Json) : Completion (option HomeStatus) :=
  match data with
  | JsonHome home => Return home
  | JsonHomes _ => Return None
  | JsonBody (JsUndefined | JsNull) => Throw TypeError
  | JsonBody _ => Return None
  | JsonToken _ _ _ | JsonOther => Throw TypeError
  end.

Definition lift {A : Type} (c : Completion A) : Js A := fun w => (c, w).

(** The guard every cloud operation starts with. *)
Definition require_token : Js unit :=
  fun w =>
    if negb (truthy (token (config w))) then (Throw (Error "No token found"), w)
    else (Return tt, w).

Definition bearer (w : World) : option string :=
  Some ("Bearer " +:+ token (config w)).

(** [getHomeData(homeId)] up to its [await fetch(...)]; [k] is the
    caller that awaits the operation. *)
Definition getHomeData_start (k : Awaiter) (homeId : JsValue) : Js unit :=
  require_token ;;
  exec (fun w =>
    fetch {| url := "https://api.netatmo.com/api/homesdata";
             body := append_if "home_id" homeId [];
             authorization := bearer w |} k w).

(** [getHomeData] from the answer on; an answer [{ body: {} }], whose
    [homes] is no array, gives [[]]. *)
Definition getHomeData_resume (response : Response) : Js (list Home) :=
  exec (console_log "Got response for Home Data") ;;
  if not_ok_200 response then
    if (status response =? 403)%Z then
      exec (set_token "") ;;
      exec refresh_start ;;
      throw (Error "Unauthorized")
    else ret []
  else
    let* homes := lift (body_homes (json response)) in
    match homes with
    | None => ret []
    | Some homes => ret homes
    end.

Definition getHomeStatus_start (k : Awaiter) (homeId : JsValue) : Js unit :=
  require_token ;;
  exec (fun w =>
    fetch {| url := "https://api.netatmo.com/api/homestatus";
             body := append_if "home_id" homeId [];
             authorization := bearer w |} k w).

Definition getHomeStatus_resume (response : Response)
  : Js (Payload (option HomeStatus)) :=
  exec (console_log "Got response for Home Status") ;;
  if not_ok_200 response then
    if (status response =? 403)%Z then
      exec (set_token "") ;;
      exec refresh_start ;;
      throw (Error "Unauthorized")
    else ret EmptyArray
  else
    let* home := lift (body_home (json response)) in
    ret (Got home).

(** The argument of [setRoomThermPoint] and of [setThermostatMode]. *)
Record ThermPoint : Type := {
  homeId : JsValue;
  roomId : JsValue;
  mode : JsValue;
  temp : JsValue
}.

Record ThermMode : Type := {
  tm_homeId : JsValue;
  tm_mode : JsValue
}.

Definition setRoomThermPoint_start (k : Awaiter) (arg : ThermPoint) : Js unit :=
  require_token ;;
  exec (fun w =>
    fetch {| url := "https://api.netatmo.com/api/setroomthermpoint";
             body := append_if "temp" (temp arg)
                       (append_if "mode" (mode arg)
                          (append_if "room_id" (roomId arg)
                             (append_if "home_id" (homeId arg) [])));
             authorization := bearer w |} k w).

(** [Got data] stands for [data.body], the body of the answer [data]. *)
Definition setRoomThermPoint_resume (response : Response) : Js (Payload Json) :=
  exec (console_log "Got response for Set Room Therm Point") ;;
  if not_ok_200 response then
    if (status response =? 403)%Z then
      exec (set_token "") ;;
      exec refresh_start ;;
      throw (Error "Unauthorized")
    else ret EmptyArray
  else ret (Got (json response)).

Definition setThermostatMode_start (k : Awaiter) (arg : ThermMode) : Js unit :=
  require_token ;;
  exec (fun w =>
    fetch {| url := "https://api.netatmo.com/api/setthermmode";
             body := append_if "mode" (tm_mode arg)
                       (append_if "home_id" (tm_homeId arg) []);
             authorization := bearer w |} k w).

Definition setThermostatMode_resume (response : Response) : Js (Payload Json) :=
  exec (console_log "Got response for Set Therm Mode") ;;
  if not_ok_200 response then
    if (status response =? 403)%Z then
      exec (set_token "") ;;
      exec refresh_start ;;
      throw (Error "Unauthorized")
    else ret EmptyArray
  else ret (Got (json response)).

(** The four cloud operations as one family, to speak of all of them
    at once: an operation with its argument, what it resolves to, and its
    two parts. *)
Inductive Operation : Type :=
| GetHomeData (homeId : JsValue)
| GetHomeStatus (homeId : JsValue)
| SetRoomThermPoint (arg : ThermPoint)
| SetThermostatMode (arg : ThermMode).

Inductive Resolved : Type :=
| Homes (homes : list Home)
| Status (home : Payload (option HomeStatus))
| Confirmation (body : Payload Json).

Definition start_of (op : Operation) (k : Awaiter) : Js unit :=
  match op with
  | GetHomeData homeId => getHomeData_start k homeId
  | GetHomeStatus homeId => getHomeStatus_start k homeId
  | SetRoomThermPoint arg => setRoomThermPoint_start k arg
  | SetThermostatMode arg => setThermostatMode_start k arg
  end.

Definition resume_of (op : Operation) (response : Response) : Js Resolved :=
  match op with
  | GetHomeData _ => let* homes := getHomeData_resume response in ret (Homes homes)
  | GetHomeStatus _ => let* home := getHomeStatus_resume response in ret (Status home)
  | SetRoomThermPoint _ =>
      let* body := setRoomThermPoint_resume response in ret (Confirmation body)
  | SetThermostatMode _ =>
      let* body := setThermostatMode_resume response in ret (Confirmation body)
  end.

(** The [[]] an operation returns. *)
Definition empty_of (op : Operation) : Resolved :=
  match op with
  | GetHomeData _ => Homes []
  | GetHomeStatus _ => Status EmptyArray
  | SetRoomThermPoint _ | SetThermostatMode _ => Confirmation EmptyArray
  end.

(** ** [class RoomDevice] and [class NetatmoEnergyAdapter] *)

Definition AVAILABLE_TYPES : list string := ["NRV"].

Definition DEVICE_PREFIX : string := "thermostat-room-".

(** [AVAILABLE_TYPES.includes(type)] *)
Definition includes (l : list string) (x : string) : bool :=
  existsb (String.eqb x) l.

(** An element of an array of strings read by position: [undefined] past
    the end. *)
Definition at_index (l : list string) (i : nat) : JsValue :=
  match l !! i with
  | Some x => JsString x
  | None => JsUndefined
  end.

(** The constructor shared by the three property classes: the cached
    value is [propertyDescription.value], which no description of this
    adapter sets, and the gateway is notified. *)
Definition Property_new (device_id name : string) (c : PropertyClass)
  : Property * list (string * string * JsValue) :=
  ({| property_class := c; value := JsUndefined |},
   [(device_id, name, JsUndefined)]).

(** The body of the loop of the [RoomDevice] constructor, for a property
    [name] whose description has [@type] [type]. *)
Definition RoomDevice_add_property (device_id : string)
    (acc : gmap string Property * list (string * string * JsValue))
    (description : string * string)
  : gmap string Property * list (string * string * JsValue) :=
  let '(name, type) := description in
  let '(property, n1) := Property_new device_id name ThermostatProperty in
  let '(property, n2) :=
    if String.eqb type "TargetTemperatureProperty" then
      Property_new device_id name TargetTemperatureProperty
    else if String.eqb type "ThermostatModeProperty" then
      Property_new device_id name ThermostatModeProperty
    else (property, []) in
  (<[name := property]> (fst acc), (snd acc ++ n1 ++ n2)%list).

(** [new RoomDevice(adapter, id, deviceDescription)]: the device and
    the notifications its properties send. *)
Definition RoomDevice_new (device_id : string)
    (descriptions : list (string * string))
  : RoomDevice * list (string * string * JsValue) :=
  let '(props, ns) :=
    fold_left (RoomDevice_add_property device_id) descriptions (∅, []) in
  ({| id := device_id; properties := props |}, ns).

(** The properties [createDevices] gives every room: name and [@type]. *)
Definition room_properties : list (string * string) :=
  [("temperature", "TemperatureProperty");
   ("targetTemperature", "TargetTemperatureProperty");
   ("heating", "HeatingCoolingProperty");
   ("mode", "ThermostatModeProperty")].

(** [getIds()] *)
Definition getIds (device : RoomDevice) : list string :=
  let withoutPrefix := String_replace DEVICE_PREFIX "" (id device) in
  let ids := String_split "-" withoutPrefix in
  ids.

(** [addModule(module)] *)
Definition addModule (module : ModuleRecord) (device : RoomDevice)
  : RoomDevice * list (string * string * JsValue) :=
  let '(signal, n1) :=
    Property_new (id device) (module_id module +:+ "-signal") ThermostatProperty in
  let '(battery, n2) :=
    Property_new (id device) (module_id module +:+ "-battery") ThermostatProperty in
  ({| id := id device;
      properties := <[module_id module +:+ "-battery" := battery]>
                      (<[module_id module +:+ "-signal" := signal]>
                         (properties device)) |},
   (n1 ++ n2)%list).

(** [this.devices[key]]: the device held under [key], with the
    reference to it, if any. *)
Definition device_at (key : string) (w : World) : option (nat * RoomDevice) :=
  match table_get key (devices w) with
  | Some ref =>
      match objects w !! ref with
      | Some device => Some (ref, device)
      | None => None
      end
  | None => None
  end.

(** [this.devices[key]], used as the receiver of a method call. *)
Definition the_device (key : string) : Js (nat * RoomDevice) :=
  fun w =>
    match device_at key w with
    | Some found => (Return found, w)
    | None => (Throw TypeError, w)
    end.

Section Adapter.
Context {ecma : EcmaStringToNumber}.

(** [updateProperty(propertyName, value)] on a device: the device
    afterwards and the notifications sent.  [findProperty] gives
    [undefined] for a name the device has not; [setCachedValue] stores
    the value as it is (no property of this adapter is a boolean). *)
Definition updateProperty (propertyName : string) (v : JsValue)
    (device : RoomDevice)
  : Completion (RoomDevice * list (string * string * JsValue)) :=
  match properties device !! propertyName with
  | None => Throw TypeError
  | Some property =>
      if negb (loosely_equal (value property) v) then
        Return ({| id := id device;
                   properties :=
                     <[propertyName :=
                         {| property_class := property_class property;
                            value := v |}]> (properties device) |},
                [(id device, propertyName, v)])
      else Return (device, [])
  end.

(** [device.updateProperty(propertyName, value)] for the device held
    under [key] in [this.devices]: the device object is changed in
    place. *)
Definition device_updateProperty (key propertyName : string) (v : JsValue)
  : Js unit :=
  let* (ref, device) := the_device key in
  let* (device', ns) := lift (updateProperty propertyName v device) in
  exec (fun w =>
    set_notified (notified w ++ ns)
      (set_objects (<[ref := device']> (objects w)) w)).

(** The two loops of the callback of [updateHomeData]. *)
Definition update_room (home : Home) (room : RoomStatus) : Js unit :=
  let deviceId := home_id home +:+ "-" +:+ rs_id room in
  device_updateProperty deviceId "temperature"
    (therm_measured_temperature room) ;;
  device_updateProperty deviceId "targetTemperature"
    (therm_setpoint_temperature room) ;;
  device_updateProperty deviceId "heating"
    (if num_gt (ToNumber (heating_power_request room)) (Num 0)
     then JsString "heating" else JsString "off").

Definition update_module (home : Home) (module : ModuleStatus) : Js unit :=
  if negb (includes AVAILABLE_TYPES (ms_type module)) then ret tt
  else
    let* mapped := (fun w => (Return (moduleMapping w !! ms_id module), w)) in
    let deviceId :=
      home_id home +:+ "-" +:+
      match mapped with Some room => room | None => "undefined" end in
    let* _ := the_device deviceId in
    let* battery :=
      lift (interpolateBattery (battery_level module) (ms_type module)) in
    device_updateProperty deviceId (ms_id module +:+ "-battery")
      (JsNumber battery) ;;
    device_updateProperty deviceId (ms_id module +:+ "-signal")
      (JsNumber (mapRfToPercent (rf_strength module))).

(** [x.rooms] and [x.modules] of what [getHomeStatus] resolved to. *)
Definition rooms_of (homeStatusData : Payload (option HomeStatus))
  : Js (list RoomStatus) :=
  match homeStatusData with
  | Got (Some home) =>
      match status_rooms home with
      | Some rooms => ret rooms
      | None => throw TypeError
      end
  | Got None | EmptyArray => throw TypeError
  end.

Definition modules_of (homeStatusData : Payload (option HomeStatus))
  : Js (list ModuleStatus) :=
  match homeStatusData with
  | Got (Some home) =>
      match status_modules home with
      | Some modules => ret modules
      | None => throw TypeError
      end
  | Got None | EmptyArray => throw TypeError
  end.

(** The callback [async (home) => ...] of [updateHomeData], up to its
    [await], and from the answer on. *)
Definition updateHomeData_home_start (home : Home) : Js unit :=
  getHomeStatus_start (updateHomeData_home_awaits home)
    (JsString (home_id home)).

Definition updateHomeData_home_resume (home : Home) (response : Response)
  : Js unit :=
  let* homeStatusData := getHomeStatus_resume response in
  let* rooms := rooms_of homeStatusData in
  forEach (update_room home) rooms ;;
  let* modules := modules_of homeStatusData in
  forEach (update_module home) modules.

(** [updateHomeData()] up to its [await], and from the answer on: each
    call of the callback is a promise that [forEach] drops. *)
Definition updateHomeData_start : Js unit :=
  getHomeData_start updateHomeData_awaits JsUndefined.

Definition updateHomeData_resume (response : Response) : Js unit :=
  let* homeData := getHomeData_resume response in
  exec (fun w =>
    fold_left (fun w home => detached (updateHomeData_home_start home) w)
              homeData w).

(** [createDevices()] up to its [await]. *)
Definition createDevices_start : Js unit :=
  getHomeData_start createDevices_awaits JsUndefined.

(** The two loops over a home: a room gets a new device object, held
    under [home-room]; the device of the room of a valve is changed in
    place. *)
Definition create_room (home : Home) (room : Room) : Js unit :=
  exec (fun w =>
    let key := home_id home +:+ "-" +:+ room_id room in
    let '(device, ns) := RoomDevice_new (DEVICE_PREFIX +:+ key) room_properties in
    set_notified (notified w ++ ns)
      (set_devices (table_set key (length (objects w)) (devices w))
         (set_objects (objects w ++ [device]) w))).

Definition create_module (home : Home) (module : ModuleRecord) : Js unit :=
  if negb (includes AVAILABLE_TYPES (module_type module)) then ret tt
  else
    exec (fun w =>
      let deviceId := home_id home +:+ "-" +:+ module_room_id module in
      match device_at deviceId w with
      | Some (ref, roomDevice) =>
          let '(device, ns) := addModule module roomDevice in
          set_moduleMapping
            (<[module_id module := module_room_id module]> (moduleMapping w))
            (set_notified (notified w ++ ns)
               (set_objects (<[ref := device]> (objects w)) w))
      | None => w
      end).

Definition create_home (home : Home) : Js unit :=
  let* rooms := lift (match home_rooms home with
                      | Some rooms => Return rooms
                      | None => Throw TypeError
                      end) in
  forEach (create_room home) rooms ;;
  let* modules := lift (match home_modules home with
                        | Some modules => Return modules
                        | None => Throw TypeError
                        end) in
  forEach (create_module home) modules.

(** [handleDeviceAdded(device)], which the adapter inherits from the
    gateway library, for the device at [ref]: the device is filed in
    [this.devices] under its id as well; announcing it to the gateway is
    the library's business and is not represented. *)
Definition handleDeviceAdded (ref : nat) (w : World) : World :=
  match objects w !! ref with
  | Some device => set_devices (table_set (id device) ref (devices w)) w
  | None => w
  end.

(** [for (const deviceId in this.devices) { ... }]: the keys the table
    has when the loop starts are visited in their order, each read when
    its turn comes.  (A key that the loop itself adds holds a device
    under its own id: visiting it as well would change nothing in the
    table.) *)
Definition announce_devices (w : World) : World :=
  fold_left (fun w deviceId =>
               match table_get deviceId (devices w) with
               | Some ref => handleDeviceAdded ref w
               | None => w
               end)
            (table_keys (devices w)) w.

(** [createDevices()] from the answer on. *)
Definition createDevices_resume (response : Response) : Js unit :=
  let* homeData := getHomeData_resume response in
  forEach create_home homeData ;;
  exec announce_devices.

(** [setRoomThermPoint(homeId, roomId, temp)] and
    [setThermostatMode(homeId, value)] of the adapter. *)
Definition adapter_setRoomThermPoint (home room temperature : JsValue)
  : Js unit :=
  setRoomThermPoint_start setRoomThermPoint_awaits
    {| homeId := home; roomId := room; mode := JsString "manual";
       temp := temperature |}.

Definition adapter_setThermostatMode (home v : JsValue) : Js unit :=
  let m := match v with
           | JsString "off" => "away"
           | _ => "schedule"
           end in
  setThermostatMode_start setThermostatMode_awaits
    {| tm_homeId := home; tm_mode := JsString m |}.

(** [setRoomThermPoint(temp)] and [setThermostatMode(value)] of a
    device. *)
Definition device_setRoomThermPoint (device : RoomDevice) (temperature : JsValue)
  : Js unit :=
  let ids := getIds device in
  adapter_setRoomThermPoint (at_index ids 0) (at_index ids 1) temperature.

Definition device_setThermostatMode (device : RoomDevice) (v : JsValue)
  : Js unit :=
  let ids := getIds device in
  adapter_setThermostatMode (at_index ids 0) v.

(** ** The event loop *)

Definition awaiter_of (n : nat) (l : list (nat * Awaiter)) : option Awaiter :=
  snd <$> List.find (fun entry => Nat.eqb (fst entry) n) l.

(** The answer to request number [n] arrives and the continuation that
    waits for it runs.  Both callers of [createDevices] catch its
    exception and log it; the results of [authenticate] and of the two
    setters go to the gateway. *)
Definition answer (now now' : Z) (n : nat) (response : Response) (w : World)
  : World :=
  match awaiter_of n (inflight w) with
  | None => w
  | Some k =>
      let w := set_network (sent w)
                 (List.filter (fun entry => negb (Nat.eqb (fst entry) n))
                              (inflight w)) w in
      match k with
      | refresh_awaits => refresh_resume now now' response w
      | authenticate_awaits =>
          detached (authenticate_exchange now now' response) w
      | createDevices_awaits =>
          match createDevices_resume response w with
          | (Return _, w') => w'
          | (Throw _, w') => console_error "DEVICE_CREATION_FAILED" w'
          end
      | updateHomeData_awaits => detached (updateHomeData_resume response) w
      | updateHomeData_home_awaits home =>
          detached (updateHomeData_home_resume home response) w
      | setRoomThermPoint_awaits =>
          detached (setRoomThermPoint_resume response) w
      | setThermostatMode_awaits =>
          detached (setThermostatMode_resume response) w
      end
  end.

(** Request number [n] fails without an answer: [fetch] rejects with [e]
    and so does the function that awaits it; only the callers of
    [createDevices] catch. *)
Definition failure (n : nat) (e : Exn) (w : World) : World :=
  match awaiter_of n (inflight w) with
  | None => w
  | Some k =>
      let w := set_network (sent w)
                 (List.filter (fun entry => negb (Nat.eqb (fst entry) n))
                              (inflight w)) w in
      match k with
      | createDevices_awaits => console_error "DEVICE_CREATION_FAILED" w
      | _ => reject e w
      end
  end.

(** The pending timer [h] fires: its callback is [() => this.refresh()]. *)
Definition fire (h : nat) (w : World) : World :=
  if existsb (fun t => Nat.eqb (handle t) h) (timers w) then
    refresh_start
      (set_timers (List.filter (fun t => negb (Nat.eqb (handle t) h)) (timers w))
                  (timers_created w) w)
  else w.

(** The poll timer ticks: [() => this.updateHomeData()]. *)
Definition poll (w : World) : World := detached updateHomeData_start w.

(** What can happen to the process: the answer to a request arrives or
    the request fails, a refresh timer fires, the poll timer ticks, the
    gateway starts a discovery or sets the target temperature or the mode
    of the device held under a key, or the redirect of the authorization
    comes back to an [authenticate] that waits with its nonce. *)
Inductive Event : Type :=
| Answer (now now' : Z) (n : nat) (response : Response)
| Failure (n : nat) (e : Exn)
| Fire (h : nat)
| Poll
| Discover
| SetTemperature (key : string) (temperature : JsValue)
| SetMode (key : string) (v : JsValue)
| Redirect (scopes : list string) (redirectUri state : string)
    (data : CallbackData).

Definition step (event : Event) (w : World) : World :=
  match event with
  | Answer now now' n response => answer now now' n response w
  | Failure n e => failure n e w
  | Fire h => fire h w
  | Poll => poll w
  | Discover =>
      match createDevices_start w with
      | (Return _, w') => w'
      | (Throw _, w') => console_error "DEVICE_CREATION_FAILED" w'
      end
  | SetTemperature key temperature =>
      detached (let* (_, device) := the_device key in
                device_setRoomThermPoint device temperature) w
  | SetMode key v =>
      detached (let* (_, device) := the_device key in
                device_setThermostatMode device v) w
  | Redirect scopes redirectUri state data =>
      detached (authenticate_resume scopes redirectUri state data) w
  end.

Definition run (events : list Event) (w : World) : World :=
  fold_left (fun w event => step event w) events w.

End Adapter.

(** An event that stores a token: a 200 answer to a refresh or to the
    exchange of an authorization code. *)
Definition grants (event : Event) (w : World) : bool :=
  match event with
  | Answer _ _ n response =>
      match awaiter_of n (inflight w) with
      | Some (refresh_awaits | authenticate_awaits) => (status response =? 200)%Z
      | _ => false
      end
  | _ => false
  end.

Section Grants.
Context {ecma : EcmaStringToNumber}.

(** No event of the run stores a token. *)
Fixpoint grant_free (events : list Event) (w : World) : Prop :=
  match events with
  | [] => True
  | event :: rest => grants event w = false /\ grant_free rest (step event w)
  end.

End Grants.

(** A refresh attempt is in flight: a call of [refresh] waits for the
    token endpoint. *)
Definition refresh_in_flight (w : World) : Prop :=
  exists n : nat, (n, refresh_awaits) ∈ inflight w.

(** The request [refresh] sends for the configuration [c]. *)
Definition refresh_request (c : Config) : Request :=
  {| url := "https://api.netatmo.com/oauth2/token";
     body := [("grant_type", JsString "refresh_token");
              ("refresh_token", JsString (refresh_token c));
              ("client_id", JsString (client_id c));
              ("client_secret", JsString (client_secret c))];
     authorization := None |}.

(** What each operation posts to, and the arguments it is called with,
    under the names of the form fields and in the order the code tests
    them. *)
Definition endpoint (op : Operation) : string :=
  match op with
  | GetHomeData _ => "https://api.netatmo.com/api/homesdata"
  | GetHomeStatus _ => "https://api.netatmo.com/api/homestatus"
  | SetRoomThermPoint _ => "https://api.netatmo.com/api/setroomthermpoint"
  | SetThermostatMode _ => "https://api.netatmo.com/api/setthermmode"
  end.

Definition arguments_of (op : Operation) : list (string * JsValue) :=
  match op with
  | GetHomeData homeId | GetHomeStatus homeId => [("home_id", homeId)]
  | SetRoomThermPoint arg =>
      [("home_id", homeId arg); ("room_id", roomId arg); ("mode", mode arg);
       ("temp", temp arg)]
  | SetThermostatMode arg => [("home_id", tm_homeId arg); ("mode", tm_mode arg)]
  end.

(** [value === 'off'] *)
Definition is_off (v : JsValue) : bool :=
  match v with
  | JsString s => String.eqb s "off"
  | _ => false
  end.

(** The line each operation logs when its answer arrives. *)
Definition response_line (op : Operation) : string :=
  match op with
  | GetHomeData _ => "Got response for Home Data"
  | GetHomeStatus _ => "Got response for Home Status"
  | SetRoomThermPoint _ => "Got response for Set Room Therm Point"
  | SetThermostatMode _ => "Got response for Set Therm Mode"
  end.

(** The first state of the process for a configuration: nothing has
    happened yet. *)
Definition boot (c : Config) : World :=
  {| config := c; refreshInterval := None; devices := []; objects := [];
     moduleMapping := ∅;
     timers := []; timers_created := 0; sent := []; inflight := [];
     console := []; saved := []; notified := []; uncaught := [] |}.


(** The error classes of the specification, by the messages the code
    throws: the code only has [Error]. *)
Definition AuthFlowError (e : Exn) : Prop :=
  exists detail : string, e = Error ("Authentication flow failed" +:+ detail).

Definition UnauthorizedError (e : Exn) : Prop :=
  e = Error "No token found" \/ e = Error "Unauthorized".

(** What the adapter keeps about the rooms: the table of devices and
    the devices with their properties, the table of modules and the
    notifications sent. *)
Definition adapter_view (w : World)
  : list (string * nat) * list RoomDevice * gmap string string
    * list (string * string * JsValue) :=
  (devices w, objects w, moduleMapping w, notified w).

(** [m] reads nothing but the adapter's view and, as far as that view
    goes, writes nothing else. *)
Definition view_local {A : Type} (m : Js A) : Prop :=
  forall w1 w2 : World,
    adapter_view w1 = adapter_view w2 ->
    fst (m w1) = fst (m w2)
    /\ adapter_view (snd (m w1)) = adapter_view (snd (m w2)).

(** [m] stores no access token: run without one, it ends without one. *)
Definition keeps_token_empty {A : Type} (m : Js A) : Prop :=
  forall w : World,
    token (config w) = "" -> token (config (snd (m w))) = "".

(** The words of the specification for the signal transform:
    [clamp(x, lo, hi)] keeps [x] between [lo] and [hi]. *)
Definition clamp_spec (x lo hi : Q) : Q :=
  if Qle_bool x lo then lo else if Qle_bool hi x then hi else x.

Definition signalToPercent_spec (s : Q) : Q :=
  clamp_spec (((90 - s) / 30) * 90 + 10) 0 100.

(** The valve table of [interpolateBattery], branch by branch: [p] is the
    percentage the table gives at voltage [v]. *)
Inductive NRV_branch (v : Q) (p : Z) : Prop :=
| NRV_full : (3200 <= v)%Q -> p = 100%Z -> NRV_branch v p
| NRV_high :
    (2700 <= v < 3200)%Q ->
    p = Qfloor (80 + (100 - 80) * (v - 2700) / (3200 - 2700)) ->
    (80 <= p < 100)%Z -> NRV_branch v p
| NRV_medium :
    (2400 <= v < 2700)%Q ->
    p = Qfloor (50 + (80 - 50) * (v - 2400) / (2700 - 2400)) ->
    (50 <= p < 80)%Z -> NRV_branch v p
| NRV_low :
    (2200 <= v < 2400)%Q ->
    p = Qfloor (20 + (50 - 20) * (v - 2200) / (2400 - 2200)) ->
    (20 <= p < 50)%Z -> NRV_branch v p
| NRV_below : (v < 2200)%Q -> p = 0%Z -> NRV_branch v p.

(** [n] is the number [q]. *)
Definition num_is (n : JsNum) (q : Q) : Prop :=
  match n with
  | Num p => (p == q)%Q
  | NaN => False
  end.

Abbreviation num q := (JsNumber (Num q)) (only parsing).

(** ** A process to run

    An interpreter of numeric strings for running the model: it reads
    unsigned decimal digit strings and nothing else.  The theorems hold
    for every interpreter, and the runs below compare no string with a
    number. *)
Fixpoint digits_value (acc : Z) (s : string) : option Z :=
  match s with
  | EmptyString => Some acc
  | String c s' =>
      let n := Z.of_nat (nat_of_ascii c) in
      if (48 <=? n)%Z && (n <=? 57)%Z
      then digits_value (10 * acc + (n - 48))%Z s'
      else None
  end.

Definition StringToNumber_digits : EcmaStringToNumber :=
  fun s => match digits_value 0 s with
           | Some z => Num (inject_Z z)
           | None => NaN
           end.

Definition config0 : Config :=
  {| token := "t0"; expires := Some 10000000%Z; refresh_token := "r0";
     client_id := "id"; client_secret := "secret" |}.

Definition homeA : Home :=
  {| home_id := "A"; home_name := "Home A";
     home_rooms := Some [{| room_id := "1"; room_name := "Living room" |}];
     home_modules := Some [{| module_id := "m1"; module_name := "Valve 1";
                              module_type := "NRV"; module_room_id := "1" |}] |}.

Definition homeB : Home :=
  {| home_id := "B"; home_name := "Home B";
     home_rooms := Some [{| room_id := "2"; room_name := "Bedroom" |}];
     home_modules := Some [{| module_id := "m2"; module_name := "Valve 2";
                              module_type := "NRV"; module_room_id := "2" |}] |}.

Definition homes_answer : Response :=
  {| status := 200; json := JsonHomes (Some [homeA; homeB]) |}.

Definition statusA : HomeStatus :=
  {| status_rooms :=
       Some [{| rs_id := "1";
                therm_measured_temperature := num 21.5;
                therm_setpoint_temperature := num 22;
                heating_power_request := num 40 |}];
     status_modules :=
       Some [{| ms_id := "m1"; ms_type := "NRV";
                battery_level := num 2550; rf_strength := num 100 |}] |}.

Definition statusA_answer : Response :=
  {| status := 200; json := JsonHome (Some statusA) |}.

Definition forbidden : Response := {| status := 403; json := JsonOther |}.

Definition server_error : Response := {| status := 500; json := JsonOther |}.

(** A 2xx answer that is not a 200. *)
Definition created : Response :=
  {| status := 201; json := JsonHome (Some statusA) |}.

Definition grant (access : string) (seconds : Z) (refresh : string) : Response :=
  {| status := 200; json := JsonToken access (Some seconds) refresh |}.

(** The process starts with a token that is still valid, so that the
    constructor schedules timer 0; discovery (request 0) creates the
    devices of both homes. *)
Definition started : World := Netatmo_constructor 1000 (boot config0).

Definition discovered : World :=
  run (ecma := StringToNumber_digits)
    [Discover; Answer 1100 1100 0 homes_answer] started.

(** One poll cycle: request 1 lists the homes, requests 2 and 3 ask for
    the status of home A and of home B. *)
Definition polling : World :=
  run (ecma := StringToNumber_digits)
    [Poll; Answer 2000 2000 1 homes_answer] discovered.

(** Home A is answered, then home B is refused with a 403, which starts
    a refresh (request 4). *)
Definition polled_A : World :=
  run (ecma := StringToNumber_digits)
    [Answer 2100 2100 2 statusA_answer] polling.

Definition polled_A_refused_B : World :=
  run (ecma := StringToNumber_digits) [Answer 2200 2200 3 forbidden] polled_A.

(** The refresh is granted: the scheduler is armed again. *)
Definition refreshed : World :=
  run (ecma := StringToNumber_digits)
    [Answer 3000 3001 4 (grant "t1" 10800 "r1")] polled_A_refused_B.

(** Both homes are refused: two refreshes are started (requests 4 and
    5), and the first one is granted while the second still waits. *)
Definition refused_both : World :=
  run (ecma := StringToNumber_digits)
    [Answer 2100 2100 2 forbidden; Answer 2200 2200 3 forbidden] polling.

Definition granted_first : World :=
  run (ecma := StringToNumber_digits)
    [Answer 3000 3001 4 (grant "t1" 10800 "r1")] refused_both.

(** A device whose valve has reported no [rf_strength]: the signal
    computed from [undefined] is [NaN]. *)
Definition silent_valve : RoomDevice :=
  {| id := "thermostat-room-A-1";
     properties :=
       <["m1-signal" := {| property_class := ThermostatProperty;
                           value := JsNumber NaN |}]>
         (<["temperature" := {| property_class := ThermostatProperty;
                                value := JsUndefined |}]> ∅) |}.

Definition warm_room : RoomDevice :=
  {| id := "thermostat-room-A-1";
     properties :=
       <["temperature" := {| property_class := ThermostatProperty;
                             value := num 21.5 |}]> ∅ |}.

(** The device of a room whose home has the empty string as its id. *)
Definition homeless_room : RoomDevice :=
  {| id := "thermostat-room--1"; properties := ∅ |}.

(** A 200 answer whose JSON has no [body]. *)
Definition no_body : Response := {| status := 200; json := JsonOther |}.

(* ================================================================== *)
(** * Invariants, footprints and the rest of the adapter *)

(** Every pending timer got its handle from [setTimeout]: handles are
    below the number of timers created. *)
Definition fresh_handles (w : World) : Prop :=
  Forall (fun t => (handle t < timers_created w)%nat) (timers w).

(** ** What a piece of code leaves alone, and what it maintains *)

(** [m] changes nothing of what [view] shows of the state. *)
Definition untouched {X A : Type} (view : World -> X) (m : Js A) : Prop :=
  forall w : World, view (snd (m w)) = view w.

(** [m] maintains [I]. *)
Definition preserves {A : Type} (I : World -> Prop) (m : Js A) : Prop :=
  forall w : World, I w -> I (snd (m w)).

(** What the cloud client keeps and does: the configuration, the handle
    of the refresh timer, the timers, the requests and the saves. *)
Definition cloud_view (w : World)
  : Config * option nat * list Timer * nat * list Request
    * list (nat * Awaiter) * list (option Z * string) :=
  (config w, refreshInterval w, timers w, timers_created w, sent w,
   inflight w, saved w).

(** What a device is apart from its cached values: its id and the
    classes of its properties, by name. *)
Definition device_shape (device : RoomDevice) : string * gmap string PropertyClass :=
  (id device, property_class <$> properties device).

Definition shape (w : World)
  : list (string * nat) * list (string * gmap string PropertyClass)
    * gmap string string :=
  (devices w, device_shape <$> objects w, moduleMapping w).

(** A device has the properties of a room. *)
Definition room_like (device : RoomDevice) : Prop :=
  forall name, name ∈ room_properties.*1 ->
               is_Some (properties device !! name).

(** Every key of the table holds a device, whose id starts with the
    prefix and which has the properties of a room; it is held either
    under the key its id is built from or under its id. *)
Definition well_kept (w : World) : Prop :=
  forall (key : string) (ref : nat),
    table_get key (devices w) = Some ref ->
    exists device,
      objects w !! ref = Some device
      /\ (id device = DEVICE_PREFIX +:+ key \/ id device = key)
      /\ String.prefix DEVICE_PREFIX (id device) = true
      /\ room_like device.

(** The room [key] has its device. *)
Definition room_device (key : string) (w : World) : Prop :=
  exists ref device,
    device_at key w = Some (ref, device)
    /\ id device = DEVICE_PREFIX +:+ key
    /\ room_like device.

(** The room [key] has its device and the device has been announced:
    it is held under its id as well. *)
Definition announced (key : string) (w : World) : Prop :=
  exists ref device,
    device_at key w = Some (ref, device)
    /\ table_get (DEVICE_PREFIX +:+ key) (devices w) = Some ref
    /\ id device = DEVICE_PREFIX +:+ key
    /\ room_like device.




(** The value a property caches after [updateProperty(name, v)] when it
    cached [old] before, and the device after it. *)
Section Cached.
Context {ecma : EcmaStringToNumber}.

Definition cached (old v : JsValue) : JsValue :=
  if loosely_equal old v then old else v.

Definition store (name : string) (v : JsValue) (device : RoomDevice) : RoomDevice :=
  {| id := id device;
     properties :=
       alter (fun property =>
                {| property_class := property_class property;
                   value := cached (value property) v |})
             name (properties device) |}.

End Cached.

(** ** [config.js] *)



(** ** [class CallbackAPIHandler] and [class CallbackListener] *)

Definition CALLBACK_SUCCEEDED : string := "CALLBACK_SUCCEEDED".

(** A listener object: its id and its [successPromise], pending
    ([None]) or resolved with the data of a callback.  A promise that is
    resolved stays as it is when [resolvePromise] is called again. *)
Record CallbackListener : Type := {
  listener_id : string;
  successPromise : option CallbackData
}.

(** The handler with the listener objects it can refer to: [listeners]
    is the [Map] from ids to listeners, with its keys in the order of
    insertion and a listener given by its position in
    [listener_heap]. *)
Record CallbackAPIHandler : Type := {
  listeners : list (string * nat);
  listener_heap : list CallbackListener
}.

Record Message : Type := {
  msg_type : string;
  msg_data : CallbackData
}.

Record APIRequest : Type := {
  method : string;
  path : string;
  request_body : CallbackData
}.

Record APIResponse : Type := {
  response_status : Z;
  contentType : option string;
  content : option string
}.

(** [map.set(key, v)] and [map.delete(key)]: a key that is set again
    keeps its place. *)
Fixpoint Map_set {V : Type} (key : string) (v : V) (m : list (string * V))
  : list (string * V) :=
  match m with
  | [] => [(key, v)]
  | (k, v') :: rest =>
      if String.eqb k key then (k, v) :: rest
      else (k, v') :: Map_set key v rest
  end.

Definition Map_delete {V : Type} (key : string) (m : list (string * V))
  : list (string * V) :=
  List.filter (fun entry => negb (String.eqb (fst entry) key)) m.

Definition Map_values {V : Type} (m : list (string * V)) : list V :=
  List.map snd m.

(** [new CallbackAPIHandler(addonManager, packageName)] *)
Definition CallbackAPIHandler_new : CallbackAPIHandler :=
  {| listeners := []; listener_heap := [] |}.

(** [new CallbackListener(id)]: the new object and its reference. *)
Definition CallbackListener_new (id : string) (handler : CallbackAPIHandler)
  : nat * CallbackAPIHandler :=
  (length (listener_heap handler),
   {| listeners := listeners handler;
      listener_heap := (listener_heap handler
                  ++ [{| listener_id := id; successPromise := None |}])%list |}).

(** [addListener(listener)] and [removeListener(listener)], for the
    listener at [ref]. *)
Definition addListener (ref : nat) (handler : CallbackAPIHandler)
  : CallbackAPIHandler :=
  match listener_heap handler !! ref with
  | Some listener =>
      {| listeners := Map_set (listener_id listener) ref (listeners handler);
         listener_heap := listener_heap handler |}
  | None => handler
  end.

Definition removeListener (ref : nat) (handler : CallbackAPIHandler)
  : CallbackAPIHandler :=
  match listener_heap handler !! ref with
  | Some listener =>
      {| listeners := Map_delete (listener_id listener) (listeners handler);
         listener_heap := listener_heap handler |}
  | None => handler
  end.

Definition resolvePromise (data : CallbackData) (listener : CallbackListener)
  : CallbackListener :=
  match successPromise listener with
  | Some _ => listener
  | None => {| listener_id := listener_id listener;
               successPromise := Some data |}
  end.

(** [handleEvent(msg)] of the listener at [ref]. *)
Definition handleEvent (msg : Message) (ref : nat) (handler : CallbackAPIHandler)
  : CallbackAPIHandler :=
  if String.eqb (msg_type msg) CALLBACK_SUCCEEDED then
    {| listeners := listeners handler;
       listener_heap := alter (resolvePromise (msg_data msg)) ref (listener_heap handler) |}
  else handler.

(** [emit(msg)] *)
Definition emit (msg : Message) (handler : CallbackAPIHandler)
  : CallbackAPIHandler :=
  fold_left (fun handler ref => handleEvent msg ref handler)
            (Map_values (listeners handler)) handler.

(** [handleRequest(request)] *)
Definition handleRequest (request : APIRequest) (handler : CallbackAPIHandler)
  : APIResponse * CallbackAPIHandler :=
  if negb (String.eqb (method request) "POST")
     || negb (String.eqb (path request) "/callback")
  then ({| response_status := 404; contentType := None; content := None |},
        handler)
  else
    let handler :=
      emit {| msg_type := CALLBACK_SUCCEEDED;
              msg_data := request_body request |} handler in
    ({| response_status := 200; contentType := Some "application/json";
        content := Some "{}" |}, handler).

(** What [authenticate] of the adapter does to wait for the callback:
    [new CallbackListener('callback-listener')] and [addListener]. *)
Definition listen (handler : CallbackAPIHandler) : nat * CallbackAPIHandler :=
  let '(ref, handler) := CallbackListener_new "callback-listener" handler in
  (ref, addListener ref handler).

(** Every listener the [Map] refers to exists. *)
Definition listeners_exist (handler : CallbackAPIHandler) : Prop :=
  Forall (fun ref => (ref < length (listener_heap handler))%nat)
         (Map_values (listeners handler)).

(** ** [postAuth] and [init] of the adapter *)

(** The adapter with what [postAuth] adds to it: the handle of the
    polling interval, the number of intervals set so far and the errors
    reported to the gateway. *)
Record NetatmoEnergyAdapter : Type := {
  world : World;
  updateInterval : option nat;
  intervals : nat;
  reported : list string
}.

Definition with_world (w : World) (adapter : NetatmoEnergyAdapter) : NetatmoEnergyAdapter :=
  {| world := w; updateInterval := updateInterval adapter;
     intervals := intervals adapter; reported := reported adapter |}.

(** The [catch] of [postAuth] and of [startPairing]. *)
Definition creation_failed (w : World) (adapter : NetatmoEnergyAdapter) : NetatmoEnergyAdapter :=
  {| world := console_error "DEVICE_CREATION_FAILED" w;
     updateInterval := updateInterval adapter;
     intervals := intervals adapter;
     reported := (reported adapter
                  ++ ["Netatmo Energy Devices could not be created."])%list |}.


(** [postAuth()] up to the [await] of [createDevices()], and from the
    answer on. *)
Definition postAuth_start (adapter : NetatmoEnergyAdapter) : NetatmoEnergyAdapter :=
  match createDevices_start (world adapter) with
  | (Return _, w) => with_world w adapter
  | (Throw _, w) => creation_failed w adapter
  end.


(** The constructor of the adapter with its [init]: the [Netatmo] object
    is built from the configuration of the manifest, the tables of the
    adapter are empty, and [postAuth] is called when no authorization is
    needed. *)
Definition init (now : Z) (c : Config) : NetatmoEnergyAdapter :=
  let adapter :=
    {| world := Netatmo_constructor now (boot c); updateInterval := None;
       intervals := 0; reported := [] |} in
  if negb (needsAuth (world adapter)) then postAuth_start adapter else adapter.



(** The refresh cycle is armed: one timer is pending, it is the one
    [initRefresh] kept the handle of, both tokens are stored, and the
    requests in flight are among those sent. *)
Definition armed (w : World) : Prop :=
  exists t,
    timers w = [t] /\ refreshInterval w = Some (handle t)
    /\ (handle t < timers_created w)%nat
    /\ token (config w) <> "" /\ refresh_token (config w) <> ""
    /\ Forall (fun entry => (fst entry < length (sent w))%nat) (inflight w).

(** ** More to run *)

(** A configuration without tokens: the adapter has never been
    authorized. *)
Definition config_none : Config :=
  {| token := ""; expires := None; refresh_token := "";
     client_id := "id"; client_secret := "secret" |}.

(** A 200 answer of the token endpoint that carries no [expires_in]. *)
Definition grant_without_expiry : Response :=
  {| status := 200; json := JsonToken "t1" None "r1" |}.

(** A device as [createDevices] makes it, a state that holds it, and
    its room as a status answer reports it. *)
Definition fresh_room : RoomDevice :=
  {| id := "thermostat-room-A-1";
     properties :=
       <["mode" := {| property_class := ThermostatModeProperty;
                      value := JsUndefined |}]>
         (<["heating" := {| property_class := ThermostatProperty;
                            value := JsUndefined |}]>
            (<["targetTemperature" :=
                 {| property_class := TargetTemperatureProperty;
                    value := JsUndefined |}]>
               (<["temperature" := {| property_class := ThermostatProperty;
                                      value := JsUndefined |}]> ∅))) |}.

Definition one_room : World :=
  set_devices [("A-1", 0%nat)] (set_objects [fresh_room] (boot config0)).

Definition room_report : RoomStatus :=
  {| rs_id := "1"; therm_measured_temperature := num 21.5;
     therm_setpoint_temperature := num 22; heating_power_request := num 0 |}.



(** The callback of an authorization, and a request that is none. *)
Definition callback_request : APIRequest :=
  {| method := "POST"; path := "/callback";
     request_body := {| cb_state := Some "c0ffee"; cb_code := Some "code";
                        cb_error := None |} |}.

Definition stray_request : APIRequest :=
  {| method := "GET"; path := "/callback";
     request_body := {| cb_state := None; cb_code := None; cb_error := None |} |}.



(* ================================================================== *)
(** * Properties *)

(** [lra] knows no division: divisions by a literal become products. *)
Ltac q_consts :=
  unfold Qdiv in *;
  repeat match goal with
         | |- context [Qinv ?c] =>
             let r := eval vm_compute in (Qinv c) in
             progress change (Qinv c) with r
         end.

Section InterpolatorFacts.
Context {ecma : EcmaStringToNumber}.

Lemma Qle_bool_false (x y : Q) : Qle_bool x y = false -> (y < x)%Q.
Proof.
  intros Hb. apply Qnot_le_lt. intros Hle.
  apply Qle_bool_iff in Hle. congruence.
Qed.

Lemma Qfloor_between (x : Q) (lo hi : Z) :
  (inject_Z lo <= x)%Q -> (x < inject_Z hi)%Q -> (lo <= Qfloor x < hi)%Z.
Proof.
  intros Hlo Hhi. split.
  - rewrite <- (Qfloor_Z lo). now apply Qfloor_resp_le.
  - rewrite Zlt_Qlt. eapply Qle_lt_trans; [apply Qfloor_le | exact Hhi].
Qed.

(** *** [mapRfToPercent] *)

Lemma mapRfToPercent_num (s : Q) :
  mapRfToPercent (num s) =
  Math_max (Math_min (Num ((90 - s) / 30 * 90 + 10)) (Num 100)) (Num 0).
Proof. reflexivity. Qed.

Lemma mapRfToPercent_spec (s : Q) :
  exists p : Q,
    mapRfToPercent (num s) = Num p /\
    (p == signalToPercent_spec s)%Q /\ (0 <= p <= 100)%Q.
Proof.
  rewrite mapRfToPercent_num. unfold signalToPercent_spec, clamp_spec.
  set (x := ((90 - s) / 30 * 90 + 10)%Q). cbn [Math_min Math_max].
  eexists; split; [reflexivity |].
  destruct (Qle_bool x 100) eqn:E100;
    [apply Qle_bool_iff in E100 | apply Qle_bool_false in E100].
  - destruct (Qle_bool x 0) eqn:E0;
      [apply Qle_bool_iff in E0 | apply Qle_bool_false in E0].
    + split; [reflexivity | lra].
    + destruct (Qle_bool 100 x) eqn:E;
        [apply Qle_bool_iff in E | apply Qle_bool_false in E];
        split; lra.
  - destruct (Qle_bool 100 0) eqn:E; [discriminate E |].
    destruct (Qle_bool x 0) eqn:E0;
      [apply Qle_bool_iff in E0; lra |].
    destruct (Qle_bool 100 x) eqn:E1;
      [| apply Qle_bool_false in E1; lra].
    split; lra.
Qed.

Lemma mapRfToPercent_value (s q : Q) :
  (signalToPercent_spec s == q)%Q -> num_is (mapRfToPercent (num s)) q.
Proof.
  intros Hq. destruct (mapRfToPercent_spec s) as (p & -> & Hp & _).
  cbn. now rewrite Hp.
Qed.

Lemma signalToPercent_spec_good (s : Q) :
  (s <= 60)%Q -> (signalToPercent_spec s == 100)%Q.
Proof.
  intros Hs. unfold signalToPercent_spec, clamp_spec.
  set (x := ((90 - s) / 30 * 90 + 10)%Q).
  assert (Hx : (100 <= x)%Q) by (subst x; q_consts; lra).
  destruct (Qle_bool x 0) eqn:E0; [apply Qle_bool_iff in E0; lra |].
  destruct (Qle_bool 100 x) eqn:E1; [reflexivity |].
  apply Qle_bool_false in E1. lra.
Qed.

Lemma signalToPercent_spec_bad (s : Q) :
  (280 # 3 <= s)%Q -> (signalToPercent_spec s == 0)%Q.
Proof.
  intros Hs. unfold signalToPercent_spec, clamp_spec.
  set (x := ((90 - s) / 30 * 90 + 10)%Q).
  assert (Hx : (x <= 0)%Q) by (subst x; q_consts; lra).
  apply Qle_bool_iff in Hx. now rewrite Hx.
Qed.

(** C8. For every raw signal value [s], [mapRfToPercent s] is
    [clamp(((90 - s)/30)*90 + 10, 0, 100)] and lies in [0,100];
    [mapRfToPercent 90] is 10 and [mapRfToPercent 100] is 0; raw values
    of 60 or better give 100, raw values of 280/3 or worse give 0. *)
Theorem C8_mapRfToPercent_clamped :
  (forall s : Q, exists p : Q,
      mapRfToPercent (num s) = Num p /\
      (p == signalToPercent_spec s)%Q /\ (0 <= p <= 100)%Q) /\
  num_is (mapRfToPercent (num 90)) 10 /\
  num_is (mapRfToPercent (num 100)) 0 /\
  (forall s : Q, (s <= 60)%Q -> num_is (mapRfToPercent (num s)) 100) /\
  (forall s : Q, (280 # 3 <= s)%Q -> num_is (mapRfToPercent (num s)) 0).
Proof.
  split; [exact mapRfToPercent_spec |].
  split; [apply mapRfToPercent_value; reflexivity |].
  split; [apply mapRfToPercent_value; reflexivity |].
  split; intros s Hs; apply mapRfToPercent_value.
  - now apply signalToPercent_spec_good.
  - now apply signalToPercent_spec_bad.
Qed.

(** *** [interpolateBattery] *)

Lemma interpolateBattery_NRV (v : Q) :
  exists p : Z,
    interpolateBattery (num v) "NRV" = Return (Num (inject_Z p)) /\
    NRV_branch v p.
Proof.
  unfold interpolateBattery.
  cbn [LEVELS String.eqb Ascii.eqb Bool.eqb ToNumber num_ge
       lv_full lv_high lv_medium lv_low].
  destruct (Qle_bool 3200 v) eqn:E4;
    [apply Qle_bool_iff in E4 | apply Qle_bool_false in E4].
  { exists 100%Z. split; [reflexivity | now apply NRV_full]. }
  destruct (Qle_bool 2700 v) eqn:E3;
    [apply Qle_bool_iff in E3 | apply Qle_bool_false in E3].
  { exists (Qfloor (80 + (100 - 80) * (v - 2700) / (3200 - 2700))).
    split; [reflexivity |].
    apply NRV_high; [split; assumption | reflexivity |].
    apply Qfloor_between; unfold inject_Z; q_consts; lra. }
  destruct (Qle_bool 2400 v) eqn:E2;
    [apply Qle_bool_iff in E2 | apply Qle_bool_false in E2].
  { exists (Qfloor (50 + (80 - 50) * (v - 2400) / (2700 - 2400))).
    split; [reflexivity |].
    apply NRV_medium; [split; assumption | reflexivity |].
    apply Qfloor_between; unfold inject_Z; q_consts; lra. }
  destruct (Qle_bool 2200 v) eqn:E1;
    [apply Qle_bool_iff in E1 | apply Qle_bool_false in E1].
  { exists (Qfloor (20 + (50 - 20) * (v - 2200) / (2400 - 2200))).
    split; [reflexivity |].
    apply NRV_low; [split; assumption | reflexivity |].
    apply Qfloor_between; unfold inject_Z; q_consts; lra. }
  exists 0%Z. split; [reflexivity | now apply NRV_below].
Qed.

Lemma NRV_branch_mono (v w : Q) (p q : Z) :
  (v <= w)%Q -> NRV_branch v p -> NRV_branch w q -> (p <= q)%Z.
Proof.
  intros Hvw Hp Hq.
  destruct Hp as [? ?|[? ?] ? ?|[? ?] ? ?|[? ?] ? ?|? ?];
    destruct Hq as [? ?|[? ?] ? ?|[? ?] ? ?|[? ?] ? ?|? ?];
    try lia; try (exfalso; lra);
    subst p q; apply Qfloor_resp_le; q_consts; lra.
Qed.

Lemma Return_Num_inject_Z_inj (p q : Z) :
  @Return JsNum (Num (inject_Z p)) = Return (Num (inject_Z q)) -> p = q.
Proof. intros Heq. now injection Heq. Qed.

(** C7. On the valve table ["NRV"], [interpolateBattery] returns an
    integer percentage in [0,100] for every voltage, it is monotonically
    non-decreasing in the voltage, it is 100 at 3200, 0 at 2100 and 50 at
    2400, and at 2550 it is the floor of the linear interpolation
    between 50 and 80, which is 65. *)
Theorem C7_interpolateBattery_NRV :
  (forall v : Q, exists p : Z,
      interpolateBattery (num v) "NRV" = Return (Num (inject_Z p)) /\
      (0 <= p <= 100)%Z) /\
  (forall (v w : Q) (p q : Z),
      (v <= w)%Q ->
      interpolateBattery (num v) "NRV" = Return (Num (inject_Z p)) ->
      interpolateBattery (num w) "NRV" = Return (Num (inject_Z q)) ->
      (p <= q)%Z) /\
  interpolateBattery (num 3200) "NRV" = Return (Num 100) /\
  interpolateBattery (num 2100) "NRV" = Return (Num 0) /\
  interpolateBattery (num 2400) "NRV" = Return (Num 50) /\
  interpolateBattery (num 2550) "NRV" =
    Return (Num (inject_Z
      (Qfloor (50 + (80 - 50) * (2550 - 2400) / (2700 - 2400))))) /\
  interpolateBattery (num 2550) "NRV" = Return (Num 65).
Proof.
  split.
  { intros v. destruct (interpolateBattery_NRV v) as (p & Hp & Hb).
    exists p. split; [exact Hp |]. destruct Hb; lia. }
  split.
  { intros v w p q Hvw Hp Hq.
    destruct (interpolateBattery_NRV v) as (p' & Hp' & Hbp).
    destruct (interpolateBattery_NRV w) as (q' & Hq' & Hbq).
    rewrite Hp in Hp'. rewrite Hq in Hq'.
    apply Return_Num_inject_Z_inj in Hp', Hq'. subst p' q'.
    exact (NRV_branch_mono v w p q Hvw Hbp Hbq). }
  repeat split; reflexivity.
Qed.

End InterpolatorFacts.

(** ** The token life cycle *)

Lemma not_ok_200_status (response : Response) :
  not_ok_200 response = negb (status response =? 200)%Z.
Proof.
  unfold not_ok_200, ok.
  destruct (status response =? 200)%Z eqn:E; [| now rewrite orb_true_r].
  apply Z.eqb_eq in E. now rewrite E.
Qed.

Lemma not_ok_200_of_not_ok (response : Response) :
  ok response = false -> not_ok_200 response = true.
Proof. intros E. unfold not_ok_200. now rewrite E. Qed.

Lemma authenticate_resume_guard
    (scopes : list string) (redirectUri state : string) (data : CallbackData) :
  authenticate_resume scopes redirectUri state data =
  if present (cb_state data) && bool_decide (cb_state data = Some state)
     && present (cb_code data)
  then
    exec (fun w =>
      fetch {| url := "https://api.netatmo.com/oauth2/token";
               body := [("scope", JsString (String.concat " " scopes));
                        ("code", JsString (interpolate (cb_code data)));
                        ("grant_type", JsString "authorization_code");
                        ("client_id", JsString (client_id (config w)));
                        ("client_secret", JsString (client_secret (config w)));
                        ("redirect_uri", JsString redirectUri)];
               authorization := None |}
            authenticate_awaits w)
  else
    throw (Error ("Authentication flow failed. Possible error: "
                  +:+ interpolate (cb_error data))).
Proof.
  unfold authenticate_resume.
  destruct (present (cb_state data)),
    (bool_decide (cb_state data = Some state)),
    (present (cb_code data)); reflexivity.
Qed.

Lemma authenticate_resume_rejects
    (scopes : list string) (redirectUri state : string) (data : CallbackData)
    (w : World) :
  cb_state data <> Some state \/ present (cb_state data) = false
  \/ present (cb_code data) = false ->
  exists e, AuthFlowError e /\
    authenticate_resume scopes redirectUri state data w = (Throw e, w).
Proof.
  intros Hbad. rewrite authenticate_resume_guard.
  assert (Hguard : present (cb_state data)
                   && bool_decide (cb_state data = Some state)
                   && present (cb_code data) = false).
  { destruct Hbad as [Hne | [Hf | Hf]].
    - rewrite (bool_decide_eq_false_2 _ Hne). now rewrite andb_false_r.
    - now rewrite Hf.
    - rewrite Hf. now rewrite andb_false_r. }
  rewrite Hguard. eexists. split; [eexists; reflexivity | reflexivity].
Qed.

Lemma authenticate_resume_accepts
    (scopes : list string) (redirectUri state : string) (data : CallbackData)
    (w : World) :
  cb_state data = Some state -> present (cb_state data) = true ->
  present (cb_code data) = true ->
  exists request,
    url request = "https://api.netatmo.com/oauth2/token" /\
    fst (authenticate_resume scopes redirectUri state data w) = Return tt /\
    sent (snd (authenticate_resume scopes redirectUri state data w))
      = (sent w ++ [request])%list /\
    config (snd (authenticate_resume scopes redirectUri state data w))
      = config w.
Proof.
  intros Hstate Hpresent Hcode. rewrite authenticate_resume_guard.
  rewrite Hpresent, Hcode, (bool_decide_eq_true_2 _ Hstate).
  eexists. cbn. repeat split; reflexivity.
Qed.

Lemma authenticate_resume_sends_only_checked
    (scopes : list string) (redirectUri state : string) (data : CallbackData)
    (w : World) :
  sent (snd (authenticate_resume scopes redirectUri state data w)) <> sent w ->
  cb_state data = Some state /\ present (cb_state data) = true
  /\ present (cb_code data) = true.
Proof.
  rewrite authenticate_resume_guard.
  destruct (present (cb_state data)); cbn [andb];
    [| intros Hsent; exfalso; now apply Hsent].
  destruct (bool_decide (cb_state data = Some state)) eqn:Eeq; cbn [andb];
    [| intros Hsent; exfalso; now apply Hsent].
  destruct (present (cb_code data));
    [| intros Hsent; exfalso; now apply Hsent].
  intros _. apply bool_decide_eq_true in Eeq. now repeat split.
Qed.

Lemma authenticate_exchange_not_ok (now now' : Z) (response : Response)
    (w : World) :
  ok response = false ->
  exists e, AuthFlowError e /\
    authenticate_exchange now now' response w = (Throw e, w).
Proof.
  intros Hok. unfold authenticate_exchange.
  rewrite (not_ok_200_of_not_ok _ Hok).
  eexists; split; [eexists; reflexivity | reflexivity].
Qed.

(** C4. Resuming [authenticate] with a callback whose [state] differs
    from the nonce, or whose [state] or [code] is missing, fails with an
    authentication-flow error and leaves the whole state, the token state
    included, as it was, with no request sent; when both checks pass
    exactly one request, to the token endpoint, is sent; and an answer to
    it that is not 2xx fails with an authentication-flow error too. *)
Theorem C4_authenticate_resume_checks
    (scopes : list string) (redirectUri state : string) (data : CallbackData)
    (now now' : Z) (response : Response) (w : World) :
  (cb_state data <> Some state \/ present (cb_state data) = false
   \/ present (cb_code data) = false ->
   exists e, AuthFlowError e /\
     authenticate_resume scopes redirectUri state data w = (Throw e, w)) /\
  (cb_state data = Some state -> present (cb_state data) = true ->
   present (cb_code data) = true ->
   exists request,
     url request = "https://api.netatmo.com/oauth2/token" /\
     fst (authenticate_resume scopes redirectUri state data w) = Return tt /\
     sent (snd (authenticate_resume scopes redirectUri state data w))
       = (sent w ++ [request])%list /\
     config (snd (authenticate_resume scopes redirectUri state data w))
       = config w) /\
  (sent (snd (authenticate_resume scopes redirectUri state data w)) <> sent w ->
   cb_state data = Some state /\ present (cb_state data) = true
   /\ present (cb_code data) = true) /\
  (ok response = false ->
   exists e, AuthFlowError e /\
     authenticate_exchange now now' response w = (Throw e, w)).
Proof.
  split; [apply authenticate_resume_rejects |].
  split; [apply authenticate_resume_accepts |].
  split; [apply authenticate_resume_sends_only_checked |].
  apply authenticate_exchange_not_ok.
Qed.

Lemma truthy_true (s : string) : truthy s = true <-> s <> "".
Proof.
  unfold truthy. rewrite negb_true_iff. split.
  - intros E ->. discriminate E.
  - intros Hne. apply String.eqb_neq. exact Hne.
Qed.

Lemma truthy_false (s : string) : truthy s = false <-> s = "".
Proof.
  unfold truthy. rewrite negb_false_iff. apply String.eqb_eq.
Qed.

(** *** [initRefresh] *)

Lemma initRefresh_schedules (now : Z) (w : World) :
  (0 < expiresIn now w)%Z -> token (config w) <> "" ->
  initRefresh now w =
  set_refreshInterval (Some (timers_created w))
    (set_timers
       (timers w ++ [{| handle := timers_created w; delay := expiresIn now w |}])
       (S (timers_created w))
       (console_log "Token still valid for:" w)).
Proof.
  intros Hpos Htoken. unfold initRefresh.
  apply Z.ltb_lt in Hpos. apply truthy_true in Htoken.
  rewrite Hpos, Htoken. reflexivity.
Qed.

Lemma initRefresh_refreshes (now : Z) (w : World) :
  ~ ((0 < expiresIn now w)%Z /\ token (config w) <> "") ->
  initRefresh now w = refresh_start w.
Proof.
  intros Hnot. unfold initRefresh.
  destruct (0 <? expiresIn now w)%Z eqn:Epos; [| reflexivity].
  destruct (truthy (token (config w))) eqn:Etoken; [| reflexivity].
  exfalso. apply Hnot. split.
  - now apply Z.ltb_lt.
  - now apply truthy_true.
Qed.

(** C5 (amended). [initRefresh] computes the delay as [expires - now], an
    [expires] that is unset or zero counting as [now]; if the delay is
    positive and an access token is present it schedules one one-shot
    refresh timer with that delay and keeps its handle in
    [refreshInterval], sending nothing; otherwise it invokes [refresh]
    at once. *)
Theorem C5_initRefresh_arms (now : Z) (w : World) :
  ((0 < expiresIn now w)%Z -> token (config w) <> "" ->
   timers (initRefresh now w) =
     (timers w ++ [{| handle := timers_created w; delay := expiresIn now w |}])%list
   /\ refreshInterval (initRefresh now w) = Some (timers_created w)
   /\ sent (initRefresh now w) = sent w
   /\ config (initRefresh now w) = config w) /\
  (~ ((0 < expiresIn now w)%Z /\ token (config w) <> "") ->
   initRefresh now w = refresh_start w).
Proof.
  split.
  - intros Hpos Htoken. rewrite (initRefresh_schedules now w Hpos Htoken).
    repeat split; reflexivity.
  - apply initRefresh_refreshes.
Qed.

(** *** [refresh] *)

Lemma refresh_start_sends (w : World) :
  refresh_token (config w) <> "" ->
  refresh_start w =
  fetch {| url := "https://api.netatmo.com/oauth2/token";
           body := [("grant_type", JsString "refresh_token");
                    ("refresh_token", JsString (refresh_token (config w)));
                    ("client_id", JsString (client_id (config w)));
                    ("client_secret", JsString (client_secret (config w)))];
           authorization := None |}
        refresh_awaits
        (console_log "Refreshing netatmo token using existing refresh token."
           (set_token "" (set_refreshInterval None
              (console_log "Starting token refresh" w)))).
Proof.
  intros Hrt. apply truthy_true in Hrt. unfold refresh_start. cbn.
  rewrite Hrt. reflexivity.
Qed.

Lemma refresh_start_gives_up (w : World) :
  refresh_token (config w) = "" ->
  refresh_start w =
  console_error "Can not refresh token."
    (set_token "" (set_refreshInterval None
       (console_log "Starting token refresh" w))).
Proof.
  intros Hrt. apply truthy_false in Hrt. unfold refresh_start. cbn.
  rewrite Hrt. reflexivity.
Qed.

Lemma refresh_start_token (w : World) : token (config (refresh_start w)) = "".
Proof.
  unfold refresh_start. cbn.
  destruct (truthy (refresh_token (config w))); reflexivity.
Qed.

Lemma refresh_start_refresh_token (w : World) :
  refresh_token (config (refresh_start w)) = refresh_token (config w).
Proof.
  unfold refresh_start. cbn.
  destruct (truthy (refresh_token (config w))); reflexivity.
Qed.

Lemma refresh_start_saved (w : World) : saved (refresh_start w) = saved w.
Proof.
  unfold refresh_start. cbn.
  destruct (truthy (refresh_token (config w))); reflexivity.
Qed.

Lemma refresh_start_timers (w : World) : timers (refresh_start w) = timers w.
Proof.
  unfold refresh_start. cbn.
  destruct (truthy (refresh_token (config w))); reflexivity.
Qed.

Lemma refresh_start_timers_created (w : World) :
  timers_created (refresh_start w) = timers_created w.
Proof.
  unfold refresh_start. cbn.
  destruct (truthy (refresh_token (config w))); reflexivity.
Qed.

Lemma refresh_start_expires (w : World) :
  expires (config (refresh_start w)) = expires (config w).
Proof.
  unfold refresh_start. cbn.
  destruct (truthy (refresh_token (config w))); reflexivity.
Qed.

Lemma refresh_start_in_flight (w : World) :
  refresh_token (config w) <> "" -> refresh_in_flight (refresh_start w).
Proof.
  intros Hrt. rewrite (refresh_start_sends w Hrt).
  exists (length (sent w)). unfold fetch. cbn.
  apply elem_of_app. right. apply list_elem_of_singleton. reflexivity.
Qed.

Lemma refresh_start_uncaught (w : World) : uncaught (refresh_start w) = uncaught w.
Proof.
  unfold refresh_start. cbn.
  destruct (truthy (refresh_token (config w))); reflexivity.
Qed.

Lemma refresh_resume_failed (now now' : Z) (response : Response) (w : World) :
  status response <> 200%Z ->
  refresh_resume now now' response w =
  updateConfig (set_refresh_token "" (set_token ""
    (console_error "Failed to refresh token." w))).
Proof.
  intros Hstatus. unfold refresh_resume. rewrite not_ok_200_status.
  apply Z.eqb_neq in Hstatus. rewrite Hstatus. reflexivity.
Qed.

Lemma refresh_resume_granted (now now' e : Z) (response : Response)
    (w : World) :
  status response = 200%Z ->
  expires_in (json response) = Some e ->
  valid_date (now + e * 1000) = true ->
  refresh_resume now now' response w =
  initRefresh now'
    (updateConfig (console_log "Refreshed token until:"
      (set_refresh_token (data_refresh_token (json response))
        (set_expires (Some (now + e * 1000)%Z)
          (set_token (access_token (json response)) w))))).
Proof.
  intros Hstatus He Hdate. unfold refresh_resume. rewrite not_ok_200_status.
  apply Z.eqb_eq in Hstatus. rewrite Hstatus. cbn [negb].
  unfold expiry. rewrite He. cbn. rewrite Hdate. reflexivity.
Qed.

Lemma refresh_resume_unprintable (now now' : Z) (response : Response)
    (w : World) :
  status response = 200%Z ->
  match expiry now (json response) with
  | Some t => valid_date t = false
  | None => True
  end ->
  refresh_resume now now' response w =
  reject RangeError
    (set_refresh_token (data_refresh_token (json response))
      (set_expires (expiry now (json response))
        (set_token (access_token (json response)) w))).
Proof.
  intros Hstatus Hdate. unfold refresh_resume. rewrite not_ok_200_status.
  apply Z.eqb_eq in Hstatus. rewrite Hstatus. cbn [negb].
  destruct (expiry now (json response)) as [t |]; cbn; [| reflexivity].
  rewrite Hdate. reflexivity.
Qed.

Lemma valid_date_between (t : Z) :
  (0 <= t <= 8640000000000000)%Z -> valid_date t = true.
Proof.
  intros Ht. unfold valid_date. apply andb_true_iff. split; apply Z.leb_le; lia.
Qed.

Lemma refresh_granted_rearmed (now now' e : Z) (response : Response) (w : World) :
  status response = 200%Z ->
  expires_in (json response) = Some e ->
  (0 <= now' < now + e * 1000)%Z ->
  (now + e * 1000 <= 8640000000000000)%Z ->
  let w2 := refresh_resume now now' response (refresh_start w) in
  token (config w2) = access_token (json response)
  /\ expires (config w2) = Some (now + e * 1000)%Z
  /\ refresh_token (config w2) = data_refresh_token (json response)
  /\ saved w2
     = (saved w ++ [(Some (now + e * 1000)%Z,
                     data_refresh_token (json response))])%list
  /\ uncaught w2 = uncaught (refresh_start w)
  /\ (access_token (json response) <> "" ->
      timers w2 =
        (timers w ++ [{| handle := timers_created w;
                         delay := (now + e * 1000 - now')%Z |}])%list
      /\ refreshInterval w2 = Some (timers_created w)
      /\ sent w2 = sent (refresh_start w))
  /\ (access_token (json response) = "" ->
      w2 = refresh_start
             (updateConfig (console_log "Refreshed token until:"
               (set_refresh_token (data_refresh_token (json response))
                 (set_expires (Some (now + e * 1000)%Z)
                   (set_token "" (refresh_start w))))))).
Proof.
  intros Hstatus He Hclock Hdate w2. subst w2.
  rewrite (refresh_resume_granted _ _ e _ _ Hstatus He)
    by (apply valid_date_between; lia).
  set (stored := updateConfig _).
  assert (Hin : expiresIn now' stored = (now + e * 1000 - now')%Z).
  { unfold expiresIn, stored. cbn.
    destruct (now + e * 1000 =? 0)%Z eqn:E; [| reflexivity].
    apply Z.eqb_eq in E. lia. }
  destruct (String.eqb (access_token (json response)) "") eqn:Eaccess.
  - apply String.eqb_eq in Eaccess.
    rewrite initRefresh_refreshes
      by (intros [_ Hne]; apply Hne; unfold stored; cbn; exact Eaccess).
    rewrite refresh_start_token, refresh_start_expires,
      refresh_start_refresh_token, refresh_start_saved, refresh_start_uncaught.
    unfold stored. cbn. rewrite Eaccess, refresh_start_saved.
    do 5 (split; [reflexivity |]).
    split; [intros Hne; now contradiction Hne | intros _; reflexivity].
  - apply String.eqb_neq in Eaccess.
    rewrite initRefresh_schedules
      by (rewrite ?Hin; unfold stored; cbn; first [lia | exact Eaccess]).
    rewrite Hin. unfold stored. cbn. rewrite refresh_start_saved.
    do 5 (split; [reflexivity |]). split.
    + intros _. rewrite refresh_start_timers, refresh_start_timers_created.
      repeat split; reflexivity.
    + intros Hempty. now contradiction Eaccess.
Qed.

Lemma refresh_failed_cleared (now now' : Z) (response : Response) (w : World) :
  status response <> 200%Z ->
  let w2 := refresh_resume now now' response (refresh_start w) in
  token (config w2) = ""
  /\ refresh_token (config w2) = ""
  /\ saved w2 = (saved w ++ [(expires (config w), "")])%list
  /\ timers w2 = timers w
  /\ sent w2 = sent (refresh_start w)
  /\ refreshInterval w2 = None
  /\ needsAuth w2 = true.
Proof.
  intros Hstatus w2. subst w2.
  rewrite (refresh_resume_failed _ _ _ _ Hstatus).
  unfold updateConfig. cbn. rewrite refresh_start_expires, refresh_start_saved.
  repeat split; try reflexivity.
  - apply refresh_start_timers.
  - unfold refresh_start. cbn.
    destruct (truthy (refresh_token (config w))); reflexivity.
Qed.

(** C3 (amended). [refresh()], called when a non-empty refresh token is
    stored, sends one request to the token endpoint, with that refresh
    token.  If the answer is a 200 that carries a non-empty refresh token
    and an [expires_in] whose expiry, [now] plus [expires_in] seconds,
    lies after the moment the scheduler is armed again (a clock reading
    that is not negative) and is a time a [Date] can hold (at most
    8.64e15 ms), then afterwards the store holds
    the access token of the answer, that expiry and the rotated refresh
    token; the expiry and the rotated refresh token are what is saved
    (the access token is no part of a saved state); nothing is left
    uncaught and [needsAuth] stays false; and the scheduler is armed
    again: when the access token of the answer is not empty, with one
    more timer, for the remaining lifetime, its handle kept in
    [refreshInterval], and no further request; when it is empty, by
    starting the next refresh at once, with the rotated refresh token.
    If the status is not 200, both tokens are cleared, the old expiry
    with an empty refresh token is saved, no timer and no request is
    added, and [needsAuth] is true. *)
Theorem C3_refresh_outcomes (now now' : Z) (response : Response) (w : World) :
  refresh_token (config w) <> "" ->
  let w1 := refresh_start w in
  let w2 := refresh_resume now now' response w1 in
  (sent w1 = (sent w ++ [refresh_request (config w)])%list
   /\ refresh_in_flight w1) /\
  (status response = 200%Z ->
   forall e : Z,
     expires_in (json response) = Some e ->
     (0 <= now' < now + e * 1000)%Z ->
     (now + e * 1000 <= 8640000000000000)%Z ->
     data_refresh_token (json response) <> "" ->
     token (config w2) = access_token (json response)
     /\ expires (config w2) = Some (now + e * 1000)%Z
     /\ refresh_token (config w2) = data_refresh_token (json response)
     /\ saved w2
        = (saved w ++ [(Some (now + e * 1000)%Z,
                        data_refresh_token (json response))])%list
     /\ uncaught w2 = uncaught w
     /\ needsAuth w2 = false
     /\ (access_token (json response) <> "" ->
         timers w2 =
           (timers w ++ [{| handle := timers_created w;
                            delay := (now + e * 1000 - now')%Z |}])%list
         /\ refreshInterval w2 = Some (timers_created w)
         /\ sent w2 = sent w1)
     /\ (access_token (json response) = "" ->
         timers w2 = timers w
         /\ refreshInterval w2 = None
         /\ sent w2
            = (sent w1
               ++ [refresh_request
                     {| client_id := client_id (config w);
                        client_secret := client_secret (config w);
                        token := "";
                        expires := Some (now + e * 1000)%Z;
                        refresh_token := data_refresh_token (json response)
                     |}])%list)) /\
  (status response <> 200%Z ->
   token (config w2) = ""
   /\ refresh_token (config w2) = ""
   /\ saved w2 = (saved w ++ [(expires (config w), "")])%list
   /\ timers w2 = timers w
   /\ sent w2 = sent w1
   /\ refreshInterval w2 = None
   /\ needsAuth w2 = true).
Proof.
  intros Hrt w1 w2. split; [| split].
  - subst w1. split; [| now apply refresh_start_in_flight].
    rewrite (refresh_start_sends w Hrt). reflexivity.
  - intros Hstatus e He Hclock Hdate Hrotated.
    destruct (refresh_granted_rearmed now now' e response w Hstatus He Hclock
                Hdate)
      as (Htoken & Hexpires & Hrefresh & Hsaved & Huncaught & Hrearm & Hagain).
    fold w1 w2 in Htoken, Hexpires, Hrefresh, Hsaved, Huncaught, Hrearm, Hagain.
    do 4 (split; [assumption |]).
    split; [rewrite Huncaught; apply refresh_start_uncaught |].
    split.
    { unfold needsAuth. rewrite Hrefresh.
      apply negb_false_iff. now apply truthy_true. }
    split; [exact Hrearm |].
    intros Hempty. rewrite (Hagain Hempty).
    rewrite refresh_start_timers, refresh_start_sends by (cbn; exact Hrotated).
    cbn. subst w1. rewrite refresh_start_timers.
    rewrite (refresh_start_sends w Hrt). cbn.
    repeat split; reflexivity.
  - intros Hstatus. exact (refresh_failed_cleared now now' response w Hstatus).
Qed.

(** ** The cloud client *)

Lemma require_token_empty (w : World) :
  token (config w) = "" -> require_token w = (Throw (Error "No token found"), w).
Proof.
  intros Htoken. apply truthy_false in Htoken. unfold require_token.
  now rewrite Htoken.
Qed.

Lemma start_of_without_token (op : Operation) (k : Awaiter) (w : World) :
  token (config w) = "" -> start_of op k w = (Throw (Error "No token found"), w).
Proof.
  intros Htoken.
  destruct op; cbn [start_of];
    unfold getHomeData_start, getHomeStatus_start, setRoomThermPoint_start,
      setThermostatMode_start, bind;
    now rewrite (require_token_empty w Htoken).
Qed.

Lemma require_token_present (w : World) :
  token (config w) <> "" -> require_token w = (Return tt, w).
Proof.
  intros Htoken. apply truthy_true in Htoken. unfold require_token.
  now rewrite Htoken.
Qed.

Lemma start_of_sends (op : Operation) (k : Awaiter) (w : World) :
  token (config w) <> "" ->
  start_of op k w =
  (Return tt,
   fetch {| url := endpoint op;
            body := List.filter (fun field => ToBoolean (snd field))
                      (arguments_of op);
            authorization := Some ("Bearer " +:+ token (config w)) |} k w).
Proof.
  intros Htoken.
  destruct op as [homeId | homeId | arg | arg]; cbn [start_of];
    unfold getHomeData_start, getHomeStatus_start, setRoomThermPoint_start,
      setThermostatMode_start, bind, exec, bearer;
    rewrite (require_token_present w Htoken);
    cbn [endpoint arguments_of List.filter snd]; unfold append_if.
  - destruct (ToBoolean homeId); reflexivity.
  - destruct (ToBoolean homeId); reflexivity.
  - destruct (ToBoolean (homeId arg)), (ToBoolean (roomId arg)),
      (ToBoolean (mode arg)), (ToBoolean (temp arg)); reflexivity.
  - destruct (ToBoolean (tm_homeId arg)), (ToBoolean (tm_mode arg)); reflexivity.
Qed.

Lemma truthy_ToBoolean (s : string) : ToBoolean (JsString s) = truthy s.
Proof. reflexivity. Qed.

Lemma thermostat_mode_of (v : JsValue) :
  match v with
  | JsString "off" => "away"
  | _ => "schedule"
  end = if is_off v then "away" else "schedule".
Proof.
  destruct v as [| | b | n | s]; try reflexivity.
  destruct s as [| [[] [] [] [] [] [] [] []] s]; try reflexivity.
  destruct s as [| [[] [] [] [] [] [] [] []] s]; try reflexivity.
  destruct s as [| [[] [] [] [] [] [] [] []] s]; try reflexivity.
  destruct s; reflexivity.
Qed.

Lemma resume_of_403 (op : Operation) (response : Response) (w : World) :
  status response = 403%Z ->
  resume_of op response w =
  (Throw (Error "Unauthorized"),
   refresh_start (set_token "" (console_log (response_line op) w))).
Proof.
  intros Hstatus.
  destruct op; cbn [resume_of];
    unfold getHomeData_resume, getHomeStatus_resume, setRoomThermPoint_resume,
      setThermostatMode_resume, bind, exec, throw;
    rewrite not_ok_200_status, Hstatus; reflexivity.
Qed.

Lemma resume_of_other (op : Operation) (response : Response) (w : World) :
  status response <> 200%Z -> status response <> 403%Z ->
  fst (resume_of op response w) = Return (empty_of op)
  /\ config (snd (resume_of op response w)) = config w
  /\ sent (snd (resume_of op response w)) = sent w
  /\ uncaught (snd (resume_of op response w)) = uncaught w.
Proof.
  intros H200 H403. apply Z.eqb_neq in H200, H403.
  destruct op; cbn [resume_of];
    unfold getHomeData_resume, getHomeStatus_resume, setRoomThermPoint_resume,
      setThermostatMode_resume, bind, exec, ret;
    rewrite not_ok_200_status, H200, H403; cbn [negb];
    repeat split; reflexivity.
Qed.

Lemma resume_of_200 (op : Operation) (response : Response) (w : World) :
  status response = 200%Z ->
  resume_of op response w =
  (match op with
   | GetHomeData _ =>
       match body_homes (json response) with
       | Return (Some homes) => Return (Homes homes)
       | Return None => Return (Homes [])
       | Throw e => Throw e
       end
   | GetHomeStatus _ =>
       match body_home (json response) with
       | Return home => Return (Status (Got home))
       | Throw e => Throw e
       end
   | SetRoomThermPoint _ | SetThermostatMode _ =>
       Return (Confirmation (Got (json response)))
   end,
   console_log (response_line op) w).
Proof.
  intros Hstatus.
  destruct op; cbn [resume_of];
    unfold getHomeData_resume, getHomeStatus_resume, setRoomThermPoint_resume,
      setThermostatMode_resume, bind, exec, ret, lift;
    rewrite not_ok_200_status, Hstatus; cbn [Z.eqb Pos.eqb negb response_line].
  - destruct (body_homes (json response)) as [[homes |] | e]; reflexivity.
  - destruct (body_home (json response)) as [home | e]; reflexivity.
  - reflexivity.
  - reflexivity.
Qed.

(** C1 (amended). For every cloud operation: with an empty access token
    the call fails with [Error "No token found"], the state unchanged, so
    no request is sent.  On a 403 the call fails with
    [Error "Unauthorized"] after it has logged the answer, cleared the
    stored access token and called [refresh()]: with a refresh token
    stored, the one request sent is the refresh request, and a refresh is
    in flight; with none stored, nothing is sent.  On any other status
    that is not 200 the call does not fail: it returns an empty array,
    with configuration and requests as they were.  On a 200, with
    configuration and requests as they were, it returns what it reads in
    the body of the parsed answer: [body.homes] for [getHomeData] ([[]]
    when that is no array), [body.home] for [getHomeStatus], the body
    for the two setters; [getHomeData] and [getHomeStatus] fail with the
    [TypeError] of the read when the answer has no body. *)
Theorem C1_cloud_operation_envelope
    (op : Operation) (k : Awaiter) (response : Response) (w : World) :
  (token (config w) = "" ->
   exists e, UnauthorizedError e /\ e = Error "No token found"
     /\ start_of op k w = (Throw e, w)) /\
  (status response = 403%Z ->
   exists e w', UnauthorizedError e /\ e = Error "Unauthorized"
     /\ resume_of op response w = (Throw e, w')
     /\ w' = refresh_start (set_token "" (console_log (response_line op) w))
     /\ token (config w') = ""
     /\ (refresh_token (config w) <> "" ->
         sent w' = (sent w ++ [refresh_request (config w)])%list
         /\ refresh_in_flight w')
     /\ (refresh_token (config w) = "" ->
         sent w' = sent w /\ inflight w' = inflight w)) /\
  (status response <> 200%Z -> status response <> 403%Z ->
   fst (resume_of op response w) = Return (empty_of op)
   /\ config (snd (resume_of op response w)) = config w
   /\ sent (snd (resume_of op response w)) = sent w) /\
  (status response = 200%Z ->
   fst (resume_of op response w)
   = match op with
     | GetHomeData _ =>
         match json response with
         | JsonHomes (Some homes) => Return (Homes homes)
         | JsonHomes None | JsonHome _ => Return (Homes [])
         | JsonBody (JsUndefined | JsNull) => Throw TypeError
         | JsonBody _ => Return (Homes [])
         | JsonToken _ _ _ | JsonOther => Throw TypeError
         end
     | GetHomeStatus _ =>
         match json response with
         | JsonHome home => Return (Status (Got home))
         | JsonHomes _ => Return (Status (Got None))
         | JsonBody (JsUndefined | JsNull) => Throw TypeError
         | JsonBody _ => Return (Status (Got None))
         | JsonToken _ _ _ | JsonOther => Throw TypeError
         end
     | SetRoomThermPoint _ | SetThermostatMode _ =>
         Return (Confirmation (Got (json response)))
     end
   /\ config (snd (resume_of op response w)) = config w
   /\ sent (snd (resume_of op response w)) = sent w).
Proof.
  split; [| split; [| split]].
  - intros Htoken. exists (Error "No token found").
    split; [now left |]. split; [reflexivity |].
    now apply start_of_without_token.
  - intros Hstatus.
    exists (Error "Unauthorized"),
      (refresh_start (set_token "" (console_log (response_line op) w))).
    split; [now right |]. split; [reflexivity |].
    split; [now apply resume_of_403 |].
    split; [reflexivity |]. split; [apply refresh_start_token |]. split.
    + intros Hrt. split.
      * rewrite refresh_start_sends by exact Hrt. reflexivity.
      * apply refresh_start_in_flight. exact Hrt.
    + intros Hrt. rewrite refresh_start_gives_up by exact Hrt.
      split; reflexivity.
  - intros H200 H403.
    destruct (resume_of_other op response w H200 H403) as (Hr & Hc & Hs & _).
    now repeat split.
  - intros Hstatus. rewrite (resume_of_200 op response w Hstatus).
    split; [| split; reflexivity]. cbn [fst].
    destruct op; [| | reflexivity | reflexivity];
      destruct (json response) as [a e r | [homes |] | home | [| | b | n | s] |];
      reflexivity.
Qed.

Lemma refresh_resume_not_200_token (now now' : Z) (response : Response)
    (w : World) :
  status response <> 200%Z ->
  token (config (refresh_resume now now' response w)) = "".
Proof.
  intros Hstatus. now rewrite (refresh_resume_failed _ _ _ _ Hstatus).
Qed.

(** *** What stores a token *)

Lemma keeps_ret {A : Type} (a : A) : keeps_token_empty (ret a).
Proof. now intros w Hw. Qed.

Lemma keeps_throw {A : Type} (e : Exn) : keeps_token_empty (@throw A e).
Proof. now intros w Hw. Qed.

Lemma keeps_lift {A : Type} (c : Completion A) : keeps_token_empty (lift c).
Proof. now intros w Hw. Qed.

Lemma keeps_exec (f : World -> World) :
  (forall w, token (config w) = "" -> token (config (f w)) = "") ->
  keeps_token_empty (exec f).
Proof. intros Hf w Hw. now apply Hf. Qed.

Lemma keeps_bind {A B : Type} (m : Js A) (k : A -> Js B) :
  keeps_token_empty m -> (forall a, keeps_token_empty (k a)) ->
  keeps_token_empty (bind m k).
Proof.
  intros Hm Hk w Hw. unfold bind. specialize (Hm w Hw).
  destruct (m w) as [[a | e] w']; cbn [snd] in *; [now apply Hk | exact Hm].
Qed.

Lemma keeps_forEach {A : Type} (f : A -> Js unit) (l : list A) :
  (forall a, keeps_token_empty (f a)) -> keeps_token_empty (forEach f l).
Proof.
  intros Hf. induction l as [| a l IH]; cbn [forEach].
  - apply keeps_ret.
  - apply keeps_bind; [apply Hf | intros _; exact IH].
Qed.

Lemma detached_keeps {A : Type} (m : Js A) (w : World) :
  keeps_token_empty m -> token (config w) = "" ->
  token (config (detached m w)) = "".
Proof.
  intros Hm Hw. unfold detached. specialize (Hm w Hw).
  destruct (m w) as [[a | e] w']; exact Hm.
Qed.

Lemma keeps_require_token : keeps_token_empty require_token.
Proof.
  intros w Hw. unfold require_token.
  destruct (negb (truthy (token (config w)))); exact Hw.
Qed.

Lemma keeps_start_of (op : Operation) (k : Awaiter) :
  keeps_token_empty (start_of op k).
Proof.
  destruct op; cbn [start_of];
    unfold getHomeData_start, getHomeStatus_start, setRoomThermPoint_start,
      setThermostatMode_start;
    (apply keeps_bind; [apply keeps_require_token | intros _]);
    apply keeps_exec; intros w Hw; exact Hw.
Qed.

Ltac keeps_envelope :=
  apply keeps_bind; [apply keeps_exec; intros w Hw; exact Hw | intros _];
  destruct (not_ok_200 _);
  [ destruct (_ =? 403)%Z; [| apply keeps_ret];
    apply keeps_bind; [apply keeps_exec; now intros w Hw | intros _];
    apply keeps_bind;
    [apply keeps_exec; intros w Hw; apply refresh_start_token | intros _];
    apply keeps_throw
  | ].

Lemma keeps_getHomeData_resume (response : Response) :
  keeps_token_empty (getHomeData_resume response).
Proof.
  unfold getHomeData_resume. keeps_envelope.
  apply keeps_bind; [apply keeps_lift |]. intros [homes |]; apply keeps_ret.
Qed.

Lemma keeps_getHomeStatus_resume (response : Response) :
  keeps_token_empty (getHomeStatus_resume response).
Proof.
  unfold getHomeStatus_resume. keeps_envelope.
  apply keeps_bind; [apply keeps_lift |]. intros home. apply keeps_ret.
Qed.

Lemma keeps_setRoomThermPoint_resume (response : Response) :
  keeps_token_empty (setRoomThermPoint_resume response).
Proof. unfold setRoomThermPoint_resume. keeps_envelope. apply keeps_ret. Qed.

Lemma keeps_setThermostatMode_resume (response : Response) :
  keeps_token_empty (setThermostatMode_resume response).
Proof. unfold setThermostatMode_resume. keeps_envelope. apply keeps_ret. Qed.

Lemma keeps_the_device (key : string) : keeps_token_empty (the_device key).
Proof.
  intros w Hw. unfold the_device. destruct (device_at key w); exact Hw.
Qed.

(** Announcing the devices changes the table of devices and nothing
    else. *)
Lemma set_devices_same (w : World) : set_devices (devices w) w = w.
Proof. now destruct w. Qed.

Lemma handleDeviceAdded_table (ref : nat) (w : World) :
  exists table, handleDeviceAdded ref w = set_devices table w.
Proof.
  unfold handleDeviceAdded. destruct (objects w !! ref) as [device |].
  - eexists. reflexivity.
  - exists (devices w). symmetry. apply set_devices_same.
Qed.

Lemma announce_devices_table (w : World) :
  exists table, announce_devices w = set_devices table w.
Proof.
  unfold announce_devices. generalize (table_keys (devices w)) as keys.
  intros keys. revert w. induction keys as [| key keys IH]; intros w.
  - exists (devices w). symmetry. apply set_devices_same.
  - cbn [fold_left].
    destruct (table_get key (devices w)) as [ref |]; [| apply IH].
    destruct (handleDeviceAdded_table ref w) as [table ->].
    destruct (IH (set_devices table w)) as [table' ->].
    exists table'. reflexivity.
Qed.

Lemma keeps_authenticate_resume (scopes : list string)
    (redirectUri state : string) (data : CallbackData) :
  keeps_token_empty (authenticate_resume scopes redirectUri state data).
Proof.
  rewrite authenticate_resume_guard.
  destruct (_ && _ && _); [| apply keeps_throw].
  apply keeps_exec. intros w Hw. exact Hw.
Qed.

Section GrantFacts.
Context {ecma : EcmaStringToNumber}.

Lemma keeps_device_updateProperty (key name : string) (v : JsValue) :
  keeps_token_empty (device_updateProperty key name v).
Proof.
  unfold device_updateProperty.
  apply keeps_bind; [apply keeps_the_device |]. intros [ref device].
  apply keeps_bind; [apply keeps_lift |]. intros [device' ns].
  apply keeps_exec. intros w Hw. exact Hw.
Qed.

Lemma keeps_update_room (home : Home) (room : RoomStatus) :
  keeps_token_empty (update_room home room).
Proof.
  unfold update_room.
  repeat (apply keeps_bind; [apply keeps_device_updateProperty | intros _]).
  apply keeps_device_updateProperty.
Qed.

Lemma keeps_update_module (home : Home) (module : ModuleStatus) :
  keeps_token_empty (update_module home module).
Proof.
  unfold update_module.
  destruct (negb (includes AVAILABLE_TYPES (ms_type module)));
    [apply keeps_ret |].
  apply keeps_bind; [now intros w Hw |]. intros mapped.
  apply keeps_bind; [apply keeps_the_device |]. intros _.
  apply keeps_bind; [apply keeps_lift |]. intros battery.
  apply keeps_bind; [apply keeps_device_updateProperty |]. intros _.
  apply keeps_device_updateProperty.
Qed.

Lemma keeps_updateHomeData_home_resume (home : Home) (response : Response) :
  keeps_token_empty (updateHomeData_home_resume home response).
Proof.
  unfold updateHomeData_home_resume.
  apply keeps_bind; [apply keeps_getHomeStatus_resume |].
  intros homeStatusData.
  apply keeps_bind.
  { unfold rooms_of. destruct homeStatusData as [| [home' |]];
      try apply keeps_throw.
    destruct (status_rooms home'); [apply keeps_ret | apply keeps_throw]. }
  intros rooms.
  apply keeps_bind; [apply keeps_forEach, keeps_update_room |]. intros _.
  apply keeps_bind.
  { unfold modules_of. destruct homeStatusData as [| [home' |]];
      try apply keeps_throw.
    destruct (status_modules home'); [apply keeps_ret | apply keeps_throw]. }
  intros modules. apply keeps_forEach, keeps_update_module.
Qed.

Lemma keeps_updateHomeData_resume (response : Response) :
  keeps_token_empty (updateHomeData_resume response).
Proof.
  unfold updateHomeData_resume.
  apply keeps_bind; [apply keeps_getHomeData_resume |]. intros homeData.
  apply keeps_exec. induction homeData as [| home rest IH]; intros w Hw.
  - exact Hw.
  - cbn [fold_left]. apply IH. apply detached_keeps; [| exact Hw].
    apply (keeps_start_of (GetHomeStatus (JsString (home_id home)))).
Qed.

Lemma keeps_createDevices_resume (response : Response) :
  keeps_token_empty (createDevices_resume response).
Proof.
  unfold createDevices_resume.
  apply keeps_bind; [apply keeps_getHomeData_resume |]. intros homeData.
  apply keeps_bind.
  2: { intros _. apply keeps_exec. intros w Hw.
       destruct (announce_devices_table w) as [table ->]. exact Hw. }
  apply keeps_forEach. intros home. unfold create_home.
  apply keeps_bind; [apply keeps_lift |]. intros rooms.
  apply keeps_bind.
  { apply keeps_forEach. intros room. unfold create_room.
    apply keeps_exec. intros w Hw.
    destruct (RoomDevice_new _ room_properties) as [device ns]. exact Hw. }
  intros _. apply keeps_bind; [apply keeps_lift |]. intros modules.
  apply keeps_forEach. intros module. unfold create_module.
  destruct (negb (includes AVAILABLE_TYPES (module_type module)));
    [apply keeps_ret |].
  apply keeps_exec. intros w Hw.
  destruct (device_at _ w) as [[ref roomDevice] |]; [| exact Hw].
  destruct (addModule module roomDevice) as [device ns]. exact Hw.
Qed.

Lemma answer_keeps (now now' : Z) (n : nat) (response : Response) (w : World) :
  token (config w) = "" ->
  grants (Answer now now' n response) w = false ->
  token (config (answer now now' n response w)) = "".
Proof.
  intros Hw Hgrant. unfold answer. cbn [grants] in Hgrant.
  destruct (awaiter_of n (inflight w)) as [k |]; [| exact Hw].
  set (w' := set_network _ _ w).
  assert (Hw' : token (config w') = "") by exact Hw.
  destruct k.
  - apply Z.eqb_neq in Hgrant. now apply refresh_resume_not_200_token.
  - apply detached_keeps; [| exact Hw'].
    unfold authenticate_exchange. rewrite not_ok_200_status, Hgrant.
    apply keeps_throw.
  - pose proof (keeps_createDevices_resume response w' Hw') as Hkeep.
    destruct (createDevices_resume response w') as [[u | e] w'']; exact Hkeep.
  - apply detached_keeps; [apply keeps_updateHomeData_resume | exact Hw'].
  - apply detached_keeps; [apply keeps_updateHomeData_home_resume | exact Hw'].
  - apply detached_keeps; [apply keeps_setRoomThermPoint_resume | exact Hw'].
  - apply detached_keeps; [apply keeps_setThermostatMode_resume | exact Hw'].
Qed.

Lemma step_keeps (event : Event) (w : World) :
  token (config w) = "" -> grants event w = false ->
  token (config (step event w)) = "".
Proof.
  intros Hw Hgrant. destruct event; cbn [step].
  - now apply answer_keeps.
  - unfold failure. destruct (awaiter_of n (inflight w)) as [k |]; [| exact Hw].
    destruct k; exact Hw.
  - unfold fire. destruct (existsb _ (timers w)); [| exact Hw].
    apply refresh_start_token.
  - apply detached_keeps; [| exact Hw].
    apply (keeps_start_of (GetHomeData JsUndefined)).
  - pose proof (keeps_start_of (GetHomeData JsUndefined) createDevices_awaits
                  w Hw) as Hkeep.
    cbn [start_of] in Hkeep. unfold createDevices_start.
    destruct (getHomeData_start createDevices_awaits JsUndefined w)
      as [[u | e] w']; exact Hkeep.
  - apply detached_keeps; [| exact Hw].
    apply keeps_bind; [apply keeps_the_device |]. intros [ref device].
    apply (keeps_start_of (SetRoomThermPoint _)).
  - apply detached_keeps; [| exact Hw].
    apply keeps_bind; [apply keeps_the_device |]. intros [ref device].
    apply (keeps_start_of (SetThermostatMode _)).
  - apply detached_keeps; [apply keeps_authenticate_resume | exact Hw].
Qed.

Lemma run_keeps (events : list Event) (w : World) :
  token (config w) = "" -> grant_free events w ->
  token (config (run events w)) = "".
Proof.
  revert w. induction events as [| event rest IH]; intros w Hw Hfree.
  - exact Hw.
  - destruct Hfree as [Hgrant Hrest]. cbn [run fold_left].
    apply (IH (step event w)); [now apply step_keeps | exact Hrest].
Qed.

(** C10 (amended). [refresh()] sets the stored access token to the empty
    string before it checks the refresh token or contacts the token
    endpoint; on both failure paths (no refresh token stored: nothing is
    sent; an answer that is not 200) the state afterwards has an empty
    access token; and from the moment [refresh()] is suspended on the
    token endpoint, whatever happens, as long as no token is granted (no
    200 answer to a refresh or to an authorization exchange is handled)
    the access token is empty and every cloud operation fails its
    precondition without sending anything. *)
Theorem C10_refresh_empties_token
    (now now' : Z) (response : Response) (events : list Event)
    (op : Operation) (k : Awaiter) (w : World) :
  token (config (refresh_start w)) = "" /\
  (refresh_token (config w) = "" ->
   sent (refresh_start w) = sent w /\ inflight (refresh_start w) = inflight w) /\
  (status response <> 200%Z ->
   token (config (refresh_resume now now' response w)) = "") /\
  (refresh_token (config w) <> "" ->
   refresh_in_flight (refresh_start w)
   /\ sent (refresh_start w) <> sent w) /\
  (grant_free events (refresh_start w) ->
   token (config (run events (refresh_start w))) = ""
   /\ start_of op k (run events (refresh_start w))
      = (Throw (Error "No token found"), run events (refresh_start w))).
Proof.
  split; [apply refresh_start_token |].
  split.
  { intros Hrt. rewrite (refresh_start_gives_up w Hrt). split; reflexivity. }
  split; [apply refresh_resume_not_200_token |].
  split.
  { intros Hrt. split; [now apply refresh_start_in_flight |].
    rewrite (refresh_start_sends w Hrt). unfold fetch. cbn.
    intros Heq. apply (f_equal length) in Heq.
    rewrite length_app in Heq. cbn in Heq. lia. }
  intros Hfree.
  assert (Htoken : token (config (run events (refresh_start w))) = "")
    by (apply run_keeps; [apply refresh_start_token | exact Hfree]).
  split; [exact Htoken | now apply start_of_without_token].
Qed.

End GrantFacts.

(** ** Devices *)

Lemma String_split_plain (c : ascii) (s : string) :
  String_includes c s = false -> String_split c s = [s].
Proof.
  induction s as [| a s IH]; [reflexivity |].
  cbn [String_includes String_split]. intros Hno.
  apply orb_false_iff in Hno as [Ha Hs].
  rewrite Ha, (IH Hs). reflexivity.
Qed.

Lemma String_split_at (c : ascii) (s t : string) :
  String_includes c s = false ->
  String_split c (s +:+ String c t) = s :: String_split c t.
Proof.
  induction s as [| a s IH].
  - intros _. change ("" +:+ String c t) with (String c t).
    cbn [String_split]. now rewrite Ascii.eqb_refl.
  - cbn [String_includes]. intros Hno.
    apply orb_false_iff in Hno as [Ha Hs].
    change (String a s +:+ String c t) with (String a (s +:+ String c t)).
    cbn [String_split]. rewrite Ha, (IH Hs). reflexivity.
Qed.

Lemma String_replace_DEVICE_PREFIX (s : string) :
  String_replace DEVICE_PREFIX "" (DEVICE_PREFIX +:+ s) = s.
Proof. reflexivity. Qed.

Lemma getIds_round_trip (h r : string) (device : RoomDevice) :
  String_includes "-" h = false -> String_includes "-" r = false ->
  id device = DEVICE_PREFIX +:+ h +:+ "-" +:+ r ->
  getIds device = [h; r].
Proof.
  intros Hh Hr Hid. unfold getIds. rewrite Hid.
  rewrite String_replace_DEVICE_PREFIX.
  change ("-" +:+ r) with (String "-" r).
  rewrite (String_split_at "-" h r Hh), (String_split_plain "-" r Hr).
  reflexivity.
Qed.

Section DeviceFacts.
Context {ecma : EcmaStringToNumber}.

Lemma RoomDevice_new_id (device_id : string)
    (descriptions : list (string * string)) :
  id (fst (RoomDevice_new device_id descriptions)) = device_id.
Proof.
  unfold RoomDevice_new.
  destruct (fold_left _ descriptions _) as [props ns]. reflexivity.
Qed.

Lemma table_get_set {V : Type} (key : string) (v : V)
    (table : list (string * V)) :
  table_get key (table_set key v table) = Some v.
Proof.
  unfold table_get. induction table as [| [k v'] table IH]; cbn.
  - now rewrite String.eqb_refl.
  - destruct (String.eqb k key) eqn:E; cbn; rewrite E; [reflexivity | exact IH].
Qed.

Lemma create_room_device (home : Home) (room : Room) (w : World) :
  exists device,
    device_at (home_id home +:+ "-" +:+ room_id room)
      (snd (create_room home room w)) = Some (length (objects w), device)
    /\ id device = DEVICE_PREFIX +:+ home_id home +:+ "-" +:+ room_id room.
Proof.
  unfold create_room, exec. cbn [snd].
  pose proof (RoomDevice_new_id
                (DEVICE_PREFIX +:+ home_id home +:+ "-" +:+ room_id room)
                room_properties) as Hid.
  destruct (RoomDevice_new _ room_properties) as [device ns].
  exists device. split; [| exact Hid].
  unfold device_at. cbn -[table_get table_set]. rewrite table_get_set.
  now rewrite list_lookup_middle.
Qed.

Lemma device_setRoomThermPoint_sends
    (h r : string) (device : RoomDevice) (t : JsValue) (w : World) :
  getIds device = [h; r] -> h <> "" -> r <> "" -> token (config w) <> "" ->
  device_setRoomThermPoint device t w =
  (Return tt,
   fetch {| url := "https://api.netatmo.com/api/setroomthermpoint";
            body := ([("home_id", JsString h); ("room_id", JsString r);
                      ("mode", JsString "manual")]
                     ++ (if ToBoolean t then [("temp", t)] else []))%list;
            authorization := Some ("Bearer " +:+ token (config w)) |}
         setRoomThermPoint_awaits w).
Proof.
  intros Hids Hhne Hrne Htoken.
  unfold device_setRoomThermPoint, adapter_setRoomThermPoint. rewrite Hids.
  change (setRoomThermPoint_start setRoomThermPoint_awaits ?arg)
    with (start_of (SetRoomThermPoint arg) setRoomThermPoint_awaits).
  rewrite (start_of_sends _ _ w Htoken).
  cbn [endpoint arguments_of List.filter snd at_index lookup list_lookup
       homeId roomId mode temp].
  rewrite !truthy_ToBoolean.
  apply truthy_true in Hhne, Hrne. rewrite Hhne, Hrne.
  cbn [truthy String.eqb negb].
  destruct (ToBoolean t); reflexivity.
Qed.

Lemma device_setThermostatMode_sends
    (h : string) (rest : list string) (device : RoomDevice) (v : JsValue)
    (w : World) :
  getIds device = h :: rest -> h <> "" -> token (config w) <> "" ->
  device_setThermostatMode device v w =
  (Return tt,
   fetch {| url := "https://api.netatmo.com/api/setthermmode";
            body := [("home_id", JsString h);
                     ("mode", JsString (if is_off v then "away" else "schedule"))];
            authorization := Some ("Bearer " +:+ token (config w)) |}
         setThermostatMode_awaits w).
Proof.
  intros Hids Hhne Htoken.
  unfold device_setThermostatMode, adapter_setThermostatMode.
  rewrite Hids, thermostat_mode_of.
  change (setThermostatMode_start setThermostatMode_awaits ?arg)
    with (start_of (SetThermostatMode arg) setThermostatMode_awaits).
  rewrite (start_of_sends _ _ w Htoken).
  cbn [endpoint arguments_of List.filter snd at_index lookup list_lookup
       tm_homeId tm_mode].
  rewrite !truthy_ToBoolean.
  apply truthy_true in Hhne. rewrite Hhne.
  destruct (is_off v); reflexivity.
Qed.

Lemma device_setters_without_token (device : RoomDevice) (t v : JsValue)
    (w : World) :
  token (config w) = "" ->
  device_setRoomThermPoint device t w = (Throw (Error "No token found"), w)
  /\ device_setThermostatMode device v w = (Throw (Error "No token found"), w).
Proof.
  intros Htoken. split.
  - apply (start_of_without_token (SetRoomThermPoint _)). exact Htoken.
  - apply (start_of_without_token (SetThermostatMode _)). exact Htoken.
Qed.

(** C9 (amended). For a home id [h] and a room id [r] without ['-'], a
    device whose id is ['thermostat-room-' + h + '-' + r] has [getIds()]
    return exactly [[h, r]].  If moreover [h] and [r] are not empty and
    an access token is stored, its [setRoomThermPoint] sends exactly one
    request, to [setroomthermpoint], whose form is [home_id = h],
    [room_id = r], [mode = manual] and the temperature (when that is
    truthy); if [h] is not empty and an access token is stored, its
    [setThermostatMode] sends exactly one request, to [setthermmode],
    whose form is [home_id = h] and the mode ([away] for ['off'],
    [schedule] otherwise): it names the home and no room.  Without an
    access token both fail with [Error "No token found"] and send
    nothing.  [createDevices] gives the room [r] of the home [h] a new
    device with that id, held under [h + '-' + r]; with a hyphen in an
    id the round trip can fail. *)
Theorem C9_getIds_round_trip :
  (forall (h r : string) (device : RoomDevice) (t v : JsValue) (w : World),
      String_includes "-" h = false -> String_includes "-" r = false ->
      id device = DEVICE_PREFIX +:+ h +:+ "-" +:+ r ->
      getIds device = [h; r]
      /\ (h <> "" -> r <> "" -> token (config w) <> "" ->
          device_setRoomThermPoint device t w =
          (Return tt,
           fetch {| url := "https://api.netatmo.com/api/setroomthermpoint";
                    body := ([("home_id", JsString h); ("room_id", JsString r);
                              ("mode", JsString "manual")]
                             ++ (if ToBoolean t then [("temp", t)] else []))%list;
                    authorization := Some ("Bearer " +:+ token (config w)) |}
                 setRoomThermPoint_awaits w))
      /\ (h <> "" -> token (config w) <> "" ->
          device_setThermostatMode device v w =
          (Return tt,
           fetch {| url := "https://api.netatmo.com/api/setthermmode";
                    body := [("home_id", JsString h);
                             ("mode", JsString (if is_off v then "away"
                                                else "schedule"))];
                    authorization := Some ("Bearer " +:+ token (config w)) |}
                 setThermostatMode_awaits w))
      /\ (token (config w) = "" ->
          device_setRoomThermPoint device t w
            = (Throw (Error "No token found"), w)
          /\ device_setThermostatMode device v w
             = (Throw (Error "No token found"), w))) /\
  (forall (home : Home) (room : Room) (w : World),
      exists device,
        device_at (home_id home +:+ "-" +:+ room_id room)
          (snd (create_room home room w)) = Some (length (objects w), device)
        /\ id device
           = DEVICE_PREFIX +:+ home_id home +:+ "-" +:+ room_id room) /\
  (exists (h r : string) (device : RoomDevice),
      id device = DEVICE_PREFIX +:+ h +:+ "-" +:+ r
      /\ getIds device <> [h; r]).
Proof.
  split; [| split].
  - intros h r device t v w Hh Hr Hid.
    pose proof (getIds_round_trip h r device Hh Hr Hid) as Hids.
    split; [exact Hids |]. split; [| split].
    + intros Hhne Hrne Htoken.
      now apply device_setRoomThermPoint_sends.
    + intros Hhne Htoken.
      now apply (device_setThermostatMode_sends h [r]).
    + apply device_setters_without_token.
  - apply create_room_device.
  - exists "a-b", "c",
      {| id := DEVICE_PREFIX +:+ "a-b" +:+ "-" +:+ "c"; properties := ∅ |}.
    split; [reflexivity |]. vm_compute. discriminate.
Qed.

(** *** [updateProperty] *)

Lemma updateProperty_same (name : string) (v : JsValue) (device : RoomDevice)
    (property : Property) :
  properties device !! name = Some property ->
  loosely_equal (value property) v = true ->
  updateProperty name v device = Return (device, []).
Proof.
  intros Hfind Heq. unfold updateProperty. now rewrite Hfind, Heq.
Qed.

Lemma updateProperty_changed (name : string) (v : JsValue)
    (device : RoomDevice) (property : Property) :
  properties device !! name = Some property ->
  loosely_equal (value property) v = false ->
  exists device',
    updateProperty name v device = Return (device', [(id device, name, v)])
    /\ value <$> properties device' !! name = Some v
    /\ id device' = id device
    /\ (forall other, other <> name ->
                      properties device' !! other = properties device !! other).
Proof.
  intros Hfind Hne. unfold updateProperty. rewrite Hfind, Hne. cbn [negb].
  eexists. split; [reflexivity |]. cbn. split; [| split].
  - now rewrite lookup_insert_eq.
  - reflexivity.
  - intros other Hother. now rewrite lookup_insert_ne.
Qed.

Lemma loosely_equal_strings (a b : string) :
  loosely_equal (JsString a) (JsString b) = true <-> a = b.
Proof. cbn. apply String.eqb_eq. Qed.

Lemma loosely_equal_numbers (p q : Q) :
  loosely_equal (num p) (num q) = true <-> (p == q)%Q.
Proof. cbn. apply Qeq_bool_iff. Qed.

(** C6 (amended). For every property a device has: [updateProperty]
    with a value that is loosely equal ([==]) to the cached value sends
    no notification and leaves the device as it is; with a value that
    is not loosely equal to the cached value it sets the cached value
    to the new value, leaves the other properties alone and sends
    exactly one notification.  Two strings are loosely equal when they
    are the same string, two numbers other than [NaN] when they are the
    same number. *)
Theorem C6_updateProperty_change_detection
    (name : string) (v : JsValue) (device : RoomDevice) (property : Property) :
  properties device !! name = Some property ->
  (loosely_equal (value property) v = true ->
   updateProperty name v device = Return (device, [])) /\
  (loosely_equal (value property) v = false ->
   exists device',
     updateProperty name v device = Return (device', [(id device, name, v)])
     /\ value <$> properties device' !! name = Some v
     /\ id device' = id device
     /\ (forall other, other <> name ->
                       properties device' !! other = properties device !! other)) /\
  (forall a b : string,
      loosely_equal (JsString a) (JsString b) = true <-> a = b) /\
  (forall p q : Q, loosely_equal (num p) (num q) = true <-> (p == q)%Q).
Proof.
  intros Hfind.
  split; [now apply updateProperty_same |].
  split; [now apply updateProperty_changed |].
  split; [apply loosely_equal_strings | apply loosely_equal_numbers].
Qed.

End DeviceFacts.

(** ** One poll cycle *)

Lemma view_local_ret {A : Type} (a : A) : view_local (ret a).
Proof. intros w1 w2 Hview. now split. Qed.

Lemma view_local_throw {A : Type} (e : Exn) : view_local (@throw A e).
Proof. intros w1 w2 Hview. now split. Qed.

Lemma view_local_lift {A : Type} (c : Completion A) : view_local (lift c).
Proof. intros w1 w2 Hview. now split. Qed.

Lemma view_local_exec (f : World -> World) :
  (forall w1 w2, adapter_view w1 = adapter_view w2 ->
                 adapter_view (f w1) = adapter_view (f w2)) ->
  view_local (exec f).
Proof. intros Hf w1 w2 Hview. split; [reflexivity | now apply Hf]. Qed.

Lemma view_local_exec_keeps (f : World -> World) :
  (forall w, adapter_view (f w) = adapter_view w) -> view_local (exec f).
Proof.
  intros Hf. apply view_local_exec. intros w1 w2 Hview.
  now rewrite !Hf.
Qed.

Lemma view_local_bind {A B : Type} (m : Js A) (k : A -> Js B) :
  view_local m -> (forall a, view_local (k a)) -> view_local (bind m k).
Proof.
  intros Hm Hk w1 w2 Hview. unfold bind.
  destruct (Hm w1 w2 Hview) as [Hfst Hsnd].
  destruct (m w1) as [[a1 | e1] w1'], (m w2) as [[a2 | e2] w2'];
    cbn [fst snd] in Hfst, Hsnd; try discriminate Hfst.
  - injection Hfst as ->. now apply Hk.
  - injection Hfst as ->. split; [reflexivity | exact Hsnd].
Qed.

Lemma view_local_forEach {A : Type} (f : A -> Js unit) (l : list A) :
  (forall a, view_local (f a)) -> view_local (forEach f l).
Proof.
  intros Hf. induction l as [| a l IH]; cbn [forEach].
  - apply view_local_ret.
  - apply view_local_bind; [apply Hf | intros _; exact IH].
Qed.

Lemma adapter_view_refresh_start (w : World) :
  adapter_view (refresh_start w) = adapter_view w.
Proof.
  unfold refresh_start. cbn.
  destruct (truthy (refresh_token (config w))); reflexivity.
Qed.

Lemma view_local_the_device (key : string) : view_local (the_device key).
Proof.
  intros w1 w2 Hview. unfold the_device, device_at.
  injection Hview as Hd Ho Hm Hn. rewrite Hd, Ho.
  destruct (table_get key (devices w2)) as [ref |];
    [destruct (objects w2 !! ref) |]; cbn [fst snd];
    (split; [reflexivity |]); unfold adapter_view; now rewrite Hd, Ho, Hm, Hn.
Qed.

Lemma view_local_getHomeStatus_resume (response : Response) :
  view_local (getHomeStatus_resume response).
Proof.
  unfold getHomeStatus_resume.
  apply view_local_bind; [now apply view_local_exec_keeps |]. intros _.
  destruct (not_ok_200 response).
  - destruct (status response =? 403)%Z; [| apply view_local_ret].
    apply view_local_bind; [now apply view_local_exec_keeps |]. intros _.
    apply view_local_bind;
      [apply view_local_exec_keeps, adapter_view_refresh_start |]. intros _.
    apply view_local_throw.
  - apply view_local_bind; [apply view_local_lift |]. intros home.
    apply view_local_ret.
Qed.

Section PollFacts.
Context {ecma : EcmaStringToNumber}.

Lemma view_local_device_updateProperty (key name : string) (v : JsValue) :
  view_local (device_updateProperty key name v).
Proof.
  unfold device_updateProperty.
  apply view_local_bind; [apply view_local_the_device |]. intros [ref device].
  apply view_local_bind; [apply view_local_lift |]. intros [device' ns].
  apply view_local_exec. intros w1 w2 Hview.
  injection Hview as Hd Ho Hm Hn. unfold adapter_view. cbn.
  now rewrite Hd, Ho, Hm, Hn.
Qed.

Lemma view_local_update_room (home : Home) (room : RoomStatus) :
  view_local (update_room home room).
Proof.
  unfold update_room.
  repeat (apply view_local_bind;
          [apply view_local_device_updateProperty | intros _]).
  apply view_local_device_updateProperty.
Qed.

Lemma view_local_update_module (home : Home) (module : ModuleStatus) :
  view_local (update_module home module).
Proof.
  unfold update_module.
  destruct (negb (includes AVAILABLE_TYPES (ms_type module)));
    [apply view_local_ret |].
  apply view_local_bind.
  { intros w1 w2 Hview. injection Hview as Hd Ho Hm Hn. cbn [fst snd].
    rewrite Hm. split; [reflexivity |]. unfold adapter_view.
    now rewrite Hd, Ho, Hm, Hn. }
  intros mapped.
  apply view_local_bind; [apply view_local_the_device |]. intros _.
  apply view_local_bind; [apply view_local_lift |]. intros battery.
  apply view_local_bind; [apply view_local_device_updateProperty |].
  intros _. apply view_local_device_updateProperty.
Qed.

Lemma view_local_updateHomeData_home_resume (home : Home)
    (response : Response) :
  view_local (updateHomeData_home_resume home response).
Proof.
  unfold updateHomeData_home_resume.
  apply view_local_bind; [apply view_local_getHomeStatus_resume |].
  intros homeStatusData.
  apply view_local_bind.
  { unfold rooms_of.
    destruct homeStatusData as [| [home' |]];
      try apply view_local_throw.
    destruct (status_rooms home'); [apply view_local_ret | apply view_local_throw]. }
  intros rooms.
  apply view_local_bind;
    [apply view_local_forEach, view_local_update_room |]. intros _.
  apply view_local_bind.
  { unfold modules_of.
    destruct homeStatusData as [| [home' |]];
      try apply view_local_throw.
    destruct (status_modules home'); [apply view_local_ret | apply view_local_throw]. }
  intros modules.
  apply view_local_forEach, view_local_update_module.
Qed.

Lemma adapter_view_detached {A : Type} (m : Js A) (w : World) :
  adapter_view (detached m w) = adapter_view (snd (m w)).
Proof. unfold detached. destruct (m w) as [[a | e] w']; reflexivity. Qed.

(** When [getHomeStatus] throws, the callback ends there: the
    exception is nobody's, and the adapter's view is untouched. *)
Lemma getHomeStatus_resume_state_free (response : Response) (w w' : World) :
  fst (getHomeStatus_resume response w) = fst (getHomeStatus_resume response w').
Proof.
  unfold getHomeStatus_resume, bind, exec, ret, throw, lift.
  destruct (not_ok_200 response).
  - destruct (status response =? 403)%Z; reflexivity.
  - destruct (body_home (json response)); reflexivity.
Qed.

Lemma adapter_view_getHomeStatus_resume (response : Response) (w : World) :
  adapter_view (snd (getHomeStatus_resume response w)) = adapter_view w.
Proof.
  unfold getHomeStatus_resume, bind, exec, ret, throw, lift.
  destruct (not_ok_200 response).
  - destruct (status response =? 403)%Z; [| reflexivity].
    cbn [snd]. now rewrite adapter_view_refresh_start.
  - destruct (body_home (json response)); reflexivity.
Qed.

Lemma updateHomeData_home_stops (home : Home) (response : Response)
    (e : Exn) (w : World) :
  fst (getHomeStatus_resume response w) = Throw e ->
  updateHomeData_home_resume home response w
    = (Throw e, snd (getHomeStatus_resume response w)).
Proof.
  intros Hthrow. unfold updateHomeData_home_resume, bind.
  destruct (getHomeStatus_resume response w) as [[payload | e'] w1];
    cbn [fst] in Hthrow; [discriminate Hthrow |].
  now injection Hthrow as ->.
Qed.

Lemma updateHomeData_home_thrown (home : Home) (response : Response)
    (e : Exn) (w : World) :
  fst (getHomeStatus_resume response w) = Throw e ->
  uncaught (detached (updateHomeData_home_resume home response) w)
    = (uncaught (snd (getHomeStatus_resume response w)) ++ [e])%list
  /\ console (detached (updateHomeData_home_resume home response) w)
     = console (snd (getHomeStatus_resume response w))
  /\ adapter_view (detached (updateHomeData_home_resume home response) w)
     = adapter_view w.
Proof.
  intros Hthrow. unfold detached.
  rewrite (updateHomeData_home_stops home response e w Hthrow).
  repeat split. cbn. apply adapter_view_getHomeStatus_resume.
Qed.

Lemma uncaught_getHomeStatus_resume (response : Response) (w : World) :
  uncaught (snd (getHomeStatus_resume response w)) = uncaught w.
Proof.
  unfold getHomeStatus_resume, bind, exec, ret, throw, lift.
  destruct (not_ok_200 response).
  - destruct (status response =? 403)%Z; [| reflexivity].
    cbn [snd]. unfold refresh_start. cbn.
    destruct (truthy (refresh_token (config w))); reflexivity.
  - destruct (body_home (json response)); reflexivity.
Qed.

Lemma failure_of_callback (n : nat) (e : Exn) (home : Home) (w : World) :
  awaiter_of n (inflight w) = Some (updateHomeData_home_awaits home) ->
  adapter_view (failure n e w) = adapter_view w
  /\ uncaught (failure n e w) = (uncaught w ++ [e])%list
  /\ console (failure n e w) = console w.
Proof. intros Hk. unfold failure. rewrite Hk. repeat split. Qed.

(** C2 (amended). In one poll cycle, when fetching the status of one
    home throws (the answer makes [getHomeStatus] throw, or the request
    itself fails), the exception ends the callback of that home only
    (its promise is rejected) and changes nothing in the devices: the
    properties of another home are updated exactly as if that home were
    polled alone, whether its answer is handled before or after the
    failure. *)
Theorem C2_poll_failure_is_isolated
    (home1 home2 : Home) (answer1 answer2 : Response) (e : Exn) (n : nat)
    (w : World) :
  let first := detached (updateHomeData_home_resume home1 answer1) in
  let second := detached (updateHomeData_home_resume home2 answer2) in
  (fst (getHomeStatus_resume answer2 w) = Throw e ->
   adapter_view (second (first w)) = adapter_view (first w)
   /\ adapter_view (first (second w)) = adapter_view (first w)
   /\ uncaught (second w) = (uncaught w ++ [e])%list) /\
  (awaiter_of n (inflight w) = Some (updateHomeData_home_awaits home2) ->
   adapter_view (first (failure n e w)) = adapter_view (first w)
   /\ uncaught (failure n e w) = (uncaught w ++ [e])%list).
Proof.
  intros first second. split.
  - intros Hthrow. split; [| split].
    + assert (Hthrow' : fst (getHomeStatus_resume answer2 (first w)) = Throw e)
        by (now rewrite (getHomeStatus_resume_state_free answer2 (first w) w)).
      apply (updateHomeData_home_thrown home2 answer2 e (first w) Hthrow').
    + unfold first. rewrite !adapter_view_detached.
      apply view_local_updateHomeData_home_resume.
      apply (updateHomeData_home_thrown home2 answer2 e w Hthrow).
    + destruct (updateHomeData_home_thrown home2 answer2 e w Hthrow)
        as (Huncaught & _ & _).
      unfold second. rewrite Huncaught.
      now rewrite uncaught_getHomeStatus_resume.
  - intros Hk.
    destruct (failure_of_callback n e home2 w Hk) as (Hview & Huncaught & _).
    split; [| exact Huncaught].
    unfold first. rewrite !adapter_view_detached.
    now apply view_local_updateHomeData_home_resume.
Qed.

End PollFacts.

(** ** Runs of the process *)

(** What the run shows: discovery gives home A one device with six
    properties, and the poll sets its battery to 65% and its signal to
    0%. *)
Example polled_A_properties :
  (fun found => value <$> properties (snd found)) <$> device_at "A-1" polled_A
  = Some (<["temperature" := num 21.5]>
            (<["targetTemperature" := num 22]>
               (<["heating" := JsString "heating"]>
                  (<["mode" := JsUndefined]>
                     (<["m1-battery" := num 65]>
                        (<["m1-signal" := num 0]> ∅)))))).
Proof. vm_compute. reflexivity. Qed.

(** Discovery files each device twice, under [home-room] and, when it
    is announced, under its id: both keys hold the same object, so the
    poll, which updates the devices through the first key, is seen
    through the second. *)
Example discovered_devices :
  devices discovered
  = [("A-1", 0%nat); ("B-2", 1%nat);
     ("thermostat-room-A-1", 0%nat); ("thermostat-room-B-2", 1%nat)]
  /\ device_at "thermostat-room-A-1" polled_A = device_at "A-1" polled_A.
Proof. split; vm_compute; reflexivity. Qed.

(** C1, as the claim states it, fails: on a 500 the operation does not
    fail, it returns an empty array; on a 201, which is a 2xx, it
    returns an empty array whatever the body holds; and on a 200 whose
    answer has no body it returns no payload, it fails with a
    [TypeError]. *)
Lemma C1_counterexample :
  ok server_error = false
  /\ status server_error <> 403%Z
  /\ fst (resume_of (GetHomeStatus (JsString "A")) server_error polling)
     = Return (Status EmptyArray)
  /\ (forall e, fst (resume_of (GetHomeStatus (JsString "A")) server_error polling)
                <> Throw e)
  /\ ok created = true
  /\ fst (resume_of (GetHomeStatus (JsString "A")) created polling)
     = Return (Status EmptyArray)
  /\ ok no_body = true
  /\ fst (resume_of (GetHomeStatus (JsString "A")) no_body polling)
     = Throw TypeError.
Proof.
  split; [reflexivity |]. split; [discriminate |].
  split; [vm_compute; reflexivity |].
  split; [intros e; vm_compute; discriminate |].
  split; [vm_compute; reflexivity |]. split; [vm_compute; reflexivity |].
  split; vm_compute; reflexivity.
Qed.

Lemma C1_witness :
  token (config (refresh_start started)) = ""
  /\ (exists e, UnauthorizedError e
        /\ start_of (GetHomeData JsUndefined) updateHomeData_awaits
             (refresh_start started)
           = (Throw e, refresh_start started))
  /\ status forbidden = 403%Z
  /\ refresh_token (config started) <> ""
  /\ exists e w', UnauthorizedError e
       /\ resume_of (GetHomeData JsUndefined) forbidden started = (Throw e, w')
       /\ token (config w') = ""
       /\ sent w' = (sent started ++ [refresh_request (config started)])%list.
Proof.
  assert (Htoken : token (config (refresh_start started)) = "")
    by (vm_compute; reflexivity).
  assert (Hrt : refresh_token (config started) <> "")
    by (vm_compute; discriminate).
  split; [exact Htoken |]. split.
  { destruct (C1_cloud_operation_envelope (GetHomeData JsUndefined)
                updateHomeData_awaits server_error (refresh_start started))
      as (Hempty & _).
    destruct (Hempty Htoken) as (e & He & _ & Hrun).
    exists e. split; [exact He | exact Hrun]. }
  split; [reflexivity |]. split; [exact Hrt |].
  destruct (C1_cloud_operation_envelope (GetHomeData JsUndefined)
              updateHomeData_awaits forbidden started)
    as (_ & Hforbidden & _).
  destruct (Hforbidden eq_refl)
    as (e & w' & He & _ & Hrun & _ & Hcleared & Hsent & _).
  exists e, w'. split; [exact He |]. split; [exact Hrun |].
  split; [exact Hcleared |]. apply (Hsent Hrt).
Defined.

(** C2, as the claim states it, fails: when home B is refused, the
    exception is not caught (it is left as the rejection of the
    callback) and nothing is logged as an error; home A keeps its
    update. *)
Lemma C2_counterexample :
  uncaught polled_A = []
  /\ uncaught polled_A_refused_B = [Error "Unauthorized"]
  /\ List.filter (fun entry => match fst entry with error => true | log => false end)
       (console polled_A_refused_B) = []
  /\ adapter_view polled_A_refused_B = adapter_view polled_A.
Proof.
  split; [vm_compute; reflexivity |]. split; [vm_compute; reflexivity |].
  split; vm_compute; reflexivity.
Qed.

Lemma C2_witness :
  fst (getHomeStatus_resume forbidden polling) = Throw (Error "Unauthorized")
  /\ adapter_view
       (detached (updateHomeData_home_resume (ecma := StringToNumber_digits)
                    homeB forbidden)
          (detached (updateHomeData_home_resume (ecma := StringToNumber_digits)
                       homeA statusA_answer) polling))
     = adapter_view
         (detached (updateHomeData_home_resume (ecma := StringToNumber_digits)
                      homeA statusA_answer) polling).
Proof.
  assert (Hthrow : fst (getHomeStatus_resume forbidden polling)
                   = Throw (Error "Unauthorized"))
    by (vm_compute; reflexivity).
  split; [exact Hthrow |].
  destruct (C2_poll_failure_is_isolated (ecma := StringToNumber_digits)
              homeA homeB statusA_answer forbidden (Error "Unauthorized") 3
              polling) as (Hanswered & _).
  destruct (Hanswered Hthrow) as (Hafter & _).
  exact Hafter.
Defined.

(** C3, as the claim states it, fails on three 200 answers: one without
    a refresh token, after which [needsAuth] is true; one whose
    [expires_in] is 0, after which the scheduler has refreshed at once
    and the store no longer holds the access token of the answer; and
    one whose [expires_in] is 10^13 seconds, an expiry that no [Date]
    holds: [refresh()] fails with a [RangeError] before it saves
    anything or arms the scheduler. *)
Lemma C3_counterexample :
  refresh_token config0 <> ""
  /\ status (grant "t1" 10800 "") = 200%Z
  /\ status (grant "t1" 0 "r1") = 200%Z
  /\ needsAuth (refresh_resume 3000 3001 (grant "t1" 10800 "")
                  (refresh_start (boot config0))) = true
  /\ token (config (refresh_resume 3000 3001 (grant "t1" 0 "r1")
                      (refresh_start (boot config0)))) = ""
  /\ access_token (json (grant "t1" 0 "r1")) = "t1"
  /\ status (grant "t1" 10000000000000 "r1") = 200%Z
  /\ saved (refresh_resume 3000 3001 (grant "t1" 10000000000000 "r1")
              (refresh_start (boot config0))) = []
  /\ timers (refresh_resume 3000 3001 (grant "t1" 10000000000000 "r1")
               (refresh_start (boot config0))) = []
  /\ sent (refresh_resume 3000 3001 (grant "t1" 10000000000000 "r1")
             (refresh_start (boot config0)))
     = sent (refresh_start (boot config0))
  /\ uncaught (refresh_resume 3000 3001 (grant "t1" 10000000000000 "r1")
                 (refresh_start (boot config0))) = [RangeError].
Proof.
  split; [discriminate |]. split; [reflexivity |]. split; [reflexivity |].
  split; [vm_compute; reflexivity |]. split; [vm_compute; reflexivity |].
  split; [vm_compute; reflexivity |]. split; [reflexivity |].
  split; [vm_compute; reflexivity |]. split; [vm_compute; reflexivity |].
  split; vm_compute; reflexivity.
Qed.

Lemma C3_witness :
  refresh_token (config (boot config0)) <> ""
  /\ status (grant "t1" 10800 "r1") = 200%Z
  /\ expires_in (json (grant "t1" 10800 "r1")) = Some 10800%Z
  /\ (0 <= 3001 < 3000 + 10800 * 1000)%Z
  /\ (3000 + 10800 * 1000 <= 8640000000000000)%Z
  /\ data_refresh_token (json (grant "t1" 10800 "r1")) <> ""
  /\ access_token (json (grant "t1" 10800 "r1")) <> ""
  /\ token (config (refresh_resume 3000 3001 (grant "t1" 10800 "r1")
                      (refresh_start (boot config0)))) = "t1"
  /\ saved (refresh_resume 3000 3001 (grant "t1" 10800 "r1")
              (refresh_start (boot config0)))
     = [(Some 10803000%Z, "r1")]
  /\ needsAuth (refresh_resume 3000 3001 (grant "t1" 10800 "r1")
                  (refresh_start (boot config0))) = false
  /\ timers (refresh_resume 3000 3001 (grant "t1" 10800 "r1")
               (refresh_start (boot config0)))
     = [{| handle := 0; delay := 10799999 |}].
Proof.
  assert (Hrt : refresh_token (config (boot config0)) <> "") by discriminate.
  assert (Hclock : (0 <= 3001 < 3000 + 10800 * 1000)%Z) by lia.
  assert (Hdate : (3000 + 10800 * 1000 <= 8640000000000000)%Z) by lia.
  assert (Hrotated : data_refresh_token (json (grant "t1" 10800 "r1")) <> "")
    by discriminate.
  assert (Haccess : access_token (json (grant "t1" 10800 "r1")) <> "")
    by discriminate.
  destruct (C3_refresh_outcomes 3000 3001 (grant "t1" 10800 "r1")
              (boot config0) Hrt) as (_ & Hgranted & _).
  destruct (Hgranted eq_refl 10800%Z eq_refl Hclock Hdate Hrotated)
    as (Htoken & _ & _ & Hsaved & _ & Hauth & Hrearm & _).
  destruct (Hrearm Haccess) as (Htimers & _).
  split; [exact Hrt |]. split; [reflexivity |]. split; [reflexivity |].
  split; [exact Hclock |]. split; [exact Hdate |]. split; [exact Hrotated |].
  split; [exact Haccess |]. split; [exact Htoken |].
  split; [exact Hsaved |]. split; [exact Hauth | exact Htimers].
Defined.

Lemma C4_witness :
  cb_state {| cb_state := Some "5eed"; cb_code := Some "code"; cb_error := None |}
    <> Some "c0ffee"
  /\ exists e, AuthFlowError e
       /\ authenticate_resume ["read_thermostat"; "write_thermostat"]
            "https://gateway.local/extensions/netatmo-energy-adapter" "c0ffee"
            {| cb_state := Some "5eed"; cb_code := Some "code"; cb_error := None |}
            started
          = (Throw e, started).
Proof.
  assert (Hne : cb_state {| cb_state := Some "5eed"; cb_code := Some "code";
                            cb_error := None |} <> Some "c0ffee")
    by discriminate.
  split; [exact Hne |].
  apply (C4_authenticate_resume_checks
           ["read_thermostat"; "write_thermostat"]
           "https://gateway.local/extensions/netatmo-energy-adapter" "c0ffee"
           {| cb_state := Some "5eed"; cb_code := Some "code"; cb_error := None |}
           0%Z 0%Z server_error started).
  left. exact Hne.
Defined.

(** C5, as the claim states it, fails: after home B is refused and the
    refresh is granted, the timer of the constructor is still pending
    next to the new one; [initRefresh] has cancelled nothing. *)
Lemma C5_counterexample :
  timers polled_A_refused_B = [{| handle := 0; delay := 9999000 |}]
  /\ timers refreshed
     = [{| handle := 0; delay := 9999000 |};
        {| handle := 1; delay := 10799999 |}]
  /\ ~ (length (timers refreshed) <= 1)%nat.
Proof.
  split; [vm_compute; reflexivity |].
  split; [vm_compute; reflexivity |]. vm_compute. lia.
Qed.

Lemma C5_witness :
  (0 < expiresIn 1000 (boot config0))%Z
  /\ token (config (boot config0)) <> ""
  /\ timers (initRefresh 1000 (boot config0))
     = [{| handle := 0; delay := 9999000 |}]
  /\ refreshInterval (initRefresh 1000 (boot config0)) = Some 0%nat.
Proof.
  assert (Hpos : (0 < expiresIn 1000 (boot config0))%Z) by (vm_compute; reflexivity).
  assert (Htoken : token (config (boot config0)) <> "") by discriminate.
  destruct (C5_initRefresh_arms 1000 (boot config0)) as (Harm & _).
  destruct (Harm Hpos Htoken) as (Htimers & Hinterval & _).
  split; [exact Hpos |]. split; [exact Htoken |].
  split; [exact Htimers | exact Hinterval].
Defined.

(** C6, as the claim states it, fails: the signal of a valve that
    reports no [rf_strength] is [NaN], and updating a property whose
    cached value is [NaN] with [NaN] notifies although the value is the
    cached one; and updating a property whose cached value is
    [undefined] with [null], a different value, changes nothing. *)
Lemma C6_counterexample :
  mapRfToPercent (ecma := StringToNumber_digits) JsUndefined = NaN
  /\ value <$> properties silent_valve !! "m1-signal" = Some (JsNumber NaN)
  /\ (exists device',
         updateProperty (ecma := StringToNumber_digits)
           "m1-signal" (JsNumber NaN) silent_valve
         = Return (device', [("thermostat-room-A-1", "m1-signal", JsNumber NaN)]))
  /\ value <$> properties silent_valve !! "temperature" = Some JsUndefined
  /\ JsNull <> JsUndefined
  /\ updateProperty (ecma := StringToNumber_digits)
       "temperature" JsNull silent_valve
     = Return (silent_valve, []).
Proof.
  split; [reflexivity |]. split; [vm_compute; reflexivity |].
  split; [eexists; vm_compute; reflexivity |].
  split; [vm_compute; reflexivity |]. split; [discriminate |].
  vm_compute. reflexivity.
Qed.

Lemma C6_witness :
  properties warm_room !! "temperature"
    = Some {| property_class := ThermostatProperty; value := num 21.5 |}
  /\ loosely_equal (ecma := StringToNumber_digits) (num 21.5) (num (43 # 2)) = true
  /\ updateProperty (ecma := StringToNumber_digits)
       "temperature" (num (43 # 2)) warm_room
     = Return (warm_room, []).
Proof.
  assert (Hfind : properties warm_room !! "temperature"
                  = Some {| property_class := ThermostatProperty;
                            value := num 21.5 |})
    by (vm_compute; reflexivity).
  assert (Hsame : loosely_equal (ecma := StringToNumber_digits)
                    (value {| property_class := ThermostatProperty;
                              value := num 21.5 |}) (num (43 # 2)) = true)
    by reflexivity.
  split; [exact Hfind |]. split; [exact Hsame |].
  destruct (C6_updateProperty_change_detection (ecma := StringToNumber_digits)
              "temperature" (num (43 # 2)) warm_room
              {| property_class := ThermostatProperty; value := num 21.5 |}
              Hfind) as (Hkeep & _).
  exact (Hkeep Hsame).
Defined.

Lemma C7_witness :
  (2100 <= 2550)%Q
  /\ interpolateBattery (ecma := StringToNumber_digits) (num 2100) "NRV"
     = Return (Num (inject_Z 0))
  /\ interpolateBattery (ecma := StringToNumber_digits) (num 2550) "NRV"
     = Return (Num (inject_Z 65))
  /\ (0 <= 65)%Z.
Proof.
  assert (Hle : (2100 <= 2550)%Q) by (unfold Qle; cbn; lia).
  assert (Hlow : interpolateBattery (ecma := StringToNumber_digits)
                   (num 2100) "NRV" = Return (Num (inject_Z 0)))
    by reflexivity.
  assert (Hmid : interpolateBattery (ecma := StringToNumber_digits)
                   (num 2550) "NRV" = Return (Num (inject_Z 65)))
    by reflexivity.
  destruct (C7_interpolateBattery_NRV (ecma := StringToNumber_digits))
    as (_ & Hmono & _).
  split; [exact Hle |]. split; [exact Hlow |]. split; [exact Hmid |].
  exact (Hmono 2100%Q 2550%Q 0%Z 65%Z Hle Hlow Hmid).
Defined.

Lemma C8_witness :
  (50 <= 60)%Q
  /\ num_is (mapRfToPercent (ecma := StringToNumber_digits) (num 50)) 100.
Proof.
  assert (Hle : (50 <= 60)%Q) by (unfold Qle; cbn; lia).
  split; [exact Hle |].
  destruct (C8_mapRfToPercent_clamped (ecma := StringToNumber_digits))
    as (_ & _ & _ & Hgood & _).
  exact (Hgood 50%Q Hle).
Defined.

(** C9, as the claim states it, fails: the device of room 1 of a home
    whose id is the empty string has [getIds()] return [["", "1"]], but
    the request of its [setRoomThermPoint] names no home; and the
    request of [setThermostatMode] never names the room. *)
Lemma C9_counterexample :
  String_includes "-" "" = false
  /\ String_includes "-" "1" = false
  /\ id homeless_room = DEVICE_PREFIX +:+ "" +:+ "-" +:+ "1"
  /\ getIds homeless_room = [""; "1"]
  /\ body <$> last (sent (snd (device_setRoomThermPoint homeless_room (num 21)
                                 started)))
     = Some [("room_id", JsString "1"); ("mode", JsString "manual");
             ("temp", num 21)]
  /\ id warm_room = DEVICE_PREFIX +:+ "A" +:+ "-" +:+ "1"
  /\ body <$> last (sent (snd (device_setThermostatMode warm_room
                                 (JsString "off") started)))
     = Some [("home_id", JsString "A"); ("mode", JsString "away")].
Proof.
  split; [reflexivity |]. split; [reflexivity |]. split; [reflexivity |].
  split; [reflexivity |]. split; [vm_compute; reflexivity |].
  split; [reflexivity |]. vm_compute. reflexivity.
Qed.

Lemma C9_witness :
  String_includes "-" "A" = false
  /\ String_includes "-" "1" = false
  /\ id warm_room = DEVICE_PREFIX +:+ "A" +:+ "-" +:+ "1"
  /\ "A" <> "" /\ "1" <> ""
  /\ token (config started) <> ""
  /\ getIds warm_room = ["A"; "1"]
  /\ device_setRoomThermPoint warm_room (num 21) started
     = (Return tt,
        fetch {| url := "https://api.netatmo.com/api/setroomthermpoint";
                 body := [("home_id", JsString "A"); ("room_id", JsString "1");
                          ("mode", JsString "manual"); ("temp", num 21)];
                 authorization := Some "Bearer t0" |}
              setRoomThermPoint_awaits started).
Proof.
  assert (Hh : "A" <> "") by discriminate.
  assert (Hr : "1" <> "") by discriminate.
  assert (Htoken : token (config started) <> "") by (vm_compute; discriminate).
  destruct C9_getIds_round_trip as (Hround & _).
  destruct (Hround "A" "1" warm_room (num 21) JsUndefined started
              eq_refl eq_refl eq_refl) as (Hids & Hpoint & _).
  split; [reflexivity |]. split; [reflexivity |]. split; [reflexivity |].
  split; [exact Hh |]. split; [exact Hr |]. split; [exact Htoken |].
  split; [exact Hids |]. exact (Hpoint Hh Hr Htoken).
Defined.

(** C10, as the claim states it, fails: when both homes are refused two
    refreshes are started; once the first is granted the access token is
    set again while the second is still in flight, and a cloud operation
    called then passes its precondition and sends its request. *)
Lemma C10_counterexample :
  refresh_in_flight granted_first
  /\ token (config granted_first) = "t1"
  /\ fst (start_of (GetHomeData JsUndefined) updateHomeData_awaits granted_first)
     = Return tt
  /\ length (sent (snd (start_of (GetHomeData JsUndefined) updateHomeData_awaits
                          granted_first)))
     = S (length (sent granted_first)).
Proof.
  split.
  { exists 5%nat. vm_compute. apply list_elem_of_here. }
  split; [vm_compute; reflexivity |]. split; vm_compute; reflexivity.
Qed.

Lemma C10_witness :
  refresh_token (config started) <> ""
  /\ grant_free (ecma := StringToNumber_digits) [Poll; Fire 0]
       (refresh_start started)
  /\ refresh_in_flight (refresh_start started)
  /\ start_of (GetHomeStatus (JsString "A")) (updateHomeData_home_awaits homeA)
       (run (ecma := StringToNumber_digits) [Poll; Fire 0]
          (refresh_start started))
     = (Throw (Error "No token found"),
        run (ecma := StringToNumber_digits) [Poll; Fire 0]
          (refresh_start started)).
Proof.
  assert (Hrt : refresh_token (config started) <> "")
    by (vm_compute; discriminate).
  assert (Hfree : grant_free (ecma := StringToNumber_digits) [Poll; Fire 0]
                    (refresh_start started))
    by (split; [reflexivity | split; [reflexivity | exact I]]).
  destruct (C10_refresh_empties_token (ecma := StringToNumber_digits)
              0%Z 0%Z server_error [Poll; Fire 0]
              (GetHomeStatus (JsString "A")) (updateHomeData_home_awaits homeA)
              started) as (_ & _ & _ & Hflight & Hfails).
  split; [exact Hrt |]. split; [exact Hfree |].
  split; [apply (Hflight Hrt) | apply (Hfails Hfree)].
Defined.

(* ================================================================== *)
(** * Further properties of the cloud client *)

(** X1. With an access token stored, every cloud operation sends exactly
    one request and suspends on it: the request goes to the address of
    the operation, its [Authorization] header is ["Bearer "] followed by
    the stored token, and its form holds the arguments that are truthy,
    in the order the code tests them, and nothing else; the
    configuration is not changed. *)
Theorem cloud_operation_sends (op : Operation) (k : Awaiter) (w : World) :
  token (config w) <> "" ->
  exists request,
    start_of op k w = (Return tt, fetch request k w)
    /\ url request = endpoint op
    /\ authorization request = Some ("Bearer " +:+ token (config w))
    /\ body request
       = List.filter (fun field => ToBoolean (snd field)) (arguments_of op)
    /\ sent (fetch request k w) = (sent w ++ [request])%list
    /\ inflight (fetch request k w) = (inflight w ++ [(length (sent w), k)])%list
    /\ config (fetch request k w) = config w.
Proof.
  intros Htoken. eexists. split; [exact (start_of_sends op k w Htoken) |].
  repeat split.
Qed.

(** X2. A 403 answer to any cloud operation makes the call fail with
    [Error "Unauthorized"] after it has cleared the access token and
    called [refresh()]: the handle of the refresh timer is forgotten
    while the pending timers stay pending, the devices are not touched
    and nothing is saved; with a refresh token stored exactly one
    request, the refresh request built from the stored refresh token and
    the client's credentials, is sent and awaited; without one nothing is
    sent and ["Can not refresh token."] is the last line logged. *)
Theorem forbidden_starts_refresh
    (op : Operation) (response : Response) (w : World) :
  status response = 403%Z ->
  exists w',
    resume_of op response w = (Throw (Error "Unauthorized"), w')
    /\ token (config w') = ""
    /\ refresh_token (config w') = refresh_token (config w)
    /\ refreshInterval w' = None
    /\ timers w' = timers w
    /\ saved w' = saved w
    /\ adapter_view w' = adapter_view w
    /\ (refresh_token (config w) <> "" ->
        sent w' = (sent w ++ [refresh_request (config w)])%list
        /\ inflight w' = (inflight w ++ [(length (sent w), refresh_awaits)])%list)
    /\ (refresh_token (config w) = "" ->
        sent w' = sent w /\ inflight w' = inflight w
        /\ last (console w') = Some (error, "Can not refresh token.")).
Proof.
  intros Hstatus. eexists.
  split; [exact (resume_of_403 op response w Hstatus) |].
  set (w1 := set_token "" (console_log (response_line op) w)).
  split; [apply refresh_start_token |].
  split; [now rewrite refresh_start_refresh_token |].
  split.
  { unfold refresh_start. cbn.
    destruct (truthy (refresh_token (config w))); reflexivity. }
  split; [now rewrite refresh_start_timers |].
  split; [now rewrite refresh_start_saved |].
  split; [now rewrite adapter_view_refresh_start |].
  split.
  - intros Hrt. rewrite (refresh_start_sends w1) by exact Hrt.
    split; reflexivity.
  - intros Hrt. rewrite (refresh_start_gives_up w1) by exact Hrt.
    split; [reflexivity |]. split; [reflexivity |].
    unfold console_error. cbn [console set_console]. apply last_snoc.
Qed.

(** *** [unInit] *)

Lemma filter_fresh_handles (h : nat) (l : list Timer) :
  Forall (fun t => (handle t < h)%nat) l ->
  filter (fun t => handle t <> h) l = l.
Proof.
  induction 1 as [| t l Ht _ IH]; [reflexivity |].
  rewrite filter_cons_True by lia. now rewrite IH.
Qed.

Lemma unInit_initRefresh (now : Z) (w : World) :
  fresh_handles w -> (0 < expiresIn now w)%Z -> token (config w) <> "" ->
  timers (unInit (initRefresh now w)) = timers w.
Proof.
  intros Hfresh Hpos Htoken.
  rewrite (initRefresh_schedules now w Hpos Htoken).
  unfold unInit, clearTimeout. cbn.
  rewrite filter_app, (filter_fresh_handles _ _ Hfresh).
  rewrite filter_cons_False by (cbn; intros Hne; now apply Hne).
  apply app_nil_r.
Qed.

Lemma unInit_clears (h : nat) (w : World) :
  refreshInterval w = Some h ->
  Forall (fun t => handle t <> h) (timers (unInit w))
  /\ (forall t, t ∈ timers (unInit w) -> t ∈ timers w).
Proof.
  intros Hh. unfold unInit, clearTimeout. rewrite Hh. cbn. split.
  - apply Forall_forall. intros t Hin. now apply list_elem_of_filter in Hin.
  - intros t Hin. now apply list_elem_of_filter in Hin.
Qed.

Lemma unInit_refresh_start (w : World) :
  unInit (refresh_start w) = refresh_start w.
Proof.
  unfold unInit, refresh_start. cbn.
  destruct (truthy (refresh_token (config w))); reflexivity.
Qed.

(** X3. [unInit()] cancels the timer whose handle [initRefresh] kept and
    no other: right after an [initRefresh] that scheduled, it leaves the
    pending timers exactly as they were before; in general no timer with
    the kept handle stays and no timer is added.  Once [refresh()] has
    started, the handle is forgotten and [unInit()] changes nothing: the
    timers that were pending stay pending. *)
Theorem unInit_cancels (now : Z) (w : World) :
  (fresh_handles w -> (0 < expiresIn now w)%Z -> token (config w) <> "" ->
   timers (unInit (initRefresh now w)) = timers w) /\
  (forall h, refreshInterval w = Some h ->
     Forall (fun t => handle t <> h) (timers (unInit w))
     /\ (forall t, t ∈ timers (unInit w) -> t ∈ timers w)) /\
  unInit (refresh_start w) = refresh_start w /\
  timers (unInit (refresh_start w)) = timers w.
Proof.
  split; [apply unInit_initRefresh |].
  split; [intros h; apply unInit_clears |].
  split; [apply unInit_refresh_start |].
  rewrite unInit_refresh_start. apply refresh_start_timers.
Qed.

(** *** The exchange of the authorization code *)

Lemma authenticate_exchange_stores (now now' : Z) (response : Response)
    (w : World) :
  status response = 200%Z ->
  authenticate_exchange now now' response w =
  (Return tt,
   initRefresh now'
     (updateConfig
        (set_refresh_token (data_refresh_token (json response))
           (set_token (access_token (json response))
              (set_expires (expiry now (json response)) w))))).
Proof.
  intros Hstatus. unfold authenticate_exchange.
  rewrite not_ok_200_status, Hstatus. reflexivity.
Qed.

(** X4. A 200 answer to the exchange of the authorization code, with a
    non-empty access token and a lifetime that has not run out when the
    scheduler is armed, completes [authenticate]: the store holds the
    access token, the expiry [now + expires_in * 1000] and the refresh
    token of the answer, that expiry and refresh token are the last
    state saved, one refresh timer is scheduled for the remaining
    lifetime, nothing is sent, [needsAuth] is false exactly when the
    answer carries a refresh token, and every cloud operation called
    next passes its guard. *)
Theorem authenticate_exchange_granted
    (now now' e : Z) (response : Response) (op : Operation) (k : Awaiter)
    (w : World) :
  status response = 200%Z ->
  expires_in (json response) = Some e ->
  (0 <= now' < now + e * 1000)%Z ->
  access_token (json response) <> "" ->
  exists w',
    authenticate_exchange now now' response w = (Return tt, w')
    /\ token (config w') = access_token (json response)
    /\ expires (config w') = Some (now + e * 1000)%Z
    /\ refresh_token (config w') = data_refresh_token (json response)
    /\ last (saved w')
       = Some (Some (now + e * 1000)%Z, data_refresh_token (json response))
    /\ timers w'
       = (timers w ++ [{| handle := timers_created w;
                          delay := (now + e * 1000 - now')%Z |}])%list
    /\ refreshInterval w' = Some (timers_created w)
    /\ sent w' = sent w
    /\ needsAuth w' = negb (truthy (data_refresh_token (json response)))
    /\ fst (start_of op k w') = Return tt.
Proof.
  intros Hstatus He Hclock Haccess. eexists.
  split; [exact (authenticate_exchange_stores now now' response w Hstatus) |].
  unfold expiry. rewrite He.
  set (stored := updateConfig _).
  assert (Hin : expiresIn now' stored = (now + e * 1000 - now')%Z).
  { unfold expiresIn, stored. cbn.
    destruct (now + e * 1000 =? 0)%Z eqn:E; [| reflexivity].
    apply Z.eqb_eq in E. lia. }
  assert (Htoken : token (config stored) <> "") by exact Haccess.
  rewrite (initRefresh_schedules now' stored) by (rewrite ?Hin; first [lia | exact Htoken]).
  rewrite Hin. unfold stored. cbn.
  do 3 (split; [reflexivity |]). split; [apply last_snoc |].
  do 4 (split; [reflexivity |]).
  rewrite start_of_sends by exact Haccess. reflexivity.
Qed.

(** *** Answers whose expiry cannot be printed *)

(** X5. A 200 answer whose expiry is no time of a [Date]: [expires_in]
    is missing, or the expiry lies more than 8.64e15 ms from the epoch.
    In [refresh()] the tokens of the answer are stored in memory, but
    printing the expiry raises a [RangeError] that nothing catches: the
    rotated refresh token is not saved and no refresh timer is armed.
    [authenticate] prints no date: without [expires_in] the tokens are
    stored and saved, and [initRefresh], finding no expiry, calls
    [refresh()] at once, which clears the access token just stored. *)
Theorem answer_without_expires_in
    (now now' : Z) (response : Response) (w : World) :
  status response = 200%Z ->
  (match expiry now (json response) with
   | Some t => (t < -8640000000000000 \/ 8640000000000000 < t)%Z
   | None => True
   end ->
   let w' := refresh_resume now now' response w in
   token (config w') = access_token (json response)
   /\ refresh_token (config w') = data_refresh_token (json response)
   /\ expires (config w') = expiry now (json response)
   /\ saved w' = saved w
   /\ timers w' = timers w
   /\ refreshInterval w' = refreshInterval w
   /\ sent w' = sent w
   /\ uncaught w' = (uncaught w ++ [RangeError])%list) /\
  (expires_in (json response) = None ->
   let w' := snd (authenticate_exchange now now' response w) in
   fst (authenticate_exchange now now' response w) = Return tt
   /\ token (config w') = ""
   /\ refresh_token (config w') = data_refresh_token (json response)
   /\ saved w' = (saved w ++ [(None, data_refresh_token (json response))])%list
   /\ timers w' = timers w
   /\ refreshInterval w' = None
   /\ (data_refresh_token (json response) <> "" ->
       exists request, sent w' = (sent w ++ [request])%list
                       /\ url request = "https://api.netatmo.com/oauth2/token")).
Proof.
  intros Hstatus. split.
  - intros Hdate. cbn zeta.
    rewrite (refresh_resume_unprintable now now' response w Hstatus).
    + repeat split.
    + destruct (expiry now (json response)) as [t |]; [| exact I].
      unfold valid_date. apply andb_false_iff.
      destruct Hdate as [Hlow | Hhigh]; [left | right]; apply Z.leb_gt; lia.
  - intros He. cbn zeta.
    rewrite (authenticate_exchange_stores now now' response w Hstatus).
    unfold expiry. rewrite He. cbn [fst snd].
    set (stored := updateConfig _).
    rewrite (initRefresh_refreshes now' stored).
    2:{ intros [Hpos _]. unfold expiresIn, stored in Hpos. cbn in Hpos. lia. }
    split; [reflexivity |].
    split; [apply refresh_start_token |].
    split; [now rewrite refresh_start_refresh_token |].
    split; [now rewrite refresh_start_saved |].
    split; [now rewrite refresh_start_timers |].
    split.
    { unfold refresh_start. cbn.
      destruct (truthy (data_refresh_token (json response))); reflexivity. }
    intros Hrt. rewrite (refresh_start_sends stored) by exact Hrt.
    eexists. split; reflexivity.
Qed.

(* ================================================================== *)
(** * Who touches what *)

Lemma untouched_ret {X A : Type} (view : World -> X) (a : A) :
  untouched view (ret a).
Proof. now intros w. Qed.

Lemma untouched_throw {X A : Type} (view : World -> X) (e : Exn) :
  untouched view (@throw A e).
Proof. now intros w. Qed.

Lemma untouched_lift {X A : Type} (view : World -> X) (c : Completion A) :
  untouched view (lift c).
Proof. now intros w. Qed.

Lemma untouched_exec {X : Type} (view : World -> X) (f : World -> World) :
  (forall w, view (f w) = view w) -> untouched view (exec f).
Proof. intros Hf w. apply Hf. Qed.

Lemma untouched_bind {X A B : Type} (view : World -> X)
    (m : Js A) (k : A -> Js B) :
  untouched view m -> (forall a, untouched view (k a)) ->
  untouched view (bind m k).
Proof.
  intros Hm Hk w. unfold bind. specialize (Hm w).
  destruct (m w) as [[a | e] w']; cbn [snd] in *.
  - now rewrite Hk.
  - exact Hm.
Qed.

Lemma untouched_forEach {X A : Type} (view : World -> X)
    (f : A -> Js unit) (l : list A) :
  (forall a, untouched view (f a)) -> untouched view (forEach f l).
Proof.
  intros Hf. induction l as [| a l IH]; cbn [forEach].
  - apply untouched_ret.
  - apply untouched_bind; [apply Hf | intros _; exact IH].
Qed.

Lemma untouched_detached {X A : Type} (view : World -> X) (m : Js A) (w : World) :
  untouched view m -> (forall e w', view (reject e w') = view w') ->
  view (detached m w) = view w.
Proof.
  intros Hm Hreject. unfold detached. specialize (Hm w).
  destruct (m w) as [[a | e] w']; cbn [snd] in Hm; [exact Hm |].
  now rewrite Hreject.
Qed.


Lemma preserves_ret {A : Type} (I : World -> Prop) (a : A) : preserves I (ret a).
Proof. now intros w Hw. Qed.

Lemma preserves_throw {A : Type} (I : World -> Prop) (e : Exn) :
  preserves I (@throw A e).
Proof. now intros w Hw. Qed.

Lemma preserves_lift {A : Type} (I : World -> Prop) (c : Completion A) :
  preserves I (lift c).
Proof. now intros w Hw. Qed.

Lemma preserves_exec (I : World -> Prop) (f : World -> World) :
  (forall w, I w -> I (f w)) -> preserves I (exec f).
Proof. intros Hf w Hw. now apply Hf. Qed.

Lemma preserves_bind {A B : Type} (I : World -> Prop) (m : Js A) (k : A -> Js B) :
  preserves I m -> (forall a, preserves I (k a)) -> preserves I (bind m k).
Proof.
  intros Hm Hk w Hw. unfold bind. specialize (Hm w Hw).
  destruct (m w) as [[a | e] w']; cbn [snd] in *; [now apply Hk | exact Hm].
Qed.

Lemma preserves_forEach {A : Type} (I : World -> Prop)
    (f : A -> Js unit) (l : list A) :
  (forall a, preserves I (f a)) -> preserves I (forEach f l).
Proof.
  intros Hf. induction l as [| a l IH]; cbn [forEach].
  - apply preserves_ret.
  - apply preserves_bind; [apply Hf | intros _; exact IH].
Qed.

Lemma preserves_detached {A : Type} (I : World -> Prop) (m : Js A) (w : World) :
  preserves I m -> (forall e w', I w' -> I (reject e w')) ->
  I w -> I (detached m w).
Proof.
  intros Hm Hreject Hw. unfold detached. specialize (Hm w Hw).
  destruct (m w) as [[a | e] w']; cbn [snd] in Hm; [exact Hm |].
  now apply Hreject.
Qed.

Lemma preserves_require_token (I : World -> Prop) : preserves I require_token.
Proof.
  intros w Hw. unfold require_token.
  destruct (negb (truthy (token (config w)))); exact Hw.
Qed.

Lemma preserves_the_device (I : World -> Prop) (key : string) :
  preserves I (the_device key).
Proof.
  intros w Hw. unfold the_device. destruct (device_at key w); exact Hw.
Qed.

Lemma forEach_returns {A : Type} (f : A -> Js unit) (l : list A) (w : World) :
  (forall a w', fst (f a w') = Return tt) -> fst (forEach f l w) = Return tt.
Proof.
  intros Hf. revert w. induction l as [| a l IH]; intros w; [reflexivity |].
  cbn [forEach]. unfold bind. specialize (Hf a w).
  destruct (f a w) as [[u | e] w']; cbn [fst] in Hf; [apply IH | discriminate Hf].
Qed.

(** *** Looking a device up *)

Lemma device_at_Some (key : string) (ref : nat) (device : RoomDevice)
    (w : World) :
  device_at key w = Some (ref, device) <->
  table_get key (devices w) = Some ref /\ objects w !! ref = Some device.
Proof.
  unfold device_at. split.
  - destruct (table_get key (devices w)) as [ref' |]; [| discriminate].
    destruct (objects w !! ref') as [device' |] eqn:Eo; [| discriminate].
    intros Heq. injection Heq as -> ->. now split.
  - intros [-> ->]. reflexivity.
Qed.

(** *** The cloud client leaves the devices alone *)

Lemma adapter_view_start_of (op : Operation) (k : Awaiter) :
  untouched adapter_view (start_of op k).
Proof.
  destruct op; cbn [start_of];
    unfold getHomeData_start, getHomeStatus_start, setRoomThermPoint_start,
      setThermostatMode_start;
    (apply untouched_bind;
     [intros w; unfold require_token;
      destruct (negb (truthy (token (config w)))); reflexivity | intros _]);
    apply untouched_exec; intros w; reflexivity.
Qed.

Ltac untouched_envelope :=
  apply untouched_bind;
  [apply untouched_exec; intros w; reflexivity | intros _];
  destruct (not_ok_200 _);
  [ destruct (_ =? 403)%Z; [| apply untouched_ret];
    apply untouched_bind;
    [apply untouched_exec; intros w; reflexivity | intros _];
    apply untouched_bind;
    [apply untouched_exec; intros w; apply adapter_view_refresh_start
    | intros _];
    apply untouched_throw
  | ].

Lemma adapter_view_getHomeData_resume (response : Response) :
  untouched adapter_view (getHomeData_resume response).
Proof.
  unfold getHomeData_resume. untouched_envelope.
  apply untouched_bind; [apply untouched_lift |].
  intros [homes |]; apply untouched_ret.
Qed.

Lemma adapter_view_of_getHomeStatus_resume (response : Response) :
  untouched adapter_view (getHomeStatus_resume response).
Proof.
  unfold getHomeStatus_resume. untouched_envelope.
  apply untouched_bind; [apply untouched_lift |].
  intros home. apply untouched_ret.
Qed.

Lemma adapter_view_setRoomThermPoint_resume (response : Response) :
  untouched adapter_view (setRoomThermPoint_resume response).
Proof.
  unfold setRoomThermPoint_resume. untouched_envelope. apply untouched_ret.
Qed.

Lemma adapter_view_setThermostatMode_resume (response : Response) :
  untouched adapter_view (setThermostatMode_resume response).
Proof.
  unfold setThermostatMode_resume. untouched_envelope. apply untouched_ret.
Qed.

Lemma adapter_view_initRefresh (now : Z) (w : World) :
  adapter_view (initRefresh now w) = adapter_view w.
Proof.
  unfold initRefresh.
  destruct ((0 <? expiresIn now w)%Z && truthy (token (config w)));
    [reflexivity | apply adapter_view_refresh_start].
Qed.

Lemma adapter_view_refresh_resume (now now' : Z) (response : Response)
    (w : World) :
  adapter_view (refresh_resume now now' response w) = adapter_view w.
Proof.
  unfold refresh_resume. destruct (not_ok_200 response); [reflexivity |].
  cbn. destruct (expiry now (json response)) as [t |]; [| reflexivity].
  destruct (valid_date t); [| reflexivity].
  now rewrite adapter_view_initRefresh.
Qed.

Lemma adapter_view_authenticate_exchange (now now' : Z) (response : Response) :
  untouched adapter_view (authenticate_exchange now now' response).
Proof.
  unfold authenticate_exchange.
  destruct (not_ok_200 response); [apply untouched_throw |].
  apply untouched_exec. intros w. now rewrite adapter_view_initRefresh.
Qed.

Lemma adapter_view_authenticate_resume (scopes : list string)
    (redirectUri state : string) (data : CallbackData) :
  untouched adapter_view (authenticate_resume scopes redirectUri state data).
Proof.
  rewrite authenticate_resume_guard.
  destruct (_ && _ && _); [| apply untouched_throw].
  apply untouched_exec. intros w. reflexivity.
Qed.

Lemma adapter_view_updateHomeData_resume (response : Response) :
  untouched adapter_view (updateHomeData_resume response).
Proof.
  unfold updateHomeData_resume.
  apply untouched_bind; [apply adapter_view_getHomeData_resume |].
  intros homeData. apply untouched_exec.
  induction homeData as [| home rest IH]; intros w; [reflexivity |].
  cbn [fold_left]. rewrite IH.
  apply untouched_detached; [| reflexivity].
  apply (adapter_view_start_of (GetHomeStatus (JsString (home_id home)))).
Qed.

(** *** The devices' code leaves the cloud client alone *)

Lemma cloud_view_create_room (home : Home) (room : Room) :
  untouched cloud_view (create_room home room).
Proof.
  unfold create_room. apply untouched_exec. intros w.
  destruct (RoomDevice_new _ room_properties) as [device ns]. reflexivity.
Qed.

Lemma cloud_view_create_module (home : Home) (module : ModuleRecord) :
  untouched cloud_view (create_module home module).
Proof.
  unfold create_module.
  destruct (negb (includes AVAILABLE_TYPES (module_type module)));
    [apply untouched_ret |].
  apply untouched_exec. intros w.
  destruct (device_at _ w) as [[ref roomDevice] |]; [| reflexivity].
  destruct (addModule module roomDevice) as [device ns]. reflexivity.
Qed.

Lemma cloud_view_create_home (home : Home) :
  untouched cloud_view (create_home home).
Proof.
  unfold create_home.
  apply untouched_bind; [apply untouched_lift |]. intros rooms.
  apply untouched_bind;
    [apply untouched_forEach, cloud_view_create_room |]. intros _.
  apply untouched_bind; [apply untouched_lift |]. intros modules.
  apply untouched_forEach, cloud_view_create_module.
Qed.

Lemma cloud_view_the_device (key : string) :
  untouched cloud_view (the_device key).
Proof. intros w. unfold the_device. destruct (device_at key w); reflexivity. Qed.

Lemma cloud_view_rooms_of (payload : Payload (option HomeStatus)) :
  untouched cloud_view (rooms_of payload).
Proof.
  unfold rooms_of. destruct payload as [| [home |]]; try apply untouched_throw.
  destruct (status_rooms home); [apply untouched_ret | apply untouched_throw].
Qed.

Lemma cloud_view_modules_of (payload : Payload (option HomeStatus)) :
  untouched cloud_view (modules_of payload).
Proof.
  unfold modules_of. destruct payload as [| [home |]]; try apply untouched_throw.
  destruct (status_modules home); [apply untouched_ret | apply untouched_throw].
Qed.

Section Footprints.
Context {ecma : EcmaStringToNumber}.

Lemma cloud_view_device_updateProperty (key name : string) (v : JsValue) :
  untouched cloud_view (device_updateProperty key name v).
Proof.
  unfold device_updateProperty.
  apply untouched_bind; [apply cloud_view_the_device |]. intros [ref device].
  apply untouched_bind; [apply untouched_lift |]. intros [device' ns].
  apply untouched_exec. intros w. reflexivity.
Qed.

Lemma cloud_view_update_room (home : Home) (room : RoomStatus) :
  untouched cloud_view (update_room home room).
Proof.
  unfold update_room.
  repeat (apply untouched_bind;
          [apply cloud_view_device_updateProperty | intros _]).
  apply cloud_view_device_updateProperty.
Qed.

Lemma cloud_view_update_module (home : Home) (module : ModuleStatus) :
  untouched cloud_view (update_module home module).
Proof.
  unfold update_module.
  destruct (negb (includes AVAILABLE_TYPES (ms_type module)));
    [apply untouched_ret |].
  apply untouched_bind; [now intros w |]. intros mapped.
  apply untouched_bind; [apply cloud_view_the_device |]. intros _.
  apply untouched_bind; [apply untouched_lift |]. intros battery.
  apply untouched_bind; [apply cloud_view_device_updateProperty |]. intros _.
  apply cloud_view_device_updateProperty.
Qed.

(** What the callback of [updateHomeData] does with the status it got. *)
Lemma cloud_view_reconcile (home : Home) (payload : Payload (option HomeStatus)) :
  untouched cloud_view
    (let* rooms := rooms_of payload in
     forEach (update_room home) rooms ;;
     let* modules := modules_of payload in
     forEach (update_module home) modules).
Proof.
  apply untouched_bind; [apply cloud_view_rooms_of |]. intros rooms.
  apply untouched_bind;
    [apply untouched_forEach, cloud_view_update_room |]. intros _.
  apply untouched_bind; [apply cloud_view_modules_of |]. intros modules.
  apply untouched_forEach, cloud_view_update_module.
Qed.

(** *** The shape of the devices *)

Lemma shape_of_adapter_view (w w' : World) :
  adapter_view w' = adapter_view w -> shape w' = shape w.
Proof.
  intros Hview. injection Hview as Hd Ho Hm _. unfold shape.
  now rewrite Hd, Ho, Hm.
Qed.

Lemma device_shape_updateProperty (name : string) (v : JsValue)
    (device device' : RoomDevice) (ns : list (string * string * JsValue)) :
  updateProperty name v device = Return (device', ns) ->
  device_shape device' = device_shape device.
Proof.
  unfold updateProperty. destruct (properties device !! name) as [p |] eqn:Ep;
    [| discriminate].
  destruct (negb (loosely_equal (value p) v)); intros Heq;
    injection Heq as <- _; [| reflexivity].
  unfold device_shape. cbn. f_equal.
  rewrite fmap_insert. apply insert_id. rewrite lookup_fmap, Ep. reflexivity.
Qed.

Lemma shape_device_updateProperty (key name : string) (v : JsValue) :
  untouched shape (device_updateProperty key name v).
Proof.
  intros w. unfold device_updateProperty, bind, the_device, lift, exec.
  destruct (device_at key w) as [[ref device] |] eqn:Ed; [| reflexivity].
  apply device_at_Some in Ed as [_ Ed].
  destruct (updateProperty name v device) as [[device' ns] | e] eqn:Eu;
    [| reflexivity].
  cbn [snd]. unfold shape. cbn. f_equal. f_equal.
  rewrite list_fmap_insert. apply list_insert_id.
  rewrite list_lookup_fmap, Ed. cbn.
  now rewrite (device_shape_updateProperty _ _ _ _ _ Eu).
Qed.

Lemma shape_update_room (home : Home) (room : RoomStatus) :
  untouched shape (update_room home room).
Proof.
  unfold update_room.
  repeat (apply untouched_bind;
          [apply shape_device_updateProperty | intros _]).
  apply shape_device_updateProperty.
Qed.

Lemma shape_the_device (key : string) : untouched shape (the_device key).
Proof. intros w. unfold the_device. destruct (device_at key w); reflexivity. Qed.

Lemma shape_update_module (home : Home) (module : ModuleStatus) :
  untouched shape (update_module home module).
Proof.
  unfold update_module.
  destruct (negb (includes AVAILABLE_TYPES (ms_type module)));
    [apply untouched_ret |].
  apply untouched_bind; [now intros w |]. intros mapped.
  apply untouched_bind; [apply shape_the_device |]. intros _.
  apply untouched_bind; [apply untouched_lift |]. intros battery.
  apply untouched_bind; [apply shape_device_updateProperty |]. intros _.
  apply shape_device_updateProperty.
Qed.

Lemma shape_updateHomeData_home_resume (home : Home) (response : Response) :
  untouched shape (updateHomeData_home_resume home response).
Proof.
  unfold updateHomeData_home_resume.
  apply untouched_bind.
  { intros w. apply shape_of_adapter_view.
    apply adapter_view_of_getHomeStatus_resume. }
  intros payload.
  apply untouched_bind.
  { unfold rooms_of. destruct payload as [| [home' |]];
      try apply untouched_throw.
    destruct (status_rooms home'); [apply untouched_ret | apply untouched_throw]. }
  intros rooms.
  apply untouched_bind; [apply untouched_forEach, shape_update_room |].
  intros _. apply untouched_bind.
  { unfold modules_of. destruct payload as [| [home' |]];
      try apply untouched_throw.
    destruct (status_modules home'); [apply untouched_ret | apply untouched_throw]. }
  intros modules. apply untouched_forEach, shape_update_module.
Qed.

Lemma cloud_view_getHomeStatus_resume_200 (response : Response) :
  status response = 200%Z ->
  untouched cloud_view (getHomeStatus_resume response).
Proof.
  intros Hstatus. unfold getHomeStatus_resume.
  rewrite not_ok_200_status, Hstatus.
  apply untouched_bind; [apply untouched_exec; intros w; reflexivity |].
  intros _. apply untouched_bind; [apply untouched_lift |]. intros home.
  apply untouched_ret.
Qed.

(** X6. Handling the answer of one home's status, whatever the answer
    is, adds and removes no device and no property, changes no id, no
    class of a property and no entry of the module table: only cached
    values change (and notifications are sent); and when the answer is a
    200 the cloud client is left as it is: no request, no timer, no
    change of the configuration, nothing saved.  The same holds when the
    exception of the callback, if any, is recorded. *)
Theorem poll_keeps_shape (home : Home) (response : Response) (w : World) :
  shape (snd (updateHomeData_home_resume home response w)) = shape w /\
  shape (detached (updateHomeData_home_resume home response) w) = shape w /\
  (status response = 200%Z ->
   cloud_view (snd (updateHomeData_home_resume home response w)) = cloud_view w
   /\ cloud_view (detached (updateHomeData_home_resume home response) w)
      = cloud_view w).
Proof.
  split; [apply shape_updateHomeData_home_resume |].
  split.
  { apply untouched_detached;
      [apply shape_updateHomeData_home_resume | reflexivity]. }
  intros Hstatus.
  assert (Hcloud : untouched cloud_view (updateHomeData_home_resume home response)).
  { unfold updateHomeData_home_resume.
    apply untouched_bind;
      [now apply cloud_view_getHomeStatus_resume_200 |].
    intros payload. apply cloud_view_reconcile. }
  split; [apply Hcloud |].
  apply untouched_detached; [exact Hcloud | reflexivity].
Qed.

End Footprints.

(* ================================================================== *)

(* ================================================================== *)
(** * Discovery *)

(** *** The table of devices *)

Lemma table_get_set_ne {V : Type} (key other : string) (v : V)
    (table : list (string * V)) :
  other <> key ->
  table_get other (table_set key v table) = table_get other table.
Proof.
  intros Hne. unfold table_get.
  assert (Hkey : String.eqb key other = false)
    by (apply String.eqb_neq; congruence).
  induction table as [| [k v'] table IH]; cbn.
  - now rewrite Hkey.
  - destruct (String.eqb k key) eqn:E; cbn.
    + apply String.eqb_eq in E. subst k. now rewrite Hkey.
    + destruct (String.eqb k other); [reflexivity | exact IH].
Qed.

Lemma table_get_keys {V : Type} (key : string) (v : V)
    (table : list (string * V)) :
  table_get key table = Some v -> key ∈ table_keys table.
Proof.
  unfold table_get, table_keys.
  induction table as [| [k v'] table IH]; cbn; [discriminate |].
  destruct (String.eqb k key) eqn:E.
  - apply String.eqb_eq in E. subst k. intros _. apply list_elem_of_here.
  - intros Hfind. apply list_elem_of_further. now apply IH.
Qed.

(** *** Rooms *)

Lemma RoomDevice_new_room (device_id : string) :
  RoomDevice_new device_id room_properties =
  ({| id := device_id;
      properties :=
        <["mode" := {| property_class := ThermostatModeProperty;
                       value := JsUndefined |}]>
          (<["heating" := {| property_class := ThermostatProperty;
                             value := JsUndefined |}]>
             (<["targetTemperature" :=
                  {| property_class := TargetTemperatureProperty;
                     value := JsUndefined |}]>
                (<["temperature" := {| property_class := ThermostatProperty;
                                       value := JsUndefined |}]> ∅))) |},
   [(device_id, "temperature", JsUndefined);
    (device_id, "targetTemperature", JsUndefined);
    (device_id, "targetTemperature", JsUndefined);
    (device_id, "heating", JsUndefined);
    (device_id, "mode", JsUndefined);
    (device_id, "mode", JsUndefined)]).
Proof. reflexivity. Qed.

Lemma room_properties_names (name : string) :
  name ∈ room_properties.*1 ->
  name = "temperature" \/ name = "targetTemperature" \/ name = "heating"
  \/ name = "mode".
Proof.
  cbn. intros Hin.
  repeat (apply elem_of_cons in Hin as [-> | Hin]; [tauto |]).
  now apply elem_of_nil in Hin.
Qed.

Lemma RoomDevice_new_room_like (device_id : string) :
  room_like (fst (RoomDevice_new device_id room_properties)).
Proof.
  intros name Hin. rewrite RoomDevice_new_room. cbn [fst properties].
  destruct (room_properties_names name Hin) as [-> | [-> | [-> | ->]]];
    vm_compute; eexists; reflexivity.
Qed.

Lemma create_room_state (home : Home) (room : Room) (w : World) :
  create_room home room w =
  (Return tt,
   set_notified
     (notified w
      ++ snd (RoomDevice_new
                (DEVICE_PREFIX +:+ home_id home +:+ "-" +:+ room_id room)
                room_properties))
     (set_devices
        (table_set (home_id home +:+ "-" +:+ room_id room)
           (length (objects w)) (devices w))
        (set_objects
           (objects w
            ++ [fst (RoomDevice_new
                       (DEVICE_PREFIX +:+ home_id home +:+ "-" +:+ room_id room)
                       room_properties)]) w))).
Proof.
  unfold create_room, exec.
  destruct (RoomDevice_new _ room_properties) as [device ns]. reflexivity.
Qed.

(** X7. [createDevices], for a room of a home, makes a new device and
    puts it under the key [home-room], whatever was there: its id is the
    prefix followed by the key and it has exactly the four properties
    [temperature], [targetTemperature], [heating] and [mode], of the
    classes their [@type] selects, each caching [undefined]; so a room
    that is discovered again gets a device without the cached values and
    without the properties of its valves.  The devices that existed stay
    as they were, and so does every other key of the table: the device
    the room had before is still held under its id.  The gateway is
    notified six times (twice for each of the two properties that are
    constructed twice); the module table and the cloud client are not
    touched. *)
Theorem create_room_fresh_device (home : Home) (room : Room) (w : World) :
  let key := home_id home +:+ "-" +:+ room_id room in
  let w' := snd (create_room home room w) in
  fst (create_room home room w) = Return tt
  /\ device_at key w'
     = Some (length (objects w),
             {| id := DEVICE_PREFIX +:+ key;
                properties :=
                  <["mode" := {| property_class := ThermostatModeProperty;
                                 value := JsUndefined |}]>
                    (<["heating" := {| property_class := ThermostatProperty;
                                       value := JsUndefined |}]>
                       (<["targetTemperature" :=
                            {| property_class := TargetTemperatureProperty;
                               value := JsUndefined |}]>
                          (<["temperature" :=
                               {| property_class := ThermostatProperty;
                                  value := JsUndefined |}]> ∅))) |})
  /\ (forall ref, (ref < length (objects w))%nat ->
                  objects w' !! ref = objects w !! ref)
  /\ length (objects w') = S (length (objects w))
  /\ (forall other, other <> key ->
                    table_get other (devices w') = table_get other (devices w))
  /\ moduleMapping w' = moduleMapping w
  /\ notified w'
     = (notified w
        ++ [(DEVICE_PREFIX +:+ key, "temperature", JsUndefined);
            (DEVICE_PREFIX +:+ key, "targetTemperature", JsUndefined);
            (DEVICE_PREFIX +:+ key, "targetTemperature", JsUndefined);
            (DEVICE_PREFIX +:+ key, "heating", JsUndefined);
            (DEVICE_PREFIX +:+ key, "mode", JsUndefined);
            (DEVICE_PREFIX +:+ key, "mode", JsUndefined)])%list
  /\ cloud_view w' = cloud_view w.
Proof.
  intros key w'. subst w'. rewrite create_room_state.
  rewrite RoomDevice_new_room. cbn [fst snd].
  split; [reflexivity |]. split.
  { unfold device_at. cbn -[table_get table_set]. rewrite table_get_set.
    now rewrite list_lookup_middle. }
  split; [intros ref Href; cbn; now apply lookup_app_l |].
  split; [cbn; rewrite length_app; cbn; lia |].
  split; [intros other Hother; now apply table_get_set_ne |].
  repeat split.
Qed.

(** *** Valves *)

Lemma addModule_state (module : ModuleRecord) (device : RoomDevice) :
  addModule module device =
  ({| id := id device;
      properties :=
        <[module_id module +:+ "-battery" :=
            {| property_class := ThermostatProperty; value := JsUndefined |}]>
          (<[module_id module +:+ "-signal" :=
               {| property_class := ThermostatProperty; value := JsUndefined |}]>
             (properties device)) |},
   [(id device, module_id module +:+ "-signal", JsUndefined);
    (id device, module_id module +:+ "-battery", JsUndefined)]).
Proof. reflexivity. Qed.

Lemma addModule_room_like (module : ModuleRecord) (device : RoomDevice) :
  room_like device -> room_like (fst (addModule module device)).
Proof.
  intros Hprops name Hname. rewrite addModule_state. cbn [fst properties].
  rewrite !lookup_insert_is_Some'. right. right. now apply Hprops.
Qed.

Lemma create_module_ignored (home : Home) (module : ModuleRecord) (w : World) :
  includes AVAILABLE_TYPES (module_type module) = false ->
  create_module home module w = (Return tt, w).
Proof. intros Htype. unfold create_module. now rewrite Htype. Qed.

Lemma includes_AVAILABLE_TYPES (type : string) :
  includes AVAILABLE_TYPES type = true <-> type = "NRV".
Proof.
  unfold includes, AVAILABLE_TYPES. cbn [existsb]. rewrite orb_false_r.
  apply String.eqb_eq.
Qed.

Lemma create_module_state (home : Home) (module : ModuleRecord) (w : World) :
  module_type module = "NRV" ->
  create_module home module w =
  (Return tt,
   match device_at (home_id home +:+ "-" +:+ module_room_id module) w with
   | Some (ref, roomDevice) =>
       set_moduleMapping
         (<[module_id module := module_room_id module]> (moduleMapping w))
         (set_notified (notified w ++ snd (addModule module roomDevice))
            (set_objects
               (<[ref := fst (addModule module roomDevice)]> (objects w)) w))
   | None => w
   end).
Proof.
  intros Htype. unfold create_module.
  rewrite (proj2 (includes_AVAILABLE_TYPES _) Htype). cbn [negb]. unfold exec.
  destruct (device_at _ w) as [[ref roomDevice] |]; reflexivity.
Qed.

Lemma create_module_returns (home : Home) (module : ModuleRecord) (w : World) :
  fst (create_module home module w) = Return tt.
Proof.
  unfold create_module.
  destruct (negb (includes AVAILABLE_TYPES (module_type module)));
    reflexivity.
Qed.


(** *** The rooms of a home get their devices *)

Lemma room_device_created (home : Home) (room : Room) (w : World) :
  room_device (home_id home +:+ "-" +:+ room_id room)
    (snd (create_room home room w)).
Proof.
  rewrite create_room_state. cbn [snd].
  exists (length (objects w)),
    (fst (RoomDevice_new
            (DEVICE_PREFIX +:+ home_id home +:+ "-" +:+ room_id room)
            room_properties)).
  split.
  { apply device_at_Some. cbn -[table_get table_set RoomDevice_new].
    rewrite table_get_set. split; [reflexivity |].
    now rewrite list_lookup_middle. }
  split; [apply RoomDevice_new_id | apply RoomDevice_new_room_like].
Qed.

Lemma room_device_create_room (key : string) (home : Home) (room : Room) :
  preserves (room_device key) (create_room home room).
Proof.
  intros w (ref & device & Hd & Hid & Hprops).
  destruct (decide (key = home_id home +:+ "-" +:+ room_id room)) as [-> | Hne].
  - apply room_device_created.
  - rewrite create_room_state. cbn [snd]. exists ref, device.
    split; [| now split].
    apply device_at_Some in Hd as [Hkey Hobject]. apply device_at_Some.
    cbn -[table_get table_set]. rewrite table_get_set_ne by exact Hne.
    split; [exact Hkey |].
    rewrite lookup_app_l by (now apply lookup_lt_Some in Hobject).
    exact Hobject.
Qed.

Lemma room_device_create_module (key : string) (home : Home)
    (module : ModuleRecord) :
  preserves (room_device key) (create_module home module).
Proof.
  intros w (ref & device & Hd & Hid & Hprops).
  destruct (includes AVAILABLE_TYPES (module_type module)) eqn:Etype.
  2:{ rewrite (create_module_ignored _ _ _ Etype). now exists ref, device. }
  apply includes_AVAILABLE_TYPES in Etype.
  rewrite (create_module_state _ _ _ Etype). cbn [snd].
  destruct (device_at (home_id home +:+ "-" +:+ module_room_id module) w)
    as [[ref' roomDevice] |] eqn:Eroom; [| now exists ref, device].
  apply device_at_Some in Hd as [Hkey Hobject].
  apply device_at_Some in Eroom as [_ Hroom].
  destruct (decide (ref' = ref)) as [-> | Hne].
  - rewrite Hobject in Hroom. injection Hroom as <-.
    exists ref, (fst (addModule module device)).
    split; [| split; [exact Hid | now apply addModule_room_like]].
    apply device_at_Some. cbn. split; [exact Hkey |].
    apply list_lookup_insert_eq. now apply lookup_lt_Some in Hobject.
  - exists ref, device. split; [| now split].
    apply device_at_Some. cbn. split; [exact Hkey |].
    now rewrite list_lookup_insert_ne.
Qed.

Lemma room_device_create_home (key : string) (home : Home) :
  preserves (room_device key) (create_home home).
Proof.
  unfold create_home.
  apply preserves_bind; [apply preserves_lift |]. intros rooms.
  apply preserves_bind;
    [apply preserves_forEach; intros room; apply room_device_create_room |].
  intros _. apply preserves_bind; [apply preserves_lift |]. intros modules.
  apply preserves_forEach. intros module. apply room_device_create_module.
Qed.

Lemma create_rooms_all (home : Home) (rooms : list Room) (room : Room) (w : World) :
  room ∈ rooms ->
  room_device (home_id home +:+ "-" +:+ room_id room)
    (snd (forEach (create_room home) rooms w)).
Proof.
  revert w. induction rooms as [| r rest IH]; intros w Hin.
  - now apply elem_of_nil in Hin.
  - cbn [forEach]. unfold bind.
    pose proof (room_device_created home r w) as Hcreated.
    pose proof (f_equal fst (create_room_state home r w)) as Hreturns.
    destruct (create_room home r w) as [[u | e] w1]; cbn [fst snd] in *;
      [| discriminate Hreturns].
    apply elem_of_cons in Hin as [-> | Hin]; [| now apply IH].
    apply (preserves_forEach _ (create_room home) rest
             (fun a => room_device_create_room _ home a)).
    exact Hcreated.
Qed.

Lemma create_home_creates (home : Home) (rooms : list Room)
    (modules : list ModuleRecord) (w : World) :
  home_rooms home = Some rooms -> home_modules home = Some modules ->
  fst (create_home home w) = Return tt
  /\ forall room, room ∈ rooms ->
       room_device (home_id home +:+ "-" +:+ room_id room)
         (snd (create_home home w)).
Proof.
  intros Hrooms Hmodules. unfold create_home, bind, lift.
  rewrite Hrooms, Hmodules.
  pose proof (forEach_returns (create_room home) rooms w
                (fun a w' => f_equal fst (create_room_state home a w')))
    as Hreturns.
  pose proof (fun room => create_rooms_all home rooms room w) as Hall.
  destruct (forEach (create_room home) rooms w) as [[u | e] w1];
    cbn [fst snd] in *; [| discriminate Hreturns].
  split.
  - apply forEach_returns. intros module w'. apply create_module_returns.
  - intros room Hin.
    apply (preserves_forEach _ (create_module home) modules
             (fun a => room_device_create_module _ home a)).
    now apply Hall.
Qed.

Lemma create_home_throws (home : Home) (w : World) :
  home_rooms home = None \/ home_modules home = None ->
  fst (create_home home w) = Throw TypeError.
Proof.
  intros Hbad. unfold create_home, bind, lift.
  destruct (home_rooms home) as [rooms |]; [| reflexivity].
  destruct Hbad as [Hbad | Hbad]; [discriminate Hbad |]. rewrite Hbad.
  pose proof (forEach_returns (create_room home) rooms w
                (fun a w' => f_equal fst (create_room_state home a w')))
    as Hreturns.
  destruct (forEach (create_room home) rooms w) as [[u | e] w1];
    cbn [fst] in *; [reflexivity | discriminate Hreturns].
Qed.

Lemma create_homes_all (homes : list Home) (w : World) :
  Forall (fun home => is_Some (home_rooms home) /\ is_Some (home_modules home))
         homes ->
  fst (forEach create_home homes w) = Return tt
  /\ forall home rooms room,
       home ∈ homes -> home_rooms home = Some rooms -> room ∈ rooms ->
       room_device (home_id home +:+ "-" +:+ room_id room)
         (snd (forEach create_home homes w)).
Proof.
  intros Hlisted. revert w.
  induction Hlisted as [| home rest [[rooms Hrooms] [modules Hmodules]] _ IH];
    intros w.
  - split; [reflexivity |]. intros home rooms room Hin.
    now apply elem_of_nil in Hin.
  - cbn [forEach]. unfold bind.
    destruct (create_home_creates home rooms modules w Hrooms Hmodules)
      as [Hreturns Hcreated].
    destruct (create_home home w) as [[u | e] w1]; cbn [fst snd] in *;
      [| discriminate Hreturns].
    destruct (IH w1) as [Hrest Hall]. split; [exact Hrest |].
    intros home' rooms' room Hin Hrooms' Hroom.
    apply elem_of_cons in Hin as [-> | Hin]; [| now apply (Hall home' rooms')].
    rewrite Hrooms in Hrooms'. injection Hrooms' as <-.
    apply (preserves_forEach _ create_home rest
             (fun a => room_device_create_home _ a)).
    now apply Hcreated.
Qed.

Lemma forEach_stops {A : Type} (f : A -> Js unit) (good rest : list A) (bad : A)
    (e : Exn) (w : World) :
  fst (forEach f good w) = Return tt ->
  fst (f bad (snd (forEach f good w))) = Throw e ->
  forEach f (good ++ bad :: rest) w
  = (Throw e, snd (f bad (snd (forEach f good w)))).
Proof.
  revert w. induction good as [| a good IH]; intros w Hgood Hbad.
  - cbn [app forEach] in *. unfold bind, ret in *. cbn [snd] in *.
    destruct (f bad w) as [[u | e'] w1]; cbn [fst] in Hbad;
      [discriminate Hbad | now injection Hbad as ->].
  - cbn [app forEach] in *. unfold bind in *.
    destruct (f a w) as [[u | e'] w1]; [now apply IH | discriminate Hgood].
Qed.

Lemma getHomeData_resume_200 (response : Response) (homes : list Home)
    (w : World) :
  status response = 200%Z -> json response = JsonHomes (Some homes) ->
  getHomeData_resume response w
  = (Return homes, console_log "Got response for Home Data" w).
Proof.
  intros Hstatus Hjson. unfold getHomeData_resume, bind, exec, lift, ret.
  rewrite not_ok_200_status, Hstatus, Hjson. reflexivity.
Qed.

(* ================================================================== *)
(** * The devices are well kept *)

Lemma prefix_DEVICE_PREFIX (key : string) :
  String.prefix DEVICE_PREFIX (DEVICE_PREFIX +:+ key) = true.
Proof. unfold DEVICE_PREFIX. cbn. now destruct key. Qed.

Lemma well_kept_of_adapter_view (w w' : World) :
  adapter_view w' = adapter_view w -> well_kept w -> well_kept w'.
Proof.
  intros Hview Hkept key ref. injection Hview as Hd Ho _ _.
  rewrite Hd, Ho. apply Hkept.
Qed.

Lemma well_kept_untouched {A : Type} (m : Js A) :
  untouched adapter_view m -> preserves well_kept m.
Proof. intros Hm w. apply well_kept_of_adapter_view, Hm. Qed.

(** A device that is changed in place, keeping its id and the
    properties of a room. *)
Lemma well_kept_changed (ref : nat) (old new : RoomDevice) (w w' : World) :
  devices w' = devices w ->
  objects w' = <[ref := new]> (objects w) ->
  objects w !! ref = Some old ->
  id new = id old -> (room_like old -> room_like new) ->
  well_kept w -> well_kept w'.
Proof.
  intros Hd Ho Hold Hid Hprops Hkept key ref' Hkey. rewrite Hd in Hkey.
  destruct (Hkept key ref' Hkey) as (device & Hobject & Hkeyed & Hpre & Hroom).
  rewrite Ho. destruct (decide (ref' = ref)) as [-> | Hne].
  - rewrite Hold in Hobject. injection Hobject as <-. exists new.
    split; [apply list_lookup_insert_eq; now apply lookup_lt_Some in Hold |].
    rewrite Hid. split; [exact Hkeyed |]. split; [exact Hpre | now apply Hprops].
  - exists device. rewrite list_lookup_insert_ne by congruence. tauto.
Qed.

Lemma well_kept_create_room (home : Home) (room : Room) :
  preserves well_kept (create_room home room).
Proof.
  intros w Hkept key ref. rewrite create_room_state.
  cbn -[table_get table_set RoomDevice_new].
  destruct (decide (key = home_id home +:+ "-" +:+ room_id room)) as [-> | Hne].
  - rewrite table_get_set. intros Href. injection Href as <-.
    eexists. split; [now apply list_lookup_middle |].
    rewrite RoomDevice_new_id.
    split; [now left |].
    split; [apply prefix_DEVICE_PREFIX | apply RoomDevice_new_room_like].
  - rewrite table_get_set_ne by exact Hne. intros Hkey.
    destruct (Hkept key ref Hkey) as (device & Hobject & Hrest).
    exists device. split; [| exact Hrest].
    rewrite lookup_app_l by (now apply lookup_lt_Some in Hobject).
    exact Hobject.
Qed.

Lemma well_kept_create_module (home : Home) (module : ModuleRecord) :
  preserves well_kept (create_module home module).
Proof.
  intros w Hkept.
  destruct (includes AVAILABLE_TYPES (module_type module)) eqn:Etype.
  2:{ now rewrite (create_module_ignored _ _ _ Etype). }
  apply includes_AVAILABLE_TYPES in Etype.
  rewrite (create_module_state _ _ _ Etype). cbn [snd].
  destruct (device_at (home_id home +:+ "-" +:+ module_room_id module) w)
    as [[ref roomDevice] |] eqn:Eroom; [| exact Hkept].
  apply device_at_Some in Eroom as [_ Hroom].
  apply (well_kept_changed ref roomDevice (fst (addModule module roomDevice)) w);
    try reflexivity; try assumption.
  apply addModule_room_like.
Qed.

Lemma well_kept_create_home (home : Home) :
  preserves well_kept (create_home home).
Proof.
  unfold create_home.
  apply preserves_bind; [apply preserves_lift |]. intros rooms.
  apply preserves_bind;
    [apply preserves_forEach; intros room; apply well_kept_create_room |].
  intros _. apply preserves_bind; [apply preserves_lift |]. intros modules.
  apply preserves_forEach. intros module. apply well_kept_create_module.
Qed.

(** *** Announcing the devices *)

(** One turn of the loop that announces the devices. *)
Lemma announce_turn (deviceId : string) (w : World) :
  well_kept w ->
  table_get deviceId (devices w) = None
  \/ exists ref device,
       table_get deviceId (devices w) = Some ref
       /\ objects w !! ref = Some device
       /\ (id device = DEVICE_PREFIX +:+ deviceId \/ id device = deviceId)
       /\ String.prefix DEVICE_PREFIX (id device) = true
       /\ room_like device
       /\ match table_get deviceId (devices w) with
          | Some ref => handleDeviceAdded ref w
          | None => w
          end = set_devices (table_set (id device) ref (devices w)) w.
Proof.
  intros Hkept.
  destruct (table_get deviceId (devices w)) as [ref |] eqn:Ekey; [| now left].
  destruct (Hkept deviceId ref Ekey) as (device & Hobject & Hid & Hpre & Hroom).
  right. exists ref, device. unfold handleDeviceAdded. rewrite Hobject.
  repeat split; assumption.
Qed.

Lemma well_kept_announce_turn (deviceId : string) (w : World) :
  well_kept w ->
  well_kept match table_get deviceId (devices w) with
            | Some ref => handleDeviceAdded ref w
            | None => w
            end.
Proof.
  intros Hkept.
  destruct (announce_turn deviceId w Hkept)
    as [-> | (ref & device & _ & Hobject & _ & Hpre & Hroom & ->)];
    [exact Hkept |].
  intros key ref'. cbn -[table_get table_set].
  destruct (decide (key = id device)) as [-> | Hne].
  - rewrite table_get_set. intros Href. injection Href as <-.
    exists device. split; [exact Hobject |]. split; [now right |]. now split.
  - rewrite table_get_set_ne by exact Hne. apply Hkept.
Qed.

(** A room whose key does not start with the prefix keeps its device
    through the loop, and once the device is held under its id it stays
    there. *)
Lemma announce_turn_keeps (key deviceId : string) (ref : nat) (w : World) :
  well_kept w ->
  String.prefix DEVICE_PREFIX key = false ->
  table_get key (devices w) = Some ref ->
  let w' := match table_get deviceId (devices w) with
            | Some ref => handleDeviceAdded ref w
            | None => w
            end in
  table_get key (devices w') = Some ref
  /\ objects w' = objects w
  /\ (table_get (DEVICE_PREFIX +:+ key) (devices w) = Some ref ->
      table_get (DEVICE_PREFIX +:+ key) (devices w') = Some ref)
  /\ (deviceId = key ->
      (exists device, objects w !! ref = Some device
                      /\ id device = DEVICE_PREFIX +:+ key) ->
      table_get (DEVICE_PREFIX +:+ key) (devices w') = Some ref).
Proof.
  intros Hkept Hplain Hkey w'. subst w'.
  destruct (announce_turn deviceId w Hkept)
    as [Hnone | (r & d & Hturn & Hobject & Hid & Hpre & _ & ->)].
  { rewrite Hnone. split; [exact Hkey |]. split; [reflexivity |].
    split; [tauto |]. intros -> _. congruence. }
  cbn -[table_get table_set].
  assert (Hne : key <> id d).
  { intros ->. rewrite Hpre in Hplain. discriminate Hplain. }
  split; [now rewrite table_get_set_ne |]. split; [reflexivity |].
  split.
  - intros Hheld.
    destruct (decide (id d = DEVICE_PREFIX +:+ key)) as [Heq | Hother];
      [| now rewrite table_get_set_ne by congruence].
    rewrite Heq, table_get_set. f_equal.
    destruct Hid as [Hid | Hid]; rewrite Hid in Heq.
    + apply String.app_inj in Heq. subst deviceId. congruence.
    + subst deviceId. congruence.
  - intros -> (device & Hdevice & Hdid).
    rewrite Hkey in Hturn. injection Hturn as <-.
    rewrite Hobject in Hdevice. injection Hdevice as <-.
    rewrite Hdid. apply table_get_set.
Qed.

Lemma well_kept_announce_devices (w : World) :
  well_kept w -> well_kept (announce_devices w).
Proof.
  unfold announce_devices. generalize (table_keys (devices w)) as keys.
  intros keys. revert w. induction keys as [| deviceId keys IH]; intros w Hkept;
    [exact Hkept |].
  cbn [fold_left]. apply IH. now apply well_kept_announce_turn.
Qed.

Lemma announce_turns_keep (key : string) (ref : nat) (device : RoomDevice)
    (keys : list string) (w : World) :
  well_kept w ->
  String.prefix DEVICE_PREFIX key = false ->
  table_get key (devices w) = Some ref ->
  objects w !! ref = Some device ->
  id device = DEVICE_PREFIX +:+ key ->
  table_get (DEVICE_PREFIX +:+ key) (devices w) = Some ref \/ key ∈ keys ->
  let w' := fold_left (fun w deviceId =>
                         match table_get deviceId (devices w) with
                         | Some ref => handleDeviceAdded ref w
                         | None => w
                         end) keys w in
  table_get key (devices w') = Some ref
  /\ objects w' = objects w
  /\ table_get (DEVICE_PREFIX +:+ key) (devices w') = Some ref.
Proof.
  intros Hkept Hplain Hkey Hobject Hid Hheld. cbn zeta.
  revert w Hkept Hkey Hobject Hheld.
  induction keys as [| deviceId keys IH]; intros w Hkept Hkey Hobject Hheld.
  - cbn [fold_left]. destruct Hheld as [Hheld | Hin];
      [now repeat split | now apply elem_of_nil in Hin].
  - cbn [fold_left].
    destruct (announce_turn_keeps key deviceId ref w Hkept Hplain Hkey)
      as (Hkey' & Hobjects & Hstays & Hsets).
    set (w1 := match table_get deviceId (devices w) with
               | Some r => handleDeviceAdded r w
               | None => w
               end) in *.
    destruct (IH w1) as (Hk & Ho & Hh).
    + now apply well_kept_announce_turn.
    + exact Hkey'.
    + now rewrite Hobjects.
    + destruct Hheld as [Hheld | Hin]; [left; now apply Hstays |].
      apply elem_of_cons in Hin as [<- | Hin]; [| now right].
      left. apply Hsets; [reflexivity |]. now exists device.
    + split; [exact Hk |]. split; [now rewrite Ho |]. exact Hh.
Qed.

Lemma announced_announce_devices (key : string) (w : World) :
  well_kept w -> String.prefix DEVICE_PREFIX key = false ->
  room_device key w -> announced key (announce_devices w).
Proof.
  intros Hkept Hplain (ref & device & Hd & Hid & Hroom).
  apply device_at_Some in Hd as [Hkey Hobject].
  destruct (announce_turns_keep key ref device (table_keys (devices w)) w
              Hkept Hplain Hkey Hobject Hid)
    as (Hk & Ho & Hh).
  { right. now apply (table_get_keys key ref). }
  exists ref, device. split.
  { apply device_at_Some. unfold announce_devices. rewrite Hk, Ho. now split. }
  split; [exact Hh |]. now split.
Qed.

Lemma cloud_view_announce_devices (w : World) :
  cloud_view (announce_devices w) = cloud_view w.
Proof. destruct (announce_devices_table w) as [table ->]. reflexivity. Qed.

Lemma well_kept_createDevices_resume (response : Response) :
  preserves well_kept (createDevices_resume response).
Proof.
  unfold createDevices_resume.
  apply preserves_bind;
    [apply well_kept_untouched, adapter_view_getHomeData_resume |].
  intros homeData. apply preserves_bind.
  - apply preserves_forEach. intros home. apply well_kept_create_home.
  - intros _. apply preserves_exec. intros w. apply well_kept_announce_devices.
Qed.

(** X9. [createDevices], from a 200 answer that lists homes, in a state
    whose devices are well kept.  When every home lists its rooms and
    its modules, the call completes and every room listed (whose key
    [home-room] does not itself start with the prefix of the device ids)
    has its device, announced: the device is held under [home-room] and
    under its id, the prefixed key, and has the four properties of a
    room.  When a home lists no rooms or no modules, the call fails with
    a [TypeError] at that home; the devices of the homes before it have
    been created and stay under their keys.  In both cases the devices stay well kept and the cloud
    client is left as it is. *)
Theorem createDevices_resume_creates
    (response : Response) (homes : list Home) (w : World) :
  status response = 200%Z -> json response = JsonHomes (Some homes) ->
  well_kept w ->
  let w' := snd (createDevices_resume response w) in
  (Forall (fun home => is_Some (home_rooms home) /\ is_Some (home_modules home))
          homes ->
   fst (createDevices_resume response w) = Return tt
   /\ forall home rooms room,
        home ∈ homes -> home_rooms home = Some rooms -> room ∈ rooms ->
        String.prefix DEVICE_PREFIX (home_id home +:+ "-" +:+ room_id room)
          = false ->
        announced (home_id home +:+ "-" +:+ room_id room) w') /\
  (forall good bad rest,
      homes = (good ++ bad :: rest)%list ->
      Forall (fun home => is_Some (home_rooms home) /\ is_Some (home_modules home))
             good ->
      home_rooms bad = None \/ home_modules bad = None ->
      fst (createDevices_resume response w) = Throw TypeError
      /\ forall home rooms room,
           home ∈ good -> home_rooms home = Some rooms -> room ∈ rooms ->
           room_device (home_id home +:+ "-" +:+ room_id room) w') /\
  well_kept w' /\
  cloud_view w' = cloud_view w.
Proof.
  intros Hstatus Hjson Hkept w'.
  pose proof (well_kept_createDevices_resume response w Hkept) as Hkept'.
  subst w'. unfold createDevices_resume, bind in *.
  rewrite (getHomeData_resume_200 response homes w Hstatus Hjson) in *.
  set (w1 := console_log _ w) in *.
  assert (Hkept1 : well_kept w1) by exact Hkept.
  pose proof (preserves_forEach well_kept create_home homes
                well_kept_create_home w1 Hkept1) as Hkept2.
  pose proof (untouched_forEach cloud_view create_home homes
                cloud_view_create_home w1) as Hcloud.
  split; [| split; [| split; [exact Hkept' |]]].
  - intros Hlisted. destruct (create_homes_all homes w1 Hlisted) as [Hall Hrooms].
    destruct (forEach create_home homes w1) as [[u | e] w2];
      cbn [fst snd] in *; [| discriminate Hall].
    split; [reflexivity |]. intros home rooms room Hin Hhome Hroom Hplain.
    apply announced_announce_devices; [exact Hkept2 | exact Hplain |].
    now apply (Hrooms home rooms).
  - intros good bad rest -> Hlisted Hbad.
    destruct (create_homes_all good w1 Hlisted) as [Hgood Hall].
    rewrite (forEach_stops create_home good rest bad TypeError w1 Hgood
               (create_home_throws bad _ Hbad)).
    split; [reflexivity |]. cbn [snd].
    intros home rooms room Hin Hrooms Hroom.
    apply room_device_create_home. now apply (Hall home rooms).
  - destruct (forEach create_home homes w1) as [[u | e] w2];
      cbn [fst snd] in *; [| exact Hcloud].
    unfold exec. cbn [snd]. now rewrite cloud_view_announce_devices.
Qed.

(* ================================================================== *)
(** * What every run maintains *)



(** *** The devices stay well kept *)

Section RunFacts.
Context {ecma : EcmaStringToNumber}.

Lemma well_kept_device_updateProperty (key name : string) (v : JsValue) :
  preserves well_kept (device_updateProperty key name v).
Proof.
  intros w Hw. unfold device_updateProperty, bind, the_device, lift, exec.
  destruct (device_at key w) as [[ref device] |] eqn:Ed; [| exact Hw].
  apply device_at_Some in Ed as [_ Hobject].
  unfold updateProperty.
  destruct (properties device !! name) as [p |] eqn:Ep; [| exact Hw].
  destruct (negb (loosely_equal (value p) v)); cbn [snd].
  - eapply (well_kept_changed ref device _ w);
      [reflexivity | reflexivity | exact Hobject | reflexivity | | exact Hw].
    intros Hprops name' Hname'. cbn. rewrite lookup_insert_is_Some'. right.
    now apply Hprops.
  - eapply (well_kept_changed ref device device w);
      [reflexivity | reflexivity | exact Hobject | reflexivity | tauto
      | exact Hw].
Qed.

Lemma well_kept_update_room (home : Home) (room : RoomStatus) :
  preserves well_kept (update_room home room).
Proof.
  unfold update_room.
  repeat (apply preserves_bind;
          [apply well_kept_device_updateProperty | intros _]).
  apply well_kept_device_updateProperty.
Qed.

Lemma well_kept_update_module (home : Home) (module : ModuleStatus) :
  preserves well_kept (update_module home module).
Proof.
  unfold update_module.
  destruct (negb (includes AVAILABLE_TYPES (ms_type module)));
    [apply preserves_ret |].
  apply preserves_bind; [now intros w Hw |]. intros mapped.
  apply preserves_bind; [apply preserves_the_device |]. intros _.
  apply preserves_bind; [apply preserves_lift |]. intros battery.
  apply preserves_bind; [apply well_kept_device_updateProperty |]. intros _.
  apply well_kept_device_updateProperty.
Qed.

Lemma well_kept_updateHomeData_home_resume (home : Home) (response : Response) :
  preserves well_kept (updateHomeData_home_resume home response).
Proof.
  unfold updateHomeData_home_resume.
  apply preserves_bind;
    [apply well_kept_untouched, adapter_view_of_getHomeStatus_resume |].
  intros payload. apply preserves_bind.
  { unfold rooms_of. destruct payload as [| [home' |]];
      try apply preserves_throw.
    destruct (status_rooms home'); [apply preserves_ret | apply preserves_throw]. }
  intros rooms.
  apply preserves_bind; [apply preserves_forEach, well_kept_update_room |].
  intros _. apply preserves_bind.
  { unfold modules_of. destruct payload as [| [home' |]];
      try apply preserves_throw.
    destruct (status_modules home'); [apply preserves_ret | apply preserves_throw]. }
  intros modules. apply preserves_forEach, well_kept_update_module.
Qed.

Lemma well_kept_step (event : Event) (w : World) :
  well_kept w -> well_kept (step event w).
Proof.
  intros Hw.
  assert (Hreject : forall e w', well_kept w' -> well_kept (reject e w'))
    by (intros e w' Hw'; exact Hw').
  destruct event; cbn [step].
  - unfold answer. destruct (awaiter_of n (inflight w)) as [k |]; [| exact Hw].
    set (w1 := set_network _ _ w).
    assert (Hw1 : well_kept w1) by exact Hw.
    destruct k.
    + apply (well_kept_of_adapter_view w1);
        [apply adapter_view_refresh_resume | exact Hw1].
    + apply preserves_detached; [| exact Hreject | exact Hw1].
      apply well_kept_untouched, adapter_view_authenticate_exchange.
    + pose proof (well_kept_createDevices_resume response w1 Hw1) as Hkept.
      destruct (createDevices_resume response w1) as [[u | e] w2]; exact Hkept.
    + apply preserves_detached; [| exact Hreject | exact Hw1].
      apply well_kept_untouched, adapter_view_updateHomeData_resume.
    + apply preserves_detached; [| exact Hreject | exact Hw1].
      apply well_kept_updateHomeData_home_resume.
    + apply preserves_detached; [| exact Hreject | exact Hw1].
      apply well_kept_untouched, adapter_view_setRoomThermPoint_resume.
    + apply preserves_detached; [| exact Hreject | exact Hw1].
      apply well_kept_untouched, adapter_view_setThermostatMode_resume.
  - unfold failure. destruct (awaiter_of n (inflight w)) as [k |]; [| exact Hw].
    destruct k; exact Hw.
  - unfold fire. destruct (existsb _ (timers w)); [| exact Hw].
    eapply well_kept_of_adapter_view; [apply adapter_view_refresh_start |].
    exact Hw.
  - unfold poll. apply preserves_detached; [| exact Hreject | exact Hw].
    apply well_kept_untouched.
    apply (adapter_view_start_of (GetHomeData JsUndefined)).
  - pose proof (well_kept_untouched _
                  (adapter_view_start_of (GetHomeData JsUndefined)
                     createDevices_awaits) w Hw) as Hkept.
    cbn [start_of] in Hkept. unfold createDevices_start.
    destruct (getHomeData_start createDevices_awaits JsUndefined w)
      as [[u | e] w']; exact Hkept.
  - apply preserves_detached; [| exact Hreject | exact Hw].
    apply preserves_bind; [apply preserves_the_device |]. intros [ref device].
    apply well_kept_untouched.
    apply (adapter_view_start_of (SetRoomThermPoint _)).
  - apply preserves_detached; [| exact Hreject | exact Hw].
    apply preserves_bind; [apply preserves_the_device |]. intros [ref device].
    apply well_kept_untouched.
    apply (adapter_view_start_of (SetThermostatMode _)).
  - apply preserves_detached; [| exact Hreject | exact Hw].
    apply well_kept_untouched, adapter_view_authenticate_resume.
Qed.

Lemma well_kept_run (events : list Event) (w : World) :
  well_kept w -> well_kept (run events w).
Proof.
  revert w. induction events as [| event rest IH]; intros w Hw; [exact Hw |].
  cbn [run fold_left]. apply (IH (step event w)). now apply well_kept_step.
Qed.

Lemma well_kept_boot (c : Config) : well_kept (boot c).
Proof. intros key ref Hfind. discriminate Hfind. Qed.

Lemma well_kept_Netatmo_constructor (now : Z) (w : World) :
  well_kept w -> well_kept (Netatmo_constructor now w).
Proof.
  intros Hw. unfold Netatmo_constructor.
  destruct (truthy (refresh_token (config w))); [| exact Hw].
  apply (well_kept_of_adapter_view w); [apply adapter_view_initRefresh | exact Hw].
Qed.

(** X10. The devices are well kept from the start of the process, and
    whatever happens to it (answers, failures, timers, polls,
    discoveries, commands, redirects, in any order and with any
    content) they stay so: every key of the table of devices holds a
    device, so that looking the key up never fails; the device is held
    under the key its id is built from or under its id, its id starts
    with the prefix, and it has the four properties of a room.  So
    polling the room of a device never finds a room property missing,
    and for an id built from [h-r] without further hyphens [getIds] of
    the device gives [h] and [r]. *)
Theorem devices_stay_well_kept :
  (forall c : Config, well_kept (boot c)) /\
  (forall (now : Z) (w : World),
      well_kept w -> well_kept (Netatmo_constructor now w)) /\
  (forall (events : list Event) (w : World) (key : string) (ref : nat),
      well_kept w ->
      table_get key (devices (run events w)) = Some ref ->
      exists device,
        device_at key (run events w) = Some (ref, device)
        /\ (id device = DEVICE_PREFIX +:+ key \/ id device = key)
        /\ String.prefix DEVICE_PREFIX (id device) = true
        /\ (forall name,
               name ∈ ["temperature"; "targetTemperature"; "heating"; "mode"] ->
               is_Some (properties device !! name))
        /\ (forall h r, id device = DEVICE_PREFIX +:+ h +:+ "-" +:+ r ->
                        String_includes "-" h = false ->
                        String_includes "-" r = false ->
                        getIds device = [h; r])).
Proof.
  split; [exact well_kept_boot |].
  split; [exact well_kept_Netatmo_constructor |].
  intros events w key ref Hw Hfind.
  destruct (well_kept_run events w Hw key ref Hfind)
    as (device & Hobject & Hid & Hpre & Hprops).
  exists device. split; [now apply device_at_Some |].
  split; [exact Hid |]. split; [exact Hpre |]. split; [exact Hprops |].
  intros h r Hdevice Hh Hr. now apply getIds_round_trip.
Qed.

End RunFacts.

(** *** Without tokens the adapter is silent *)













Section SilenceFacts.
Context {ecma : EcmaStringToNumber}.





End SilenceFacts.

(* ================================================================== *)

(** * Reconciliation *)

Section ReconcileFacts.
Context {ecma : EcmaStringToNumber}.

Lemma store_id (name : string) (v : JsValue) (device : RoomDevice) :
  id (store name v device) = id device.
Proof. reflexivity. Qed.

Lemma store_lookup (name : string) (v : JsValue) (device : RoomDevice)
    (property : Property) :
  properties device !! name = Some property ->
  properties (store name v device) !! name
  = Some {| property_class := property_class property;
            value := cached (value property) v |}.
Proof. intros Hp. cbn. now rewrite lookup_alter_eq, Hp. Qed.

Lemma store_lookup_ne (name other : string) (v : JsValue) (device : RoomDevice) :
  name <> other ->
  properties (store name v device) !! other = properties device !! other.
Proof. intros Hne. cbn. now rewrite lookup_alter_ne. Qed.

Lemma updateProperty_stores (name : string) (v : JsValue) (device : RoomDevice)
    (property : Property) :
  properties device !! name = Some property ->
  updateProperty name v device =
  Return (store name v device,
          if loosely_equal (value property) v then []
          else [(id device, name, v)]).
Proof.
  intros Hp. unfold updateProperty, store, cached. rewrite Hp.
  destruct (loosely_equal (value property) v) eqn:Eeq; cbn [negb].
  - f_equal. f_equal. destruct device as [i props]. cbn in *. f_equal.
    symmetry. apply alter_id. intros p Hp'. rewrite Hp in Hp'.
    injection Hp' as <-. rewrite Eeq. now destruct property.
  - f_equal. f_equal. f_equal.
    rewrite (alter_alt_Some _ _ _ _ Hp). now rewrite Eeq.
Qed.

Lemma device_updateProperty_stores (key name : string) (v : JsValue)
    (ref : nat) (device : RoomDevice) (property : Property) (w : World) :
  device_at key w = Some (ref, device) ->
  properties device !! name = Some property ->
  device_updateProperty key name v w =
  (Return tt,
   set_notified
     (notified w ++ (if loosely_equal (value property) v then []
                     else [(id device, name, v)]))
     (set_objects (<[ref := store name v device]> (objects w)) w)).
Proof.
  intros Hd Hp. unfold device_updateProperty, bind, the_device, lift, exec.
  rewrite Hd, (updateProperty_stores name v device property Hp). reflexivity.
Qed.

(** The device at [ref] is changed in place: every key that holds it
    sees the change. *)
Lemma device_at_changed (key : string) (ref : nat) (old new : RoomDevice)
    (w w' : World) :
  devices w' = devices w -> objects w' = <[ref := new]> (objects w) ->
  device_at key w = Some (ref, old) -> device_at key w' = Some (ref, new).
Proof.
  intros Hd Ho Hold. apply device_at_Some in Hold as [Hkey Hobject].
  apply device_at_Some. rewrite Hd, Ho. split; [exact Hkey |].
  apply list_lookup_insert_eq. now apply lookup_lt_Some in Hobject.
Qed.

Lemma cached_agrees (old v : JsValue) :
  loosely_equal v v = true -> loosely_equal (cached old v) v = true.
Proof.
  intros Hv. unfold cached.
  destruct (loosely_equal old v) eqn:Eeq; [exact Eeq | exact Hv].
Qed.

Lemma cached_twice (old v : JsValue) : cached (cached old v) v = cached old v.
Proof.
  unfold cached. destruct (loosely_equal old v) eqn:Eeq.
  - now rewrite Eeq.
  - now destruct (loosely_equal v v).
Qed.

Lemma store_twice (name : string) (v : JsValue) (device : RoomDevice) :
  store name v (store name v device) = store name v device.
Proof.
  unfold store. cbn. f_equal. apply map_eq. intros other.
  destruct (decide (name = other)) as [<- | Hne].
  - rewrite !lookup_alter_eq. destruct (properties device !! name) as [p |];
      [| reflexivity].
    cbn. now rewrite cached_twice.
  - now rewrite !lookup_alter_ne.
Qed.

(** X12. [device.updateProperty(name, v)] on the device held under a
    key, for a property the device has: the call completes; the device
    is changed in place and afterwards caches, at that name, the value
    it cached before when that is loosely equal to [v], and [v]
    otherwise, with one notification in the second case only; its id,
    its other properties, the other devices and the table of devices
    are as before.  When [v] is loosely equal to itself (it is not
    [NaN]) the cache then agrees with [v], and a second call with the
    same value changes nothing and notifies nothing. *)
Theorem device_updateProperty_settles
    (key name : string) (v : JsValue) (ref : nat) (device : RoomDevice)
    (property : Property) (w : World) :
  device_at key w = Some (ref, device) ->
  properties device !! name = Some property ->
  let w' := snd (device_updateProperty key name v w) in
  fst (device_updateProperty key name v w) = Return tt
  /\ device_at key w' = Some (ref, store name v device)
  /\ devices w' = devices w
  /\ (forall other, other <> ref -> objects w' !! other = objects w !! other)
  /\ value <$> properties (store name v device) !! name
     = Some (cached (value property) v)
  /\ id (store name v device) = id device
  /\ (forall other, other <> name ->
        properties (store name v device) !! other = properties device !! other)
  /\ notified w'
     = (notified w ++ (if loosely_equal (value property) v then []
                       else [(id device, name, v)]))%list
  /\ (loosely_equal v v = true ->
      loosely_equal (cached (value property) v) v = true
      /\ device_updateProperty key name v w' = (Return tt, w')).
Proof.
  intros Hd Hp w'. subst w'.
  rewrite (device_updateProperty_stores key name v ref device property w Hd Hp).
  cbn [fst snd]. set (w1 := set_notified _ _).
  assert (Hd1 : device_at key w1 = Some (ref, store name v device))
    by (now apply (device_at_changed key ref device _ w)).
  split; [reflexivity |]. split; [exact Hd1 |]. split; [reflexivity |].
  split; [intros other Hother; now apply list_lookup_insert_ne |].
  split; [now rewrite (store_lookup name v device property Hp) |].
  split; [reflexivity |].
  split; [intros other Hother; now apply store_lookup_ne |].
  split; [reflexivity |].
  intros Hv. split; [now apply cached_agrees |].
  rewrite (device_updateProperty_stores key name v ref (store name v device)
             {| property_class := property_class property;
                value := cached (value property) v |} w1 Hd1)
    by (now apply store_lookup).
  cbn [value]. rewrite (cached_agrees _ _ Hv), store_twice.
  unfold w1. cbn. now rewrite app_nil_r, list_insert_insert_eq.
Qed.

(** The value [updateHomeData] gives the [heating] property. *)
Lemma heating_of_number (q : Q) :
  (if num_gt (ToNumber (JsNumber (Num q))) (Num 0) then JsString "heating"
   else JsString "off") = JsString "heating" <-> (0 < q)%Q.
Proof.
  cbn. destruct (Qle_bool q 0) eqn:E; cbn [negb].
  - apply Qle_bool_iff in E. split; [discriminate | intros Hq; lra].
  - apply Qle_bool_false in E. split; [intros _; exact E | reflexivity].
Qed.

(** X13. The room loop of [updateHomeData], for a room whose device has
    the three room properties: the call completes and the device, changed
    in place, caches the measured temperature, the target temperature
    and the heating state (each as [updateProperty] settles it), the
    heating state being ["heating"] when the power request is greater
    than 0 and ["off"] otherwise, also when the request is missing; the
    id and the other properties of the device, the other devices, the
    table of devices, the module table and the cloud client are left as
    they are, and at most three notifications are sent. *)
Theorem update_room_stores
    (home : Home) (room : RoomStatus) (ref : nat) (device : RoomDevice)
    (p1 p2 p3 : Property) (w : World) :
  let key := home_id home +:+ "-" +:+ rs_id room in
  let heating :=
    if num_gt (ToNumber (heating_power_request room)) (Num 0)
    then JsString "heating" else JsString "off" in
  device_at key w = Some (ref, device) ->
  properties device !! "temperature" = Some p1 ->
  properties device !! "targetTemperature" = Some p2 ->
  properties device !! "heating" = Some p3 ->
  exists w' device',
    update_room home room w = (Return tt, w')
    /\ objects w' = <[ref := device']> (objects w)
    /\ devices w' = devices w
    /\ id device' = id device
    /\ value <$> properties device' !! "temperature"
       = Some (cached (value p1) (therm_measured_temperature room))
    /\ value <$> properties device' !! "targetTemperature"
       = Some (cached (value p2) (therm_setpoint_temperature room))
    /\ value <$> properties device' !! "heating"
       = Some (cached (value p3) heating)
    /\ (forall name, name <> "temperature" -> name <> "targetTemperature" ->
                     name <> "heating" ->
                     properties device' !! name = properties device !! name)
    /\ moduleMapping w' = moduleMapping w
    /\ cloud_view w' = cloud_view w
    /\ (exists ns, notified w' = (notified w ++ ns)%list /\ (length ns <= 3)%nat)
    /\ (forall q, heating_power_request room = JsNumber (Num q) ->
                  (heating = JsString "heating" <-> (0 < q)%Q))
    /\ (heating_power_request room = JsUndefined -> heating = JsString "off").
Proof.
  intros key heating Hd Hp1 Hp2 Hp3.
  unfold update_room, bind. fold key. fold heating.
  rewrite (device_updateProperty_stores key "temperature" _ ref device p1 w
             Hd Hp1).
  set (d1 := store "temperature" _ device). set (w1 := set_notified _ _).
  assert (Hd1 : device_at key w1 = Some (ref, d1))
    by (now apply (device_at_changed key ref device _ w)).
  assert (Hp2' : properties d1 !! "targetTemperature" = Some p2)
    by (unfold d1; now rewrite store_lookup_ne).
  rewrite (device_updateProperty_stores key "targetTemperature" _ ref d1 p2 w1
             Hd1 Hp2').
  set (d2 := store "targetTemperature" _ d1). set (w2 := set_notified _ _).
  assert (Hd2 : device_at key w2 = Some (ref, d2))
    by (now apply (device_at_changed key ref d1 _ w1)).
  assert (Hp3' : properties d2 !! "heating" = Some p3).
  { unfold d2. rewrite store_lookup_ne by discriminate.
    unfold d1. now rewrite store_lookup_ne. }
  rewrite (device_updateProperty_stores key "heating" _ ref d2 p3 w2 Hd2 Hp3').
  set (d3 := store "heating" heating d2).
  eexists. exists d3. split; [reflexivity |].
  split.
  { unfold w2, w1. cbn. now rewrite !list_insert_insert_eq. }
  split; [reflexivity |]. split; [reflexivity |].
  split.
  { unfold d3, d2. rewrite !store_lookup_ne by discriminate.
    unfold d1. now rewrite (store_lookup _ _ _ p1 Hp1). }
  split.
  { unfold d3. rewrite store_lookup_ne by discriminate.
    unfold d2. now rewrite (store_lookup _ _ _ p2 Hp2'). }
  split; [unfold d3; now rewrite (store_lookup _ _ _ p3 Hp3') |].
  split.
  { intros name H1 H2 H3. unfold d3, d2, d1.
    now rewrite !store_lookup_ne by congruence. }
  split; [reflexivity |]. split; [reflexivity |].
  split.
  { eexists. split.
    - unfold w2, w1. cbn. rewrite <- !app_assoc. reflexivity.
    - rewrite !length_app.
      destruct (loosely_equal (value p1) _), (loosely_equal (value p2) _),
        (loosely_equal (value p3) _); cbn; lia. }
  split.
  { intros q Hq. unfold heating. rewrite Hq. apply heating_of_number. }
  intros Hq. unfold heating. now rewrite Hq.
Qed.

End ReconcileFacts.

Section ValveFacts.
Context {ecma : EcmaStringToNumber}.













(** X17. An answer whose status is neither 200 nor 403 counts as an
    empty one.  [createDevices] then completes without creating a device
    (no failure is reported): it only announces again the devices the
    table holds; [updateHomeData] completes without asking for the
    status of any home, and the callback that handles the status of a
    home reads [rooms] of the empty array: it fails with a [TypeError],
    which nothing catches, having changed nothing but the console.  The
    callback fails the same way on a 200 answer whose body has no
    [home]. *)
Theorem other_statuses_count_as_empty
    (home : Home) (response : Response) (w : World) :
  (status response <> 200%Z -> status response <> 403%Z ->
   createDevices_resume response w
   = (Return tt, announce_devices (console_log "Got response for Home Data" w))
   /\ objects (snd (createDevices_resume response w)) = objects w
   /\ updateHomeData_resume response w
      = (Return tt, console_log "Got response for Home Data" w)
   /\ updateHomeData_home_resume home response w
      = (Throw TypeError, console_log "Got response for Home Status" w)
   /\ detached (updateHomeData_home_resume home response) w
      = reject TypeError (console_log "Got response for Home Status" w)) /\
  (status response = 200%Z -> json response = JsonHome None ->
   updateHomeData_home_resume home response w
   = (Throw TypeError, console_log "Got response for Home Status" w)).
Proof.
  split.
  - intros H200 H403. apply Z.eqb_neq in H200, H403.
    assert (Hcreate : createDevices_resume response w
                      = (Return tt,
                         announce_devices
                           (console_log "Got response for Home Data" w))).
    { unfold createDevices_resume, getHomeData_resume, bind, exec, ret.
      rewrite not_ok_200_status, H200, H403. reflexivity. }
    split; [exact Hcreate |]. split.
    { rewrite Hcreate. cbn [snd].
      destruct (announce_devices_table
                  (console_log "Got response for Home Data" w)) as [table ->].
      reflexivity. }
    unfold updateHomeData_resume,
      updateHomeData_home_resume, detached, getHomeData_resume,
      getHomeStatus_resume, bind, exec, ret.
    rewrite not_ok_200_status, H200, H403. cbn [negb].
    repeat split; reflexivity.
  - intros H200 Hjson.
    unfold updateHomeData_home_resume, getHomeStatus_resume, bind, exec, ret,
      lift.
    rewrite not_ok_200_status, H200, Hjson. reflexivity.
Qed.

End ValveFacts.

(* ================================================================== *)
(** * Ids and strings *)

Lemma String_split_not_nil (c : ascii) (s : string) : String_split c s <> [].
Proof.
  destruct s as [| a s]; cbn [String_split]; [discriminate |].
  destruct (Ascii.eqb a c); [discriminate |].
  destruct (String_split c s); discriminate.
Qed.

Lemma String_split_join (c : ascii) (s : string) :
  String.concat (String c "") (String_split c s) = s.
Proof.
  induction s as [| a s IH]; [reflexivity |].
  cbn [String_split]. pose proof (String_split_not_nil c s) as Hne.
  destruct (Ascii.eqb a c) eqn:Ea.
  - apply Ascii.eqb_eq in Ea. subst a.
    destruct (String_split c s) as [| piece pieces]; [contradiction |].
    cbn [String.concat] in *. now rewrite IH.
  - destruct (String_split c s) as [| piece pieces]; [contradiction |].
    destruct pieces as [| piece' pieces]; cbn [String.concat] in *.
    + now rewrite IH.
    + rewrite <- IH. reflexivity.
Qed.

Lemma String_split_pieces (c : ascii) (s : string) :
  Forall (fun piece => String_includes c piece = false) (String_split c s).
Proof.
  induction s as [| a s IH]; [repeat constructor |].
  cbn [String_split]. destruct (Ascii.eqb a c) eqn:Ea.
  - constructor; [reflexivity | exact IH].
  - destruct (String_split c s) as [| piece pieces].
    + repeat constructor. cbn. now rewrite Ea.
    + inversion IH as [| ? ? Hpiece Hpieces]. subst.
      constructor; [| exact Hpieces]. cbn. now rewrite Ea, Hpiece.
Qed.

(** X18. [getIds()] loses nothing of the key of a device: for a device
    whose id is the prefix followed by a key, the strings it returns
    hold no hyphen and, joined with hyphens, give back the key.  When
    the home id holds no hyphen the first of them is the home id,
    whatever the room id looks like, the others are the pieces of the
    room id, and [setThermostatMode] of the device, when the home id is
    not empty and an access token is stored, sends its one request with
    that home id. *)
Theorem getIds_loses_nothing :
  (forall (device : RoomDevice) (key : string),
      id device = DEVICE_PREFIX +:+ key ->
      String.concat "-" (getIds device) = key
      /\ Forall (fun piece => String_includes "-" piece = false) (getIds device)) /\
  (forall (device : RoomDevice) (h r : string) (v : JsValue) (w : World),
      String_includes "-" h = false ->
      id device = DEVICE_PREFIX +:+ h +:+ "-" +:+ r ->
      getIds device = h :: String_split "-" r
      /\ String.concat "-" (String_split "-" r) = r
      /\ (h <> "" -> token (config w) <> "" ->
          device_setThermostatMode device v w =
          (Return tt,
           fetch {| url := "https://api.netatmo.com/api/setthermmode";
                    body := [("home_id", JsString h);
                             ("mode", JsString (if is_off v then "away"
                                                else "schedule"))];
                    authorization := Some ("Bearer " +:+ token (config w)) |}
                 setThermostatMode_awaits w))).
Proof.
  split.
  - intros device key Hid. unfold getIds.
    rewrite Hid, String_replace_DEVICE_PREFIX.
    split; [apply String_split_join | apply String_split_pieces].
  - intros device h r v w Hh Hid.
    assert (Hids : getIds device = h :: String_split "-" r).
    { unfold getIds. rewrite Hid, String_replace_DEVICE_PREFIX.
      change ("-" +:+ r) with (String "-" r).
      apply (String_split_at "-" h r Hh). }
    split; [exact Hids |]. split; [apply String_split_join |].
    intros Hhne Htoken.
    now apply (device_setThermostatMode_sends h (String_split "-" r)).
Qed.

(* ================================================================== *)
(** * Saving the configuration *)


(* ================================================================== *)
(** * The callback of the authorization *)

Lemma resolvePromise_twice (data : CallbackData) (listener : CallbackListener) :
  resolvePromise data (resolvePromise data listener)
  = resolvePromise data listener.
Proof.
  unfold resolvePromise. destruct (successPromise listener) eqn:E; cbn.
  - now rewrite E.
  - reflexivity.
Qed.

Lemma emit_refs (msg : Message) (refs : list nat) (handler : CallbackAPIHandler) :
  msg_type msg = CALLBACK_SUCCEEDED ->
  let handler' :=
    fold_left (fun handler ref => handleEvent msg ref handler) refs handler in
  listeners handler' = listeners handler
  /\ forall ref,
       listener_heap handler' !! ref
       = if decide (ref ∈ refs)
         then resolvePromise (msg_data msg) <$> listener_heap handler !! ref
         else listener_heap handler !! ref.
Proof.
  intros Htype. revert handler.
  induction refs as [| r refs IH]; intros handler; cbn [fold_left].
  - split; [reflexivity |]. intros ref.
    destruct (decide (ref ∈ [])) as [Hin | _]; [| reflexivity].
    now apply elem_of_nil in Hin.
  - destruct (IH (handleEvent msg r handler)) as [Hlisteners Hobjects].
    unfold handleEvent in Hlisteners, Hobjects |- *.
    rewrite Htype, String.eqb_refl in Hlisteners, Hobjects |- *.
    cbn [listeners listener_heap] in Hlisteners, Hobjects.
    split; [exact Hlisteners |]. intros ref. rewrite Hobjects.
    destruct (decide (r = ref)) as [-> | Hne].
    + rewrite list_lookup_alter_eq.
      rewrite (decide_True (P := ref ∈ ref :: refs)) by apply list_elem_of_here.
      destruct (decide (ref ∈ refs)); [| reflexivity].
      destruct (listener_heap handler !! ref) as [listener |]; [| reflexivity].
      cbn. now rewrite resolvePromise_twice.
    + rewrite list_lookup_alter_ne by exact Hne.
      destruct (decide (ref ∈ refs)) as [Hin | Hnot].
      * rewrite (decide_True (P := ref ∈ r :: refs)); [reflexivity |].
        now apply list_elem_of_further.
      * rewrite (decide_False (P := ref ∈ r :: refs)); [reflexivity |].
        intros Hin. apply elem_of_cons in Hin as [-> | Hin]; contradiction.
Qed.

Lemma handleRequest_callback (request : APIRequest) (handler : CallbackAPIHandler) :
  method request = "POST" -> path request = "/callback" ->
  fst (handleRequest request handler)
  = {| response_status := 200; contentType := Some "application/json";
       content := Some "{}" |}
  /\ listeners (snd (handleRequest request handler)) = listeners handler
  /\ forall ref,
       listener_heap (snd (handleRequest request handler)) !! ref
       = if decide (ref ∈ Map_values (listeners handler))
         then resolvePromise (request_body request) <$> listener_heap handler !! ref
         else listener_heap handler !! ref.
Proof.
  intros Hmethod Hpath. unfold handleRequest. rewrite Hmethod, Hpath.
  cbn [String.eqb Ascii.eqb Bool.eqb negb orb fst snd].
  split; [reflexivity |].
  apply (emit_refs {| msg_type := CALLBACK_SUCCEEDED;
                      msg_data := request_body request |}
           (Map_values (listeners handler)) handler eq_refl).
Qed.

Lemma handleRequest_not_found (request : APIRequest) (handler : CallbackAPIHandler) :
  method request <> "POST" \/ path request <> "/callback" ->
  handleRequest request handler
  = ({| response_status := 404; contentType := None; content := None |},
     handler).
Proof.
  intros Hroute. unfold handleRequest.
  destruct Hroute as [Hne | Hne]; apply String.eqb_neq in Hne; rewrite Hne;
    [reflexivity | now rewrite orb_true_r].
Qed.

(** X20. [handleRequest] routes one request only.  A request that is no
    [POST] or whose path is not ['/callback'] is answered with a 404 and
    reaches no listener.  A [POST] to ['/callback'] is answered with a
    200 and the JSON [{}], whatever its body holds, and is handed to
    every listener of the map: the promise of a listener that was
    pending is resolved with the body of the request, a promise that was
    resolved before keeps its value, and a listener that is not in the
    map is not touched; the map itself is unchanged (no listener is
    removed). *)
Theorem handleRequest_routes (request : APIRequest) (handler : CallbackAPIHandler) :
  (method request <> "POST" \/ path request <> "/callback" ->
   handleRequest request handler
   = ({| response_status := 404; contentType := None; content := None |},
      handler)) /\
  (method request = "POST" -> path request = "/callback" ->
   fst (handleRequest request handler)
   = {| response_status := 200; contentType := Some "application/json";
        content := Some "{}" |}
   /\ listeners (snd (handleRequest request handler)) = listeners handler
   /\ forall ref listener,
        listener_heap handler !! ref = Some listener ->
        exists listener',
          listener_heap (snd (handleRequest request handler)) !! ref = Some listener'
          /\ listener_id listener' = listener_id listener
          /\ (ref ∈ Map_values (listeners handler) ->
              successPromise listener = None ->
              successPromise listener' = Some (request_body request))
          /\ (successPromise listener <> None ->
              successPromise listener' = successPromise listener)
          /\ (ref ∉ Map_values (listeners handler) -> listener' = listener)).
Proof.
  split; [apply handleRequest_not_found |].
  intros Hmethod Hpath.
  destruct (handleRequest_callback request handler Hmethod Hpath)
    as (Hresponse & Hlisteners & Hobjects).
  split; [exact Hresponse |]. split; [exact Hlisteners |].
  intros ref listener Href. rewrite Hobjects, Href.
  destruct (decide (ref ∈ Map_values (listeners handler))) as [Hin | Hnot].
  - eexists. split; [reflexivity |]. unfold resolvePromise.
    destruct (successPromise listener) as [data |] eqn:Epromise; cbn.
    + split; [reflexivity |]. split; [intros _ Hnone; discriminate Hnone |].
      split; [intros _; exact Epromise | intros Hnot; contradiction].
    + split; [reflexivity |]. split; [reflexivity |].
      split; [intros Hne; now contradiction Hne | intros Hnot; contradiction].
  - exists listener. split; [reflexivity |]. split; [reflexivity |].
    split; [intros Hin; contradiction |]. split; reflexivity.
Qed.

Lemma Map_set_twice {V : Type} (key : string) (v1 v2 : V) (m : list (string * V)) :
  Map_set key v2 (Map_set key v1 m) = Map_set key v2 m.
Proof.
  induction m as [| [k v] m IH]; cbn [Map_set].
  - now rewrite String.eqb_refl.
  - destruct (String.eqb k key) eqn:Ek; cbn [Map_set]; rewrite Ek;
      [reflexivity | now rewrite IH].
Qed.

Lemma Map_set_values {V : Type} (key : string) (v x : V) (m : list (string * V)) :
  x ∈ Map_values (Map_set key v m) -> x = v \/ x ∈ Map_values m.
Proof.
  induction m as [| [k v'] m IH]; cbn [Map_set].
  - cbn. intros Hin. apply list_elem_of_singleton in Hin. now left.
  - destruct (String.eqb k key); cbn; intros Hin;
      apply elem_of_cons in Hin as [-> | Hin].
    + now left.
    + right. now apply list_elem_of_further.
    + right. apply list_elem_of_here.
    + destruct (IH Hin) as [-> | Hin']; [now left |].
      right. now apply list_elem_of_further.
Qed.

Lemma Map_set_has {V : Type} (key : string) (v : V) (m : list (string * V)) :
  v ∈ Map_values (Map_set key v m).
Proof.
  induction m as [| [k v'] m IH]; cbn [Map_set].
  - apply list_elem_of_here.
  - destruct (String.eqb k key); cbn;
      [apply list_elem_of_here | now apply list_elem_of_further].
Qed.

Lemma listen_state (handler : CallbackAPIHandler) :
  listen handler
  = (length (listener_heap handler),
     {| listeners := Map_set "callback-listener" (length (listener_heap handler))
                       (listeners handler);
        listener_heap := (listener_heap handler
                    ++ [{| listener_id := "callback-listener";
                           successPromise := None |}])%list |}).
Proof.
  unfold listen, CallbackListener_new, addListener. cbn [listener_heap listeners].
  now rewrite list_lookup_middle.
Qed.

Lemma handleRequest_keeps (request : APIRequest) (handler : CallbackAPIHandler) :
  listeners (snd (handleRequest request handler)) = listeners handler
  /\ (forall ref,
        ref ∉ Map_values (listeners handler) ->
        listener_heap (snd (handleRequest request handler)) !! ref
        = listener_heap handler !! ref)
  /\ (forall ref listener data,
        listener_heap handler !! ref = Some listener ->
        successPromise listener = Some data ->
        listener_heap (snd (handleRequest request handler)) !! ref = Some listener).
Proof.
  destruct (String.eqb (method request) "POST") eqn:Emethod.
  2:{ apply String.eqb_neq in Emethod.
      rewrite (handleRequest_not_found request handler (or_introl Emethod)).
      now repeat split. }
  destruct (String.eqb (path request) "/callback") eqn:Epath.
  2:{ apply String.eqb_neq in Epath.
      rewrite (handleRequest_not_found request handler (or_intror Epath)).
      now repeat split. }
  apply String.eqb_eq in Emethod, Epath.
  destruct (handleRequest_callback request handler Emethod Epath)
    as (_ & Hlisteners & Hobjects).
  split; [exact Hlisteners |]. split.
  - intros ref Hnot. rewrite Hobjects. now rewrite decide_False.
  - intros ref listener data Href Hdata. rewrite Hobjects, Href.
    destruct (decide (ref ∈ Map_values (listeners handler))); [| reflexivity].
    cbn. unfold resolvePromise. now rewrite Hdata.
Qed.

Lemma handleRequests_unregistered (requests : list APIRequest) (ref : nat)
    (handler : CallbackAPIHandler) :
  ref ∉ Map_values (listeners handler) ->
  listener_heap (fold_left (fun h request => snd (handleRequest request h))
                     requests handler) !! ref
  = listener_heap handler !! ref.
Proof.
  revert handler. induction requests as [| request rest IH]; intros handler Hnot;
    [reflexivity |].
  cbn [fold_left].
  destruct (handleRequest_keeps request handler) as (Hlisteners & Hsame & _).
  rewrite IH by (now rewrite Hlisteners). now apply Hsame.
Qed.

Lemma handleRequests_resolved (requests : list APIRequest) (ref : nat)
    (listener : CallbackListener) (data : CallbackData)
    (handler : CallbackAPIHandler) :
  listener_heap handler !! ref = Some listener ->
  successPromise listener = Some data ->
  listener_heap (fold_left (fun h request => snd (handleRequest request h))
                     requests handler) !! ref
  = Some listener.
Proof.
  revert handler.
  induction requests as [| request rest IH]; intros handler Href Hdata;
    [exact Href |].
  cbn [fold_left]. apply IH; [| exact Hdata].
  destruct (handleRequest_keeps request handler) as (_ & _ & Hresolved).
  now apply (Hresolved ref listener data).
Qed.

(** X21. Every [authenticate] of the adapter registers its listener
    under the same id, so a second one that starts while the first still
    waits takes its place in the map: whatever requests arrive then, the
    promise of the first listener stays pending, and the first [POST] to
    ['/callback'] resolves the promise of the second listener with its
    body, which later requests do not change. *)
Theorem later_listener_takes_over
    (handler : CallbackAPIHandler) (requests : list APIRequest) :
  listeners_exist handler ->
  let first := fst (listen handler) in
  let second := fst (listen (snd (listen handler))) in
  let waiting := snd (listen (snd (listen handler))) in
  let after :=
    fold_left (fun h request => snd (handleRequest request h)) requests waiting in
  first <> second
  /\ successPromise <$> listener_heap after !! first = Some None
  /\ (forall request rest,
        requests = request :: rest ->
        method request = "POST" -> path request = "/callback" ->
        successPromise <$> listener_heap after !! second
        = Some (Some (request_body request))).
Proof.
  intros Hexist first second waiting after.
  subst first second waiting after. rewrite !listen_state.
  cbn [fst snd listener_heap listeners]. rewrite Map_set_twice, length_app.
  cbn [length]. set (n := length (listener_heap handler)).
  split; [lia |]. split.
  - rewrite handleRequests_unregistered.
    + cbn [listener_heap]. rewrite <- app_assoc. cbn [app].
      now rewrite list_lookup_middle.
    + cbn [listeners]. intros Hin.
      apply Map_set_values in Hin as [Hin | Hin]; [lia |].
      unfold listeners_exist in Hexist.
      rewrite Forall_forall in Hexist. specialize (Hexist n Hin). lia.
  - intros request rest -> Hmethod Hpath. cbn [fold_left].
    set (waiting := {| listeners := _; listener_heap := _ |}).
    destruct (handleRequest_callback request waiting Hmethod Hpath)
      as (_ & _ & Hobjects).
    assert (Hsecond : listener_heap (snd (handleRequest request waiting)) !! (n + 1)%nat
                      = Some {| listener_id := "callback-listener";
                                successPromise := Some (request_body request) |}).
    { rewrite Hobjects. unfold waiting. cbn [listeners listener_heap].
      rewrite decide_True by apply Map_set_has.
      rewrite list_lookup_middle by (rewrite length_app; cbn; lia).
      reflexivity. }
    now rewrite (handleRequests_resolved rest _ _ _ _ Hsecond eq_refl).
Qed.

(* ================================================================== *)

(** * Starting the adapter *)


Lemma createDevices_start_without_token (w : World) :
  token (config w) = "" ->
  createDevices_start w = (Throw (Error "No token found"), w).
Proof.
  intros Htoken.
  exact (start_of_without_token (GetHomeData JsUndefined) createDevices_awaits
           w Htoken).
Qed.

Lemma createDevices_start_sends (w : World) :
  token (config w) <> "" ->
  createDevices_start w
  = (Return tt,
     fetch {| url := "https://api.netatmo.com/api/homesdata"; body := [];
              authorization := Some ("Bearer " +:+ token (config w)) |}
           createDevices_awaits w).
Proof.
  intros Htoken.
  exact (start_of_sends (GetHomeData JsUndefined) createDevices_awaits w Htoken).
Qed.




(** X23. How the adapter starts.  Without a refresh token in its
    configuration it does nothing: no request, no timer, no device,
    nothing reported; it waits for a pairing.  With a refresh token and
    an access token that is still valid it schedules the refresh and
    asks for the homes.  With a refresh token and an access token that
    is missing or has expired, the constructor starts a refresh, which
    empties the access token, so that [postAuth] fails at once: the
    failure to create devices is reported, the refresh request is the
    only request sent, and no polling is set up. *)
Theorem init_outcomes (now : Z) (c : Config) :
  (refresh_token c = "" ->
   init now c = {| world := boot c; updateInterval := None; intervals := 0;
                   reported := [] |}) /\
  (refresh_token c <> "" -> token c <> "" -> (0 < expiresIn now (boot c))%Z ->
   reported (init now c) = []
   /\ timers (world (init now c))
      = [{| handle := 0; delay := expiresIn now (boot c) |}]
   /\ sent (world (init now c))
      = [{| url := "https://api.netatmo.com/api/homesdata"; body := [];
            authorization := Some ("Bearer " +:+ token c) |}]
   /\ inflight (world (init now c)) = [(0%nat, createDevices_awaits)]
   /\ config (world (init now c)) = c) /\
  (refresh_token c <> "" ->
   ~ ((0 < expiresIn now (boot c))%Z /\ token c <> "") ->
   reported (init now c) = ["Netatmo Energy Devices could not be created."]
   /\ sent (world (init now c)) = [refresh_request c]
   /\ inflight (world (init now c)) = [(0%nat, refresh_awaits)]
   /\ token (config (world (init now c))) = ""
   /\ timers (world (init now c)) = []
   /\ updateInterval (init now c) = None
   /\ devices (world (init now c)) = []).
Proof.
  split; [| split].
  - intros Hrt. unfold init, Netatmo_constructor, needsAuth.
    apply truthy_false in Hrt. cbn [config boot world].
    rewrite Hrt. cbn [world config boot]. now rewrite Hrt.
  - intros Hrt Htoken Hpos. unfold init, Netatmo_constructor.
    assert (Htruthy : truthy (refresh_token (config (boot c))) = true)
      by now apply truthy_true.
    rewrite Htruthy. cbn [world].
    rewrite (initRefresh_schedules now (boot c) Hpos Htoken).
    unfold needsAuth. cbn [config set_refreshInterval set_timers console_log
                           set_console boot].
    cbn [config boot] in Htruthy. rewrite Htruthy. cbn [negb].
    unfold postAuth_start. cbn [world].
    rewrite createDevices_start_sends by exact Htoken.
    now repeat split.
  - intros Hrt Hexpired. unfold init, Netatmo_constructor.
    assert (Htruthy : truthy (refresh_token (config (boot c))) = true)
      by now apply truthy_true.
    rewrite Htruthy. cbn [world].
    rewrite (initRefresh_refreshes now (boot c) Hexpired).
    unfold needsAuth. rewrite refresh_start_refresh_token, Htruthy. cbn [negb].
    unfold postAuth_start. cbn [world].
    rewrite createDevices_start_without_token by apply refresh_start_token.
    rewrite (refresh_start_sends (boot c)) by exact Hrt.
    now repeat split.
Qed.

(* ================================================================== *)

(** * Discovery, then a poll *)








Section PollAfterDiscovery.
Context {ecma : EcmaStringToNumber}.






End PollAfterDiscovery.

(* ================================================================== *)
(** * The refresh cycle *)

Lemma awaiter_of_new (n : nat) (k : Awaiter) (l : list (nat * Awaiter)) :
  Forall (fun entry => (fst entry < n)%nat) l ->
  awaiter_of n (l ++ [(n, k)]) = Some k
  /\ List.filter (fun entry => negb (Nat.eqb (fst entry) n)) (l ++ [(n, k)]) = l.
Proof.
  unfold awaiter_of. induction 1 as [| [n' k'] l Hn' _ [IHfind IHfilter]].
  - cbn. now rewrite Nat.eqb_refl.
  - cbn in Hn'. cbn [app List.find List.filter fst].
    assert (Hne : Nat.eqb n' n = false) by (apply Nat.eqb_neq; lia).
    rewrite Hne. cbn [negb]. split; [exact IHfind | now rewrite IHfilter].
Qed.

Section CycleFacts.
Context {ecma : EcmaStringToNumber}.

(** X25. The refresh cycle sustains itself.  From a state in which the
    cycle is armed, when the pending timer fires and the refresh request
    it sends is answered with a 200 that carries an access token, a
    refresh token and a lifetime that has not run out (and ends at a
    time a [Date] can hold), the cycle is armed again: exactly one timer is pending, the new one, scheduled
    for the remaining lifetime; the two tokens of the answer are
    stored, and the expiry and the refresh token are saved; and the
    refresh request is the only request that was sent. *)
Theorem refresh_cycle
    (now now' e : Z) (access rotated : string) (w : World) :
  armed w -> access <> "" -> rotated <> "" -> (0 <= now' < now + e * 1000)%Z ->
  (now + e * 1000 <= 8640000000000000)%Z ->
  exists t,
    timers w = [t]
    /\ let fired := step (Fire (handle t)) w in
       let granted :=
         step (Answer now now' (length (sent w))
                 {| status := 200; json := JsonToken access (Some e) rotated |})
              fired in
       token (config fired) = ""
       /\ sent fired = (sent w ++ [refresh_request (config w)])%list
       /\ timers fired = []
       /\ armed granted
       /\ timers granted
          = [{| handle := timers_created w;
                delay := (now + e * 1000 - now')%Z |}]
       /\ token (config granted) = access
       /\ refresh_token (config granted) = rotated
       /\ last (saved granted) = Some (Some (now + e * 1000)%Z, rotated)
       /\ sent granted = sent fired
       /\ inflight granted = inflight w.
Proof.
  intros (t & Htimers & Hinterval & Hhandle & Htoken & Hrefresh & Hflight)
    Haccess Hrotated Hclock Hdate.
  exists t. split; [exact Htimers |]. cbn zeta. cbn [step].
  assert (Hfire :
            fire (handle t) w
            = refresh_start (set_timers [] (timers_created w) w)).
  { unfold fire. rewrite Htimers. cbn. now rewrite Nat.eqb_refl. }
  rewrite Hfire.
  set (w0 := set_timers [] (timers_created w) w).
  rewrite (refresh_start_sends w0) by exact Hrefresh.
  set (w1 := fetch _ _ _).
  split; [reflexivity |]. split; [reflexivity |]. split; [reflexivity |].
  destruct (awaiter_of_new (length (sent w)) refresh_awaits (inflight w) Hflight)
    as [Hfind Hfilter].
  unfold answer. cbn [inflight w1 fetch set_network sent w0 set_timers
                      console_log set_console set_token set_config
                      set_refreshInterval].
  rewrite Hfind, Hfilter.
  set (w2 := set_network _ _ _).
  rewrite (refresh_resume_granted now now' e
             {| status := 200; json := JsonToken access (Some e) rotated |}
             w2 eq_refl eq_refl)
    by (apply valid_date_between; lia).
  set (stored := updateConfig _).
  assert (Hin : expiresIn now' stored = (now + e * 1000 - now')%Z).
  { unfold expiresIn, stored. cbn.
    destruct (now + e * 1000 =? 0)%Z eqn:E; [| reflexivity].
    apply Z.eqb_eq in E. lia. }
  rewrite (initRefresh_schedules now' stored)
    by (rewrite ?Hin; first [lia | exact Haccess]).
  rewrite Hin.
  split.
  { eexists. split; [reflexivity |]. cbn.
    split; [reflexivity |]. split; [lia |].
    split; [exact Haccess |]. split; [exact Hrotated |].
    rewrite length_app. cbn [length].
    apply (Forall_impl _ _ _ Hflight). intros entry Hentry. lia. }
  split; [reflexivity |]. split; [reflexivity |]. split; [reflexivity |].
  split; [apply last_snoc |]. split; reflexivity.
Qed.

End CycleFacts.

(* ================================================================== *)
(** * Further runs of the process *)

Lemma cloud_operation_sends_witness :
  token (config started) <> ""
  /\ exists request,
       start_of (GetHomeStatus (JsString "A")) (updateHomeData_home_awaits homeA)
         started
       = (Return tt, fetch request (updateHomeData_home_awaits homeA) started)
       /\ url request = "https://api.netatmo.com/api/homestatus"
       /\ authorization request = Some "Bearer t0"
       /\ body request = [("home_id", JsString "A")].
Proof.
  assert (Htoken : token (config started) <> "") by (vm_compute; discriminate).
  split; [exact Htoken |].
  destruct (cloud_operation_sends (GetHomeStatus (JsString "A"))
              (updateHomeData_home_awaits homeA) started Htoken)
    as (request & Hrun & Hurl & Hauth & Hbody & _).
  exists request. split; [exact Hrun |]. split; [exact Hurl |].
  split; [exact Hauth | exact Hbody].
Defined.

Lemma forbidden_starts_refresh_witness :
  status forbidden = 403%Z
  /\ refresh_token (config started) <> ""
  /\ exists w',
       resume_of (GetHomeStatus (JsString "A")) forbidden started
       = (Throw (Error "Unauthorized"), w')
       /\ token (config w') = ""
       /\ timers w' = timers started
       /\ sent w' = (sent started ++ [refresh_request (config started)])%list.
Proof.
  assert (Hrt : refresh_token (config started) <> "")
    by (vm_compute; discriminate).
  split; [reflexivity |]. split; [exact Hrt |].
  destruct (forbidden_starts_refresh (GetHomeStatus (JsString "A")) forbidden
              started eq_refl)
    as (w' & Hrun & Htoken & _ & _ & Htimers & _ & _ & Hsends & _).
  exists w'. split; [exact Hrun |]. split; [exact Htoken |].
  split; [exact Htimers | exact (proj1 (Hsends Hrt))].
Defined.

Lemma unInit_cancels_witness :
  fresh_handles (boot config0)
  /\ (0 < expiresIn 1000 (boot config0))%Z
  /\ token (config (boot config0)) <> ""
  /\ timers (initRefresh 1000 (boot config0))
     = [{| handle := 0; delay := 9999000 |}]
  /\ timers (unInit (initRefresh 1000 (boot config0))) = [].
Proof.
  assert (Hfresh : fresh_handles (boot config0)) by constructor.
  assert (Hpos : (0 < expiresIn 1000 (boot config0))%Z)
    by (vm_compute; reflexivity).
  assert (Htoken : token (config (boot config0)) <> "") by discriminate.
  split; [exact Hfresh |]. split; [exact Hpos |]. split; [exact Htoken |].
  split; [vm_compute; reflexivity |].
  exact (proj1 (unInit_cancels 1000 (boot config0)) Hfresh Hpos Htoken).
Defined.

Lemma authenticate_exchange_granted_witness :
  status (grant "t1" 10800 "r1") = 200%Z
  /\ expires_in (json (grant "t1" 10800 "r1")) = Some 10800%Z
  /\ (0 <= 3001 < 3000 + 10800 * 1000)%Z
  /\ access_token (json (grant "t1" 10800 "r1")) <> ""
  /\ exists w',
       authenticate_exchange 3000 3001 (grant "t1" 10800 "r1") (boot config_none)
       = (Return tt, w')
       /\ token (config w') = "t1"
       /\ needsAuth w' = false
       /\ timers w' = [{| handle := 0; delay := 10799999 |}].
Proof.
  assert (Hclock : (0 <= 3001 < 3000 + 10800 * 1000)%Z) by lia.
  assert (Haccess : access_token (json (grant "t1" 10800 "r1")) <> "")
    by discriminate.
  split; [reflexivity |]. split; [reflexivity |]. split; [exact Hclock |].
  split; [exact Haccess |].
  destruct (authenticate_exchange_granted 3000 3001 10800
              (grant "t1" 10800 "r1") (GetHomeData JsUndefined)
              updateHomeData_awaits (boot config_none)
              eq_refl eq_refl Hclock Haccess)
    as (w' & Hrun & Htoken & _ & _ & _ & Htimers & _ & _ & Hauth & _).
  exists w'. split; [exact Hrun |]. split; [exact Htoken |].
  split; [exact Hauth | exact Htimers].
Defined.

Lemma answer_without_expires_in_witness :
  status grant_without_expiry = 200%Z
  /\ expiry 3000 (json grant_without_expiry) = None
  /\ token (config (refresh_resume 3000 3001 grant_without_expiry
                      (refresh_start started))) = "t1"
  /\ saved (refresh_resume 3000 3001 grant_without_expiry
              (refresh_start started))
     = saved (refresh_start started)
  /\ uncaught (refresh_resume 3000 3001 grant_without_expiry
                 (refresh_start started))
     = (uncaught (refresh_start started) ++ [RangeError])%list.
Proof.
  split; [reflexivity |]. split; [reflexivity |].
  destruct (answer_without_expires_in 3000 3001 grant_without_expiry
              (refresh_start started) eq_refl) as (Hrefresh & _).
  destruct (Hrefresh I) as (Htoken & _ & _ & Hsaved & _ & _ & _ & Huncaught).
  split; [exact Htoken |]. split; [exact Hsaved | exact Huncaught].
Defined.

Lemma poll_keeps_shape_witness :
  status statusA_answer = 200%Z
  /\ shape (snd (updateHomeData_home_resume (ecma := StringToNumber_digits)
                   homeA statusA_answer polling))
     = shape polling
  /\ cloud_view (snd (updateHomeData_home_resume (ecma := StringToNumber_digits)
                        homeA statusA_answer polling))
     = cloud_view polling.
Proof.
  split; [reflexivity |].
  destruct (poll_keeps_shape (ecma := StringToNumber_digits)
              homeA statusA_answer polling) as (Hshape & _ & Hcloud).
  split; [exact Hshape | exact (proj1 (Hcloud eq_refl))].
Defined.

Lemma create_room_fresh_device_witness :
  "B-2" <> "A-1"
  /\ device_at "A-1"
       (snd (create_room homeA {| room_id := "1"; room_name := "Living room" |}
               one_room))
     = Some (length (objects one_room), fresh_room)
  /\ table_get "B-2"
       (devices (snd (create_room homeA
                        {| room_id := "1"; room_name := "Living room" |}
                        one_room)))
     = table_get "B-2" (devices one_room).
Proof.
  assert (Hne : "B-2" <> "A-1") by discriminate.
  split; [exact Hne |].
  destruct (create_room_fresh_device homeA
              {| room_id := "1"; room_name := "Living room" |} one_room)
    as (_ & Hdevice & _ & _ & Hothers & _).
  split; [exact Hdevice | exact (Hothers "B-2" Hne)].
Defined.


Lemma createDevices_resume_creates_witness :
  status homes_answer = 200%Z
  /\ json homes_answer = JsonHomes (Some [homeA; homeB])
  /\ well_kept started
  /\ Forall (fun home => is_Some (home_rooms home) /\ is_Some (home_modules home))
            [homeA; homeB]
  /\ String.prefix DEVICE_PREFIX "B-2" = false
  /\ fst (createDevices_resume homes_answer started) = Return tt
  /\ announced "B-2" (snd (createDevices_resume homes_answer started)).
Proof.
  assert (Hkept : well_kept started)
    by exact (well_kept_Netatmo_constructor 1000%Z (boot config0)
                (well_kept_boot config0)).
  assert (Hlisted : Forall (fun home => is_Some (home_rooms home)
                                        /\ is_Some (home_modules home))
                           [homeA; homeB]).
  { repeat constructor; eexists; reflexivity. }
  split; [reflexivity |]. split; [reflexivity |]. split; [exact Hkept |].
  split; [exact Hlisted |]. split; [reflexivity |].
  destruct (createDevices_resume_creates homes_answer [homeA; homeB] started
              eq_refl eq_refl Hkept) as (Hcreates & _).
  destruct (Hcreates Hlisted) as (Hreturns & Hrooms).
  split; [exact Hreturns |].
  apply (Hrooms homeB [{| room_id := "2"; room_name := "Bedroom" |}]
           {| room_id := "2"; room_name := "Bedroom" |}).
  - apply list_elem_of_further, list_elem_of_here.
  - reflexivity.
  - apply list_elem_of_here.
  - reflexivity.
Defined.

Lemma devices_stay_well_kept_witness :
  well_kept started
  /\ table_get "thermostat-room-A-1"
       (devices (run (ecma := StringToNumber_digits)
                   [Discover; Answer 1100 1100 0 homes_answer;
                    Poll; Answer 2000 2000 1 homes_answer;
                    Answer 2100 2100 2 statusA_answer;
                    Answer 2200 2200 3 forbidden] started))
     = Some 0%nat
  /\ exists device,
       device_at "thermostat-room-A-1"
         (run (ecma := StringToNumber_digits)
            [Discover; Answer 1100 1100 0 homes_answer;
             Poll; Answer 2000 2000 1 homes_answer;
             Answer 2100 2100 2 statusA_answer;
             Answer 2200 2200 3 forbidden] started)
       = Some (0%nat, device)
       /\ String.prefix DEVICE_PREFIX (id device) = true
       /\ is_Some (properties device !! "temperature").
Proof.
  destruct (devices_stay_well_kept (ecma := StringToNumber_digits))
    as (Hboot & Hconstructor & Hrun).
  assert (Hstarted : well_kept started)
    by exact (Hconstructor 1000%Z (boot config0) (Hboot config0)).
  assert (Hfind : table_get "thermostat-room-A-1"
                    (devices (run (ecma := StringToNumber_digits)
                                [Discover; Answer 1100 1100 0 homes_answer;
                                 Poll; Answer 2000 2000 1 homes_answer;
                                 Answer 2100 2100 2 statusA_answer;
                                 Answer 2200 2200 3 forbidden] started))
                  = Some 0%nat)
    by (vm_compute; reflexivity).
  split; [exact Hstarted |]. split; [exact Hfind |].
  destruct (Hrun _ started "thermostat-room-A-1" 0%nat Hstarted Hfind)
    as (device & Hd & _ & Hpre & Hprops & _).
  exists device. split; [exact Hd |]. split; [exact Hpre |].
  apply Hprops. apply list_elem_of_here.
Defined.


Lemma device_updateProperty_settles_witness :
  device_at "A-1" one_room = Some (0%nat, fresh_room)
  /\ properties fresh_room !! "temperature"
     = Some {| property_class := ThermostatProperty; value := JsUndefined |}
  /\ loosely_equal (ecma := StringToNumber_digits) (num 21.5) (num 21.5) = true
  /\ notified (snd (device_updateProperty (ecma := StringToNumber_digits)
                      "A-1" "temperature" (num 21.5) one_room))
     = [("thermostat-room-A-1", "temperature", num 21.5)]
  /\ device_updateProperty (ecma := StringToNumber_digits)
       "A-1" "temperature" (num 21.5)
       (snd (device_updateProperty (ecma := StringToNumber_digits)
               "A-1" "temperature" (num 21.5) one_room))
     = (Return tt,
        snd (device_updateProperty (ecma := StringToNumber_digits)
               "A-1" "temperature" (num 21.5) one_room)).
Proof.
  assert (Hd : device_at "A-1" one_room = Some (0%nat, fresh_room))
    by reflexivity.
  assert (Hp : properties fresh_room !! "temperature"
               = Some {| property_class := ThermostatProperty;
                         value := JsUndefined |})
    by (vm_compute; reflexivity).
  assert (Hv : loosely_equal (ecma := StringToNumber_digits)
                 (num 21.5) (num 21.5) = true) by reflexivity.
  split; [exact Hd |]. split; [exact Hp |]. split; [exact Hv |].
  destruct (device_updateProperty_settles (ecma := StringToNumber_digits)
              "A-1" "temperature" (num 21.5) 0%nat fresh_room
              {| property_class := ThermostatProperty; value := JsUndefined |}
              one_room Hd Hp)
    as (_ & _ & _ & _ & _ & _ & _ & Hnotified & Hagain).
  split; [exact Hnotified | exact (proj2 (Hagain Hv))].
Defined.

Lemma update_room_stores_witness :
  device_at "A-1" one_room = Some (0%nat, fresh_room)
  /\ exists w' device',
       update_room (ecma := StringToNumber_digits) homeA room_report one_room
       = (Return tt, w')
       /\ objects w' = <[0%nat := device']> (objects one_room)
       /\ value <$> properties device' !! "temperature" = Some (num 21.5)
       /\ value <$> properties device' !! "heating" = Some (JsString "off").
Proof.
  assert (Hd : device_at "A-1" one_room = Some (0%nat, fresh_room))
    by reflexivity.
  split; [exact Hd |].
  destruct (update_room_stores (ecma := StringToNumber_digits)
              homeA room_report 0%nat fresh_room
              {| property_class := ThermostatProperty; value := JsUndefined |}
              {| property_class := TargetTemperatureProperty;
                 value := JsUndefined |}
              {| property_class := ThermostatProperty; value := JsUndefined |}
              one_room Hd ltac:(vm_compute; reflexivity)
              ltac:(vm_compute; reflexivity) ltac:(vm_compute; reflexivity))
    as (w' & device' & Hrun & Hobjects & _ & _ & Htemperature & _ & Hheating
        & _).
  exists w', device'. split; [exact Hrun |]. split; [exact Hobjects |].
  split; [exact Htemperature | exact Hheating].
Defined.




Lemma other_statuses_count_as_empty_witness :
  status server_error <> 200%Z /\ status server_error <> 403%Z
  /\ createDevices_resume server_error started
     = (Return tt,
        announce_devices (console_log "Got response for Home Data" started))
  /\ updateHomeData_home_resume (ecma := StringToNumber_digits)
       homeA server_error polling
     = (Throw TypeError, console_log "Got response for Home Status" polling).
Proof.
  assert (H200 : status server_error <> 200%Z) by discriminate.
  assert (H403 : status server_error <> 403%Z) by discriminate.
  split; [exact H200 |]. split; [exact H403 |].
  split.
  - destruct (other_statuses_count_as_empty (ecma := StringToNumber_digits)
                homeA server_error started) as (Hother & _).
    exact (proj1 (Hother H200 H403)).
  - destruct (other_statuses_count_as_empty (ecma := StringToNumber_digits)
                homeA server_error polling) as (Hother & _).
    exact (proj1 (proj2 (proj2 (proj2 (Hother H200 H403))))).
Defined.

Lemma getIds_loses_nothing_witness :
  id {| id := "thermostat-room-a-b-c"; properties := ∅ |}
  = DEVICE_PREFIX +:+ "a-b-c"
  /\ getIds {| id := "thermostat-room-a-b-c"; properties := ∅ |} = ["a"; "b"; "c"]
  /\ String.concat "-" (getIds {| id := "thermostat-room-a-b-c"; properties := ∅ |})
     = "a-b-c".
Proof.
  split; [reflexivity |]. split; [reflexivity |].
  destruct getIds_loses_nothing as (Hjoin & _).
  exact (proj1 (Hjoin {| id := "thermostat-room-a-b-c"; properties := ∅ |}
                  "a-b-c" eq_refl)).
Defined.


Lemma handleRequest_routes_witness :
  method stray_request <> "POST"
  /\ handleRequest stray_request (snd (listen CallbackAPIHandler_new))
     = ({| response_status := 404; contentType := None; content := None |},
        snd (listen CallbackAPIHandler_new)).
Proof.
  assert (Hmethod : method stray_request <> "POST") by discriminate.
  split; [exact Hmethod |].
  destruct (handleRequest_routes stray_request
              (snd (listen CallbackAPIHandler_new))) as (Hnot_found & _).
  exact (Hnot_found (or_introl Hmethod)).
Defined.

Lemma later_listener_takes_over_witness :
  listeners_exist CallbackAPIHandler_new
  /\ fst (listen CallbackAPIHandler_new) = 0%nat
  /\ fst (listen (snd (listen CallbackAPIHandler_new))) = 1%nat
  /\ successPromise
       <$> listener_heap (snd (handleRequest callback_request
                           (snd (listen (snd (listen CallbackAPIHandler_new))))))
           !! 0%nat
     = Some None
  /\ successPromise
       <$> listener_heap (snd (handleRequest callback_request
                           (snd (listen (snd (listen CallbackAPIHandler_new))))))
           !! 1%nat
     = Some (Some (request_body callback_request)).
Proof.
  assert (Hexist : listeners_exist CallbackAPIHandler_new) by constructor.
  split; [exact Hexist |]. split; [reflexivity |]. split; [reflexivity |].
  destruct (later_listener_takes_over CallbackAPIHandler_new [callback_request]
              Hexist) as (_ & Hfirst & Hsecond).
  split; [exact Hfirst |].
  exact (Hsecond callback_request [] eq_refl eq_refl eq_refl).
Defined.


Lemma init_outcomes_witness :
  refresh_token config0 <> ""
  /\ ~ ((0 < expiresIn 20000000 (boot config0))%Z /\ token config0 <> "")
  /\ reported (init 20000000 config0)
     = ["Netatmo Energy Devices could not be created."]
  /\ sent (world (init 20000000 config0)) = [refresh_request config0]
  /\ updateInterval (init 20000000 config0) = None.
Proof.
  assert (Hrt : refresh_token config0 <> "") by discriminate.
  assert (Hexpired : ~ ((0 < expiresIn 20000000 (boot config0))%Z
                        /\ token config0 <> "")).
  { intros [Hpos _]. vm_compute in Hpos. discriminate Hpos. }
  split; [exact Hrt |]. split; [exact Hexpired |].
  destruct (init_outcomes 20000000 config0) as (_ & _ & Hfails).
  destruct (Hfails Hrt Hexpired) as (Hreported & Hsent & _ & _ & _ & Hinterval & _).
  split; [exact Hreported |]. split; [exact Hsent | exact Hinterval].
Defined.


Lemma refresh_cycle_witness :
  armed started
  /\ exists t,
       timers started = [t]
       /\ armed
            (step (ecma := StringToNumber_digits)
               (Answer 3000 3001 (length (sent started))
                  {| status := 200; json := JsonToken "t1" (Some 10800%Z) "r1" |})
               (step (ecma := StringToNumber_digits) (Fire (handle t)) started)).
Proof.
  assert (Harmed : armed started).
  { exists {| handle := 0; delay := 9999000 |}.
    split; [vm_compute; reflexivity |]. split; [vm_compute; reflexivity |].
    split; [vm_compute; lia |]. split; [vm_compute; discriminate |].
    split; [vm_compute; discriminate |]. vm_compute. constructor. }
  split; [exact Harmed |].
  destruct (refresh_cycle (ecma := StringToNumber_digits)
              3000 3001 10800 "t1" "r1" started Harmed
              ltac:(discriminate) ltac:(discriminate) ltac:(lia) ltac:(lia))
    as (t & Htimers & _ & _ & _ & Hagain & _).
  exists t. split; [exact Htimers | exact Hagain].
Defined.
